(** * Beeper message-store listener: a shallow embedding and its properties

    The development follows [BeeperDatabaseListener.py] and
    [SubjectiveBeeperRealTimeDataSource.py].  Both files carry the same
    row-decoding code (inlined in [get_recent_messages] and in
    [get_thread_messages]); the embedding writes that block once, as
    [Reader.decode_row], and the two readers call it.

    Conventions.
    - Python [str] is [string]; a character is a code point below 256, so
      [lower], [strip] and [repr] are written out for that range.
    - Values produced by [json.loads] are [pyval].  A Python float is carried
      by its [repr] text, the only thing (with truthiness) the code observes.
    - [json.loads], [datetime.fromtimestamp(..).strftime(..)] and
      [time.sleep] are library code: the model takes them as Section
      variables, so every theorem holds for whatever they compute.  A
      reference decoder ([Json.loads]), a UTC formatter ([Clock.strftime]) and
      a reference [Clock.sleep] instantiate them in the closed examples.
    - The columns have the types of the schema the queries assume: room id,
      event id and type are TEXT, the timestamp and the flags are INTEGER,
      the other columns are nullable TEXT.
    - The store is three tables; each query is written clause by clause
      (joins, WHERE, ORDER BY, LIMIT).  SQLite does not fix the order of
      lines with equal timestamps; the model keeps the order of the join
      (a stable sort).
    - Exceptions are values of [exn]; a method runs in the monad [M], which
      keeps the object state when an exception unwinds.  [KeyboardInterrupt]
      and task cancellation are not exceptions of the model: a monitoring
      loop ends when the list of store snapshots it is given is used up, or
      when its pause raises.
    - What a method prints or logs is a list of events; of the banner of
      [start_monitoring] two lines are kept.
    - [get_room_info] ([Rooms]) and [_cfg] and [test_connection] ([Config])
      take what they read from outside (the threads table, the session, the
      environment, the file system) as arguments or Section variables. *)

From Stdlib Require Import ZArith List String Ascii Bool Lia DecimalString PeanoNat Sorted.
Import ListNotations.
Local Open Scope string_scope.
Local Open Scope Z_scope.

(* ================================================================== *)
(** ** Python strings *)
(* ================================================================== *)

Module PyStr.

Definition ord (c : ascii) : Z := Z.of_N (N_of_ascii c).
Definition chr (n : Z) : ascii := ascii_of_N (Z.to_N n).

(** [str.lower] on one code point below 256: A-Z and the Latin-1 capitals
    (U+00C0..U+00DE without the multiplication sign U+00D7) move by 32. *)
Definition lower_char (c : ascii) : ascii :=
  let n := ord c in
  if ((65 <=? n) && (n <=? 90)) || ((192 <=? n) && (n <=? 222) && negb (n =? 215))
  then chr (n + 32) else c.

Fixpoint lower (s : string) : string :=
  match s with
  | EmptyString => EmptyString
  | String c r => String (lower_char c) (lower r)
  end.

(** [str.isspace] for one code point below 256. *)
Definition is_space (c : ascii) : bool :=
  let n := ord c in
  ((9 <=? n) && (n <=? 13)) || ((28 <=? n) && (n <=? 32)) || (n =? 133) || (n =? 160).

Fixpoint lstrip (s : string) : string :=
  match s with
  | EmptyString => EmptyString
  | String c r => if is_space c then lstrip r else s
  end.

(** [rstrip]: a character is dropped when it is white space and everything
    after it has been dropped. *)
Fixpoint rstrip (s : string) : string :=
  match s with
  | EmptyString => EmptyString
  | String c r =>
      match rstrip r with
      | EmptyString => if is_space c then EmptyString else String c EmptyString
      | r' => String c r'
      end
  end.

Definition strip (s : string) : string := rstrip (lstrip s).

Fixpoint starts_with (p s : string) : bool :=
  match p, s with
  | EmptyString, _ => true
  | String a p', String b s' => Ascii.eqb a b && starts_with p' s'
  | String _ _, EmptyString => false
  end.

(** [needle in hay] *)
Fixpoint contains (needle hay : string) : bool :=
  starts_with needle hay ||
  match hay with
  | EmptyString => false
  | String _ r => contains needle r
  end.

(** [s[:n]] for [n >= 0] *)
Fixpoint take (n : nat) (s : string) : string :=
  match n, s with
  | S n', String c r => String c (take n' r)
  | _, _ => EmptyString
  end.

Fixpoint mem_char (c : ascii) (s : string) : bool :=
  match s with
  | EmptyString => false
  | String d r => Ascii.eqb c d || mem_char c r
  end.

Fixpoint join (sep : string) (l : list string) : string :=
  match l with
  | [] => ""
  | [x] => x
  | x :: r => x ++ sep ++ join sep r
  end.

(** [str(n)] for an int *)
Definition of_Z (z : Z) : string := NilZero.string_of_int (Z.to_int z).

Definition hex_digit (n : Z) : ascii :=
  if n <? 10 then chr (48 + n) else chr (87 + n).

Definition dquote : ascii := chr 34.
Definition backslash : ascii := chr 92.

(** [repr] of one character inside quotes [q]. *)
Definition repr_char (q c : ascii) : string :=
  let n := ord c in
  if Ascii.eqb c q || Ascii.eqb c backslash then String backslash (String c "")
  else if n =? 9 then "\t"
  else if n =? 10 then "\n"
  else if n =? 13 then "\r"
  else if (n <? 32) || ((127 <=? n) && (n <=? 160)) || (n =? 173)
       then String backslash (String "x" (String (hex_digit (n / 16)) (String (hex_digit (n mod 16)) "")))
  else String c "".

Fixpoint repr_body (q : ascii) (s : string) : string :=
  match s with
  | EmptyString => ""
  | String c r => repr_char q c ++ repr_body q r
  end.

(** [repr(s)]: single quotes, unless the text has a single quote and no
    double quote. *)
Definition repr (s : string) : string :=
  let q := if mem_char "'" s && negb (mem_char dquote s) then dquote else "'"%char in
  String q (repr_body q s ++ String q "").

End PyStr.

(* ================================================================== *)
(** ** Python values *)
(* ================================================================== *)

Set Warnings "-register-all".

(** What [json.loads] returns, and what the fields of a message hold. *)
Inductive pyval : Type :=
| PNone
| PBool (b : bool)
| PInt (z : Z)
| PFloat (repr : string)
| PStr (s : string)
| PList (l : list pyval)
| PDict (d : list (string * pyval)).

Definition is_nil {A} (l : list A) : bool :=
  match l with [] => true | _ :: _ => false end.

(** [bool(v)] *)
Definition truthy (v : pyval) : bool :=
  match v with
  | PNone => false
  | PBool b => b
  | PInt z => negb (z =? 0)
  | PFloat r => negb ((r =? "0.0")%string || (r =? "-0.0")%string)
  | PStr s => negb (s =? "")%string
  | PList l => negb (is_nil l)
  | PDict d => negb (is_nil d)
  end.

(** [type(v).__name__], as it appears in an AttributeError message. *)
Definition type_name (v : pyval) : string :=
  match v with
  | PNone => "NoneType"
  | PBool _ => "bool"
  | PInt _ => "int"
  | PFloat _ => "float"
  | PStr _ => "str"
  | PList _ => "list"
  | PDict _ => "dict"
  end.

Fixpoint py_repr (v : pyval) : string :=
  match v with
  | PNone => "None"
  | PBool b => if b then "True" else "False"
  | PInt z => PyStr.of_Z z
  | PFloat r => r
  | PStr s => PyStr.repr s
  | PList l => "[" ++ PyStr.join ", " (map py_repr l) ++ "]"
  | PDict d =>
      "{" ++ PyStr.join ", " (map (fun '(k, x) => PyStr.repr k ++ ": " ++ py_repr x) d) ++ "}"
  end.

(** [str(v)], also what an f-string field renders. *)
Definition py_str (v : pyval) : string :=
  match v with
  | PStr s => s
  | _ => py_repr v
  end.

(** A nullable TEXT column read through the sqlite3 module: NULL is [None]. *)
Definition of_column (c : option string) : pyval :=
  match c with
  | None => PNone
  | Some s => PStr s
  end.

Fixpoint assoc (k : string) (d : list (string * pyval)) : option pyval :=
  match d with
  | [] => None
  | (k', v) :: r => if (k =? k')%string then Some v else assoc k r
  end.

(** [d[k] = v] on an insertion-ordered dict. *)
Fixpoint dict_set (d : list (string * pyval)) (k : string) (v : pyval) : list (string * pyval) :=
  match d with
  | [] => [(k, v)]
  | (k', v') :: r => if (k =? k')%string then (k', v) :: r else (k', v') :: dict_set r k v
  end.

(* ================================================================== *)
(** ** A reference JSON decoder *)
(* ================================================================== *)

(** The decoder follows the scanner of Python's [json] module on the part of
    JSON the examples use: objects, arrays, strings with their escapes,
    integers, [true], [false], [null] and the three float constants.  A number
    with a fraction or an exponent, and a [\u] escape above U+00FF, are outside
    this part and are refused.  [None] stands for [JSONDecodeError]. *)
Module Json.

Definition is_ws (c : ascii) : bool :=
  let n := PyStr.ord c in (n =? 32) || (n =? 9) || (n =? 10) || (n =? 13).

Fixpoint skip_ws (s : string) : string :=
  match s with
  | String c r => if is_ws c then skip_ws r else s
  | EmptyString => s
  end.

Definition is_digit (c : ascii) : bool :=
  let n := PyStr.ord c in (48 <=? n) && (n <=? 57).

Definition hex_value (c : ascii) : option Z :=
  let n := PyStr.ord c in
  if (48 <=? n) && (n <=? 57) then Some (n - 48)
  else if (97 <=? n) && (n <=? 102) then Some (n - 87)
  else if (65 <=? n) && (n <=? 70) then Some (n - 55)
  else None.

Definition hex4 (a b c d : ascii) : option Z :=
  match hex_value a, hex_value b, hex_value c, hex_value d with
  | Some x, Some y, Some z, Some w => Some (((x * 16 + y) * 16 + z) * 16 + w)
  | _, _, _, _ => None
  end.

Definition unescape (c : ascii) : option ascii :=
  let n := PyStr.ord c in
  if (n =? 34) || (n =? 92) || (n =? 47) then Some c
  else if n =? 98 then Some (PyStr.chr 8)
  else if n =? 102 then Some (PyStr.chr 12)
  else if n =? 110 then Some (PyStr.chr 10)
  else if n =? 114 then Some (PyStr.chr 13)
  else if n =? 116 then Some (PyStr.chr 9)
  else None.

Definition cons_char (c : option ascii) (t : option (string * string)) : option (string * string) :=
  match c, t with
  | Some x, Some (body, rest) => Some (String x body, rest)
  | _, _ => None
  end.

(** The text after an opening quote, up to the closing one, and what follows
    it.  A raw control character is refused (the module's strict mode). *)
Fixpoint scan_string (s : string) : option (string * string) :=
  match s with
  | EmptyString => None
  | String c r =>
      let n := PyStr.ord c in
      if n =? 34 then Some (EmptyString, r)
      else if n <? 32 then None
      else if n =? 92 then
        match r with
        | EmptyString => None
        | String e r' =>
            if PyStr.ord e =? 117 then
              match r' with
              | String h1 (String h2 (String h3 (String h4 r''))) =>
                  match hex4 h1 h2 h3 h4 with
                  | Some code =>
                      if code <? 256 then cons_char (Some (PyStr.chr code)) (scan_string r'')
                      else None
                  | None => None
                  end
              | _ => None
              end
            else cons_char (unescape e) (scan_string r')
        end
      else cons_char (Some c) (scan_string r)
  end.

Fixpoint scan_digits (acc : Z) (s : string) : Z * string :=
  match s with
  | String c r => if is_digit c then scan_digits (acc * 10 + (PyStr.ord c - 48)) r else (acc, s)
  | EmptyString => (acc, s)
  end.

(** An integer literal [0] or [[1-9][0-9]*]; a fraction or an exponent after
    it makes the number a float, which this decoder refuses. *)
Definition scan_nat (s : string) : option (Z * string) :=
  match s with
  | String c r =>
      if is_digit c then
        let '(n, rest) := if PyStr.ord c =? 48 then (0, r) else scan_digits (PyStr.ord c - 48) r in
        match rest with
        | String d _ =>
            let k := PyStr.ord d in
            if (k =? 46) || (k =? 101) || (k =? 69) then None else Some (n, rest)
        | EmptyString => Some (n, rest)
        end
      else None
  | EmptyString => None
  end.

Definition literal (word : string) (v : pyval) (s : string) : option (pyval * string) :=
  if PyStr.starts_with word s
  then Some (v, substring (String.length word) (String.length s - String.length word) s)
  else None.

Inductive mode : Type :=
| MValue
| MElems (acc : list pyval)
| MMembers (acc : list (string * pyval)).

(** [MValue]: one value starting at [s].  [MElems acc]: the rest of an array
    whose earlier elements are [acc] (latest first), [s] at the next value.
    [MMembers acc]: the rest of an object, [s] at the next key. *)
Fixpoint parse (fuel : nat) (m : mode) (s : string) : option (pyval * string) :=
  match fuel with
  | O => None
  | S fuel =>
      match m with
      | MValue =>
          match s with
          | EmptyString => None
          | String c r =>
              let n := PyStr.ord c in
              if n =? 34 then
                match scan_string r with
                | Some (t, rest) => Some (PStr t, rest)
                | None => None
                end
              else if n =? 123 then
                match skip_ws r with
                | String c' r' =>
                    if PyStr.ord c' =? 125 then Some (PDict [], r')
                    else parse fuel (MMembers []) (String c' r')
                | EmptyString => None
                end
              else if n =? 91 then
                match skip_ws r with
                | String c' r' =>
                    if PyStr.ord c' =? 93 then Some (PList [], r')
                    else parse fuel (MElems []) (String c' r')
                | EmptyString => None
                end
              else if n =? 110 then literal "null" PNone s
              else if n =? 116 then literal "true" (PBool true) s
              else if n =? 102 then literal "false" (PBool false) s
              else if n =? 78 then literal "NaN" (PFloat "nan") s
              else if n =? 73 then literal "Infinity" (PFloat "inf") s
              else if n =? 45 then
                match literal "-Infinity" (PFloat "-inf") s with
                | Some x => Some x
                | None =>
                    match scan_nat r with
                    | Some (k, rest) => Some (PInt (- k), rest)
                    | None => None
                    end
                end
              else
                match scan_nat s with
                | Some (k, rest) => Some (PInt k, rest)
                | None => None
                end
          end
      | MElems acc =>
          match parse fuel MValue s with
          | Some (v, rest) =>
              match skip_ws rest with
              | String c r =>
                  if PyStr.ord c =? 44 then parse fuel (MElems (v :: acc)) (skip_ws r)
                  else if PyStr.ord c =? 93 then Some (PList (rev (v :: acc)), r)
                  else None
              | EmptyString => None
              end
          | None => None
          end
      | MMembers acc =>
          match s with
          | String q r =>
              if PyStr.ord q =? 34 then
                match scan_string r with
                | Some (k, r1) =>
                    match skip_ws r1 with
                    | String colon r2 =>
                        if PyStr.ord colon =? 58 then
                          match parse fuel MValue (skip_ws r2) with
                          | Some (v, r3) =>
                              match skip_ws r3 with
                              | String c r4 =>
                                  if PyStr.ord c =? 44
                                  then parse fuel (MMembers (dict_set acc k v)) (skip_ws r4)
                                  else if PyStr.ord c =? 125
                                  then Some (PDict (dict_set acc k v), r4)
                                  else None
                              | EmptyString => None
                              end
                          | None => None
                          end
                        else None
                    | EmptyString => None
                    end
                | None => None
                end
              else None
          | EmptyString => None
          end
      end
  end.

(** [json.loads(s)] on a [str]. *)
Definition loads (s : string) : option pyval :=
  match parse (2 * String.length s + 2) MValue (skip_ws s) with
  | Some (v, rest) =>
      match skip_ws rest with
      | EmptyString => Some v
      | String _ _ => None
      end
  | None => None
  end.

End Json.

(* ================================================================== *)
(** ** Exceptions and the two monads *)
(* ================================================================== *)

(** The exception classes that reach a handler of this code; all derive from
    [Exception].  [DatabaseError] stands for [sqlite3.Error] and its
    subclasses.  A [JSONDecodeError] is not among them: each [json.loads]
    stands in a [try] whose handler takes it on the spot, which the model
    writes as a match on the decoder's result. *)
Inductive exn : Type :=
| TypeError (msg : string)
| AttributeError (msg : string)
| ValueError (msg : string)
| OverflowError (msg : string)
| DatabaseError (msg : string).

(** [str(e)], as an f-string renders it in a log line. *)
Definition exn_str (e : exn) : string :=
  match e with
  | TypeError m | AttributeError m | ValueError m | OverflowError m | DatabaseError m => m
  end.

(** Pure code that may raise. *)
Definition E (A : Type) : Type := (exn + A)%type.

Definition Eret {A} (a : A) : E A := inr a.
Definition Eraise {A} (e : exn) : E A := inl e.
Definition Ebind {A B} (c : E A) (k : A -> E B) : E B :=
  match c with
  | inl e => inl e
  | inr a => k a
  end.

Notation "'let?' x ':=' c 'in' k" := (Ebind c (fun x => k))
  (at level 10, x name, c at level 100, k at level 200).

(** A method: it reads and writes the state [S] and may raise; what it wrote
    before raising stays written. *)
Definition M (S A : Type) : Type := S -> E A * S.

Definition ret {S A} (a : A) : M S A := fun s => (inr a, s).
Definition raise {S A} (e : exn) : M S A := fun s => (inl e, s).
Definition bind {S A B} (c : M S A) (k : A -> M S B) : M S B :=
  fun s =>
    match c s with
    | (inl e, s') => (inl e, s')
    | (inr a, s') => k a s'
    end.
Definition lift {S A} (c : E A) : M S A := fun s => (c, s).
Definition get {S} : M S S := fun s => (inr s, s).
Definition modify {S} (f : S -> S) : M S unit := fun s => (inr tt, f s).

(** [try: c  except Exception as e: h e] *)
Definition try_except {S A} (c : M S A) (h : exn -> M S A) : M S A :=
  fun s =>
    match c s with
    | (inl e, s') => h e s'
    | (inr a, s') => (inr a, s')
    end.

(** [try: c  finally: f] *)
Definition try_finally {S A} (c : M S A) (f : M S unit) : M S A :=
  fun s =>
    match c s with
    | (r, s') =>
        match f s' with
        | (inl e, s'') => (inl e, s'')
        | (inr _, s'') => (r, s'')
        end
    end.

Declare Scope method_scope.
Delimit Scope method_scope with method.
Notation "x <- c ;; k" := (bind c (fun x => k))
  (at level 61, c at next level, right associativity) : method_scope.
Notation "c ;; k" := (bind c (fun _ => k))
  (at level 61, right associativity) : method_scope.

(* ================================================================== *)
(** ** A reference clock: local time taken as UTC *)
(* ================================================================== *)

Module Clock.

Definition pad2 (n : Z) : string :=
  if n <? 10 then "0" ++ PyStr.of_Z n else PyStr.of_Z n.

(** Day number since 1970-01-01 to (year, month, day), proleptic Gregorian. *)
Definition civil_from_days (days : Z) : Z * Z * Z :=
  let z := days + 719468 in
  let era := z / 146097 in
  let doe := z - era * 146097 in
  let yoe := (doe - doe / 1460 + doe / 36524 - doe / 146096) / 365 in
  let doy := doe - (365 * yoe + yoe / 4 - yoe / 100) in
  let mp := (5 * doy + 2) / 153 in
  let d := doy - (153 * mp + 2) / 5 + 1 in
  let m := if mp <? 10 then mp + 3 else mp - 9 in
  let y := yoe + era * 400 + (if m <=? 2 then 1 else 0) in
  (y, m, d).

(** [datetime.fromtimestamp(ms / 1000).strftime('%Y-%m-%d %H:%M:%S')] with the
    local zone at UTC; a year outside 1..9999 is out of [datetime]'s range. *)
Definition strftime (ms : Z) : E string :=
  let secs := ms / 1000 in
  let '(y, m, d) := civil_from_days (secs / 86400) in
  let t := secs mod 86400 in
  if (y <? 1) || (9999 <? y)
  then Eraise (ValueError ("year " ++ PyStr.of_Z y ++ " is out of range"))
  else Eret (PyStr.of_Z y ++ "-" ++ pad2 m ++ "-" ++ pad2 d ++ " "
             ++ pad2 (t / 3600) ++ ":" ++ pad2 (t mod 3600 / 60) ++ ":" ++ pad2 (t mod 60)).

(** [time.sleep(secs)] as CPython 3.11 answers it, [inr tt] once it has slept.
    A number is converted to nanoseconds in 64 bits (at most 9223372036
    seconds) and must not be negative; anything else than a number is refused.
    A finite float, known by its [repr] only, is taken to be within the range
    of the timer. *)
Definition sleep (secs : pyval) : E unit :=
  match secs with
  | PBool _ => Eret tt
  | PInt z =>
      if (z <? -9223372036) || (9223372036 <? z)
      then Eraise (OverflowError "timestamp too large to convert to C _PyTime_t")
      else if z <? 0 then Eraise (ValueError "sleep length must be non-negative")
      else Eret tt
  | PFloat r =>
      if (r =? "nan")%string then Eraise (ValueError "Invalid value NaN (not a number)")
      else if ((r =? "inf") || (r =? "-inf"))%string
      then Eraise (OverflowError "timestamp too large to convert to C _PyTime_t")
      else
        match r with
        | String "-" _ =>
            if (r =? "-0.0")%string then Eret tt
            else Eraise (ValueError "sleep length must be non-negative")
        | _ => Eret tt
        end
  | _ => Eraise (TypeError ("'" ++ type_name secs ++ "' object cannot be interpreted as an integer"))
  end.

End Clock.

(* ================================================================== *)
(** ** The message store *)
(* ================================================================== *)

(** The three tables the two queries read, with the columns they name. *)
Module Store.

Record mx_room_message : Type := {
  roomID : string;
  senderContactID : option string;
  message : option string;
  timestamp : Z;
  eventID : string;
  type : string;
  isSentByMe : Z;
  isEncrypted : Z;
  inReplyToID : option string;
  text_content : option string;
  text_formattedContent : option string;
  isDeleted : Z
}.

Record user_record : Type := {
  userID : string;
  user : option string;
  accountID : option string
}.

Record account_record : Type := {
  account_accountID : string;
  platformName : option string
}.

Record database : Type := {
  mx_room_messages : list mx_room_message;
  users : list user_record;
  accounts : list account_record
}.

(** One line of the join, before the SELECT list is applied. *)
Definition joined : Type := (mx_room_message * option user_record * option account_record)%type.

(** [LEFT JOIN users u ON m.senderContactID = u.userID]: a NULL sender
    matches nothing, and a message without a match keeps NULL columns. *)
Definition join_users (db : database) (m : mx_room_message) : list (option user_record) :=
  match senderContactID m with
  | None => [None]
  | Some sid =>
      match filter (fun u => (sid =? userID u)%string) (users db) with
      | [] => [None]
      | us => map Some us
      end
  end.

(** [LEFT JOIN accounts a ON u.accountID = a.accountID] *)
Definition join_accounts (db : database) (u : option user_record) : list (option account_record) :=
  match u with
  | None => [None]
  | Some u' =>
      match accountID u' with
      | None => [None]
      | Some aid =>
          match filter (fun a => (aid =? account_accountID a)%string) (accounts db) with
          | [] => [None]
          | l => map Some l
          end
      end
  end.

Definition from_clause (db : database) : list joined :=
  flat_map (fun m =>
    flat_map (fun u => map (fun a => (m, u, a)) (join_accounts db u)) (join_users db m))
    (mx_room_messages db).

Definition msg_of (j : joined) : mx_room_message := fst (fst j).

Definition allowed_types : list string := ["TEXT"; "MEDIA"; "FILE"; "LOCATION"; "STICKER"].

Definition type_allowed (t : string) : bool := existsb (String.eqb t) allowed_types.

(** [AND m.type IN (...) AND m.isDeleted = 0] *)
Definition surfaced (j : joined) : bool :=
  type_allowed (type (msg_of j)) && (isDeleted (msg_of j) =? 0).

(** [ORDER BY key]: insertion sort; lines with equal keys keep the order of
    the join.  [le a b] says that [a] may stand before [b]. *)
Fixpoint insert_by {A} (le : A -> A -> bool) (x : A) (l : list A) : list A :=
  match l with
  | [] => [x]
  | y :: r => if le x y then x :: l else y :: insert_by le x r
  end.

Fixpoint order_by {A} (le : A -> A -> bool) (l : list A) : list A :=
  match l with
  | [] => []
  | x :: r => insert_by le x (order_by le r)
  end.

Definition ts_desc (a b : joined) : bool := timestamp (msg_of b) <=? timestamp (msg_of a).
Definition ts_asc (a b : joined) : bool := timestamp (msg_of a) <=? timestamp (msg_of b).

(** [LIMIT n]: a negative bound means no bound in SQLite. *)
Definition limit_clause {A} (n : Z) (l : list A) : list A :=
  if n <? 0 then l else firstn (Z.to_nat n) l.

End Store.

(* ================================================================== *)
(** ** Rows and messages *)
(* ================================================================== *)

(** One fetched row: the thirteen columns of the SELECT list, named as the
    loop unpacks them. *)
Module Row.

Record t : Type := {
  room_id : string;
  sender_id : option string;
  message_json : option string;
  timestamp : Z;
  event_id : string;
  msg_type : string;
  is_sent_by_me : Z;
  is_encrypted : Z;
  in_reply_to : option string;
  text_content : option string;
  formatted_content : option string;
  sender_user_json : option string;
  network_type : option string
}.

Definition select (j : Store.joined) : t :=
  let '(m, u, a) := j in
  {| room_id := Store.roomID m;
     sender_id := Store.senderContactID m;
     message_json := Store.message m;
     timestamp := Store.timestamp m;
     event_id := Store.eventID m;
     msg_type := Store.type m;
     is_sent_by_me := Store.isSentByMe m;
     is_encrypted := Store.isEncrypted m;
     in_reply_to := Store.inReplyToID m;
     text_content := Store.text_content m;
     formatted_content := Store.text_formattedContent m;
     sender_user_json := match u with Some u' => Store.user u' | None => None end;
     network_type := match a with Some a' => Store.platformName a' | None => None end |}.

End Row.

(** The dict built for one message, key by key. *)
Module Message.

Record t : Type := {
  room_id : string;
  thread_id : string;
  thread_name : string;
  sender_id : option string;
  sender_name : pyval;
  network : string;
  text : string;
  timestamp : Z;
  event_id : string;
  message_type : string;
  is_sent_by_me : bool;
  is_encrypted : bool;
  is_reply : bool;
  reply_to_id : option string;
  human_time : string;
  raw_message_data : pyval;
  raw_sender_data : pyval
}.

End Message.

(** [cursor.execute(query, (self.last_timestamp, limit)); cursor.fetchall()]
    of [get_recent_messages]. *)
Definition recent_rows (db : Store.database) (last_timestamp limit : Z) : list Row.t :=
  map Row.select
    (Store.limit_clause limit
       (Store.order_by Store.ts_desc
          (filter (fun j => (last_timestamp <? Store.timestamp (Store.msg_of j)) && Store.surfaced j)
                  (Store.from_clause db)))).

(** [cursor.execute(query, (thread_id, limit)); cursor.fetchall()] of
    [get_thread_messages]. *)
Definition thread_rows (db : Store.database) (thread_id : string) (limit : Z) : list Row.t :=
  map Row.select
    (Store.limit_clause limit
       (Store.order_by Store.ts_asc
          (filter (fun j => (Store.roomID (Store.msg_of j) =? thread_id)%string && Store.surfaced j)
                  (Store.from_clause db)))).

(** [bool(x)] of an INTEGER column and of a nullable TEXT column. *)
Definition bool_of_int (z : Z) : bool := negb (z =? 0).
Definition bool_of_text (c : option string) : bool := truthy (of_column c).

(** [x if x else ...] on a nullable TEXT column: the text when the column is
    truthy (neither NULL nor empty). *)
Definition if_text (c : option string) : option string :=
  match c with
  | Some text => if (text =? "")%string then None else Some text
  | None => None
  end.

(** [d.get(key, default)]; an object without [get] raises. *)
Definition py_get (d : pyval) (key : string) (default : pyval) : E pyval :=
  match d with
  | PDict kvs => Eret (match assoc key kvs with Some v => v | None => default end)
  | _ => Eraise (AttributeError ("'" ++ type_name d ++ "' object has no attribute 'get'"))
  end.

(** [a or b]: [b] is evaluated only when [a] is falsy. *)
Definition py_or (a b : E pyval) : E pyval :=
  let? x := a in if truthy x then Eret x else b.

Infix "|or|" := py_or (at level 65, right associativity).

(** The network block (lines 94-106 of the listener), on its own. *)
Definition classify_network (sender_id network_type : option string) : string :=
  let network :=
    match network_type with
    | Some hint => if (hint =? "")%string then "unknown" else hint
    | None => "unknown"
    end in
  match sender_id with
  | Some sid =>
      if negb (sid =? "")%string then
        if PyStr.contains "whatsapp" (PyStr.lower sid) then "whatsapp"
        else if PyStr.contains "telegram" (PyStr.lower sid) then "telegram"
        else if PyStr.contains "linkedin" (PyStr.lower sid) then "linkedin"
        else if PyStr.contains "beeper.com" sid then "matrix"
        else if PyStr.contains "local-whatsapp" sid then "whatsapp"
        else network
      else network
  | None => network
  end.

Definition short_room (room_id : string) : string := PyStr.take 8 room_id.

(** [_generate_thread_name]: the body of the [try], then the method with its
    [except Exception] handler. *)
Definition thread_name_body (room_id network : string) (sender_data : pyval) : E string :=
  if (network =? "whatsapp")%string then
    let? named :=
      (if truthy sender_data then
         let? contact_name := py_get sender_data "displayName" PNone |or| py_get sender_data "name" PNone in
         if truthy contact_name then Eret (Some ("WhatsApp: " ++ py_str contact_name)) else Eret None
       else Eret None) in
    match named with
    | Some name => Eret name
    | None => Eret "WhatsApp Chat"
    end
  else if (network =? "telegram")%string then
    if PyStr.contains "telegram_" room_id then Eret "Telegram Bot/Channel" else Eret "Telegram Chat"
  else if (network =? "linkedin")%string then Eret "LinkedIn Chat"
  else if (network =? "matrix")%string then Eret "Matrix/Beeper Chat"
  else Eret ("Chat (" ++ short_room room_id ++ "...)").

Definition _generate_thread_name (room_id network : string) (sender_data : pyval) : string :=
  match thread_name_body room_id network sender_data with
  | inr name => name
  | inl _ => "Thread (" ++ short_room room_id ++ "...)"
  end.

(* ================================================================== *)
(** ** The reader and the poller *)
(* ================================================================== *)

(** What a method leaves outside the object: a diagnostic line ([print] in the
    listener, [BBLogger.log] in the data source; the emoji that open some of
    the data source's lines are left out), the lines that display one message,
    a message handed to [send_notification], and a sleep between two cycles. *)
Inductive event : Type :=
| Log (line : string)
| Display (m : Message.t)
| Notify (m : Message.t)
| Sleep.

(** The two classes; their readers differ in the error line only. *)
Inductive source_class : Type := Listener | DataSource.

Record state : Type := {
  db_path : option string;
  last_timestamp : Z;
  running : bool;
  out : list event
}.

Definition set_db_path (p : option string) (s : state) : state :=
  {| db_path := p; last_timestamp := last_timestamp s; running := running s; out := out s |}.
Definition set_last_timestamp (t : Z) (s : state) : state :=
  {| db_path := db_path s; last_timestamp := t; running := running s; out := out s |}.
Definition set_running (b : bool) (s : state) : state :=
  {| db_path := db_path s; last_timestamp := last_timestamp s; running := b; out := out s |}.
Definition record_event (e : event) (s : state) : state :=
  {| db_path := db_path s; last_timestamp := last_timestamp s;
     running := running s; out := out s ++ [e] |}.
Definition emit (e : event) : M state unit := modify (record_event e).

(** The list a call hands back. *)
Definition batch {S} (r : E (list Message.t) * S) : list Message.t :=
  match fst r with
  | inr l => l
  | inl _ => []
  end.

Module Reader.

Section Library.

(** [json.loads] on a [str]; [None] is [JSONDecodeError]. *)
Variable json_loads : string -> option pyval.

(** [datetime.fromtimestamp(ms / 1000).strftime('%Y-%m-%d %H:%M:%S')] *)
Variable strftime : Z -> E string.

(** [time.sleep(interval)]: [inr tt] once it has slept, or what it raises (a
    negative interval, or one that is no number). *)
Variable time_sleep : pyval -> E unit.

(** Lines 62-67: the payload, or an empty dict when the column is NULL, empty
    or not JSON. *)
Definition parse_message_json (message_json : option string) : pyval :=
  match if_text message_json with
  | Some text =>
      match json_loads text with
      | Some message_data => message_data
      | None => PDict []
      end
  | None => PDict []
  end.

(** Lines 70-75.  The conditional expression binds weaker than [or]: the whole
    chain is its first branch, and [''] its second. *)
Definition extract_text (text_content formatted_content : option string) (message_data : pyval) : E pyval :=
  if truthy message_data then
    Eret (of_column text_content) |or|
    Eret (of_column formatted_content) |or|
    py_get message_data "text" (PStr "") |or|
    py_get message_data "body" (PStr "") |or|
    py_get message_data "filename" (PStr "") |or|
    Eret (PStr (py_str message_data))
  else Eret (PStr "").

(** Line 78, [not text or text.strip() == '']: [None] when the row is to be
    skipped, the text otherwise. *)
Definition meaningful (text : pyval) : E (option string) :=
  if negb (truthy text) then Eret None
  else
    match text with
    | PStr s => if (PyStr.strip s =? "")%string then Eret None else Eret (Some s)
    | _ => Eraise (AttributeError ("'" ++ type_name text ++ "' object has no attribute 'strip'"))
    end.

(** Lines 82-92: [(sender_name, sender_data)].  The handler takes
    [JSONDecodeError] and [TypeError]; what [get] raises goes through it. *)
Definition sender_info (sender_id sender_user_json : option string) : E (pyval * pyval) :=
  match if_text sender_user_json with
  | Some text =>
      match json_loads text with
      | None => Eret (of_column sender_id, PDict [])
      | Some sender_data =>
          let? sender_name :=
            py_get sender_data "displayName" PNone |or|
            py_get sender_data "name" PNone |or|
            py_get sender_data "username" PNone |or|
            Eret (of_column sender_id) in
          Eret (sender_name, sender_data)
      end
  | None => Eret (of_column sender_id, PDict [])
  end.

(** The body of the [for row in rows] loop up to [messages.append]: [None]
    when the row is skipped by [continue]. *)
Definition decode_row (thread_id : string) (row : Row.t) : E (option Message.t) :=
  let message_data := parse_message_json (Row.message_json row) in
  let? text := extract_text (Row.text_content row) (Row.formatted_content row) message_data in
  let? kept := meaningful text in
  match kept with
  | None => Eret None
  | Some text =>
      let? sender := sender_info (Row.sender_id row) (Row.sender_user_json row) in
      let network := classify_network (Row.sender_id row) (Row.network_type row) in
      let thread_name := _generate_thread_name (Row.room_id row) network (snd sender) in
      let? human_time := strftime (Row.timestamp row) in
      Eret (Some
        {| Message.room_id := Row.room_id row;
           Message.thread_id := thread_id;
           Message.thread_name := thread_name;
           Message.sender_id := Row.sender_id row;
           Message.sender_name := fst sender;
           Message.network := network;
           Message.text := text;
           Message.timestamp := Row.timestamp row;
           Message.event_id := Row.event_id row;
           Message.message_type := Row.msg_type row;
           Message.is_sent_by_me := bool_of_int (Row.is_sent_by_me row);
           Message.is_encrypted := bool_of_int (Row.is_encrypted row);
           Message.is_reply := bool_of_text (Row.in_reply_to row);
           Message.reply_to_id := Row.in_reply_to row;
           Message.human_time := human_time;
           Message.raw_message_data := message_data;
           Message.raw_sender_data := snd sender |})
  end.

(** The decoder as [get_recent_messages] calls it: the thread is the room. *)
Definition decode_recent (row : Row.t) : E (option Message.t) := decode_row (Row.room_id row) row.

Local Open Scope method_scope.

Definition error_line (c : source_class) (e : exn) : string :=
  match c with
  | Listener => "Error reading database: " ++ exn_str e
  | DataSource => "Database error: " ++ exn_str e
  end.

(** The loop of [get_recent_messages]; [self.last_timestamp] is raised after
    a message is appended, so a skipped row leaves it alone. *)
Fixpoint recent_loop (rows : list Row.t) (messages : list Message.t) : M state (list Message.t) :=
  match rows with
  | [] => ret messages
  | row :: rest =>
      decoded <- lift (decode_row (Row.room_id row) row) ;;
      match decoded with
      | None => recent_loop rest messages
      | Some message =>
          s <- get ;;
          (if last_timestamp s <? Row.timestamp row
           then modify (set_last_timestamp (Row.timestamp row))
           else ret tt) ;;
          recent_loop rest (messages ++ [message])
      end
  end.

(** [get_recent_messages(limit)] / [_get_recent_messages(limit)].  [conn] is
    what connecting and running the query give: the tables, or the exception
    raised. *)
Definition get_recent_messages (c : source_class) (conn : E Store.database) (limit : Z)
  : M state (list Message.t) :=
  try_except
    (db <- lift conn ;;
     s <- get ;;
     recent_loop (recent_rows db (last_timestamp s) limit) [])
    (fun e => emit (Log (error_line c e)) ;; ret []).

Fixpoint thread_loop (thread_id : string) (rows : list Row.t) (messages : list Message.t)
  : M state (list Message.t) :=
  match rows with
  | [] => ret messages
  | row :: rest =>
      decoded <- lift (decode_row thread_id row) ;;
      match decoded with
      | None => thread_loop thread_id rest messages
      | Some message => thread_loop thread_id rest (messages ++ [message])
      end
  end.

(** [get_thread_messages(thread_id, limit)] *)
Definition get_thread_messages (conn : E Store.database) (thread_id : string) (limit : Z)
  : M state (list Message.t) :=
  try_except
    (db <- lift conn ;;
     thread_loop thread_id (thread_rows db thread_id limit) [])
    (fun e => emit (Log ("Error reading thread: " ++ exn_str e)) ;; ret []).

Fixpoint for_each {A} (l : list A) (body : A -> M state unit) : M state unit :=
  match l with
  | [] => ret tt
  | x :: r => body x ;; for_each r body
  end.

(** The pause that ends a cycle.  The listener calls [time.sleep(interval)]
    with the argument of [start_monitoring], inside the [try]: what it raises
    ends the loop.  The data source awaits [asyncio.sleep(1.0)], which raises
    nothing but the cancellation.  [Sleep] records a pause that took place. *)
Definition pause (c : source_class) (interval : pyval) : M state unit :=
  match c with
  | Listener => lift (time_sleep interval) ;; emit Sleep
  | DataSource => emit Sleep
  end.

(** The [while self.running] loop.  The store is read once per cycle: [conns]
    lists what each cycle's connection gives, and the loop is stopped from
    outside ([self.running] cleared, or the task cancelled in its sleep) when
    the list is used up. *)
Fixpoint monitoring_loop (c : source_class) (interval : pyval) (conns : list (E Store.database))
  : M state unit :=
  match conns with
  | [] => ret tt
  | conn :: later =>
      messages <- get_recent_messages c conn 50 ;;
      for_each messages (fun message =>
        match c with
        | Listener => emit (Display message)
        | DataSource => emit (Notify message) ;; emit (Display message)
        end) ;;
      pause c interval ;;
      monitoring_loop c interval later
  end.

(** Lines 333-370 of the listener and 115-151 of the data source: the loop
    inside [try ... except Exception ... finally]. *)
Definition guarded_loop (c : source_class) (interval : pyval) (conns : list (E Store.database))
  : M state unit :=
  modify (set_running true) ;;
  try_finally
    (try_except (monitoring_loop c interval conns)
       (fun e => emit (Log (match c with
                            | Listener => "Error during monitoring: "
                            | DataSource => "Monitoring error: "
                            end ++ exn_str e))))
    (modify (set_running false)).

(** [BeeperDatabaseListener.start_monitoring(interval)]: the banner, then the
    loop.  [interval] is whatever the caller passes (1.0 when left out). *)
Definition start_monitoring (interval : pyval) (conns : list (E Store.database)) : M state unit :=
  emit (Log "Starting Beeper database monitoring...") ;;
  s <- get ;;
  since <- lift (strftime (last_timestamp s)) ;;
  emit (Log ("Only showing messages NEWER than: " ++ since)) ;;
  guarded_loop Listener interval conns.

(** [SubjectiveBeeperRealTimeDataSource._start_monitoring], lines 105-109.
    The [return] of line 109 stands at the level of the [if], not inside it:
    the method ends there whether or not the file exists. *)
Definition _start_monitoring (configured_path : string) (path_exists : bool)
  (conns : list (E Store.database)) : M state unit :=
  modify (set_db_path (Some configured_path)) ;;
  (if negb path_exists
   then emit (Log ("Database not found: " ++ configured_path))
   else ret tt) ;;
  ret tt.

(** Lines 111-151 of the data source, which no call reaches. *)
Definition _start_monitoring_unreached (conns : list (E Store.database)) : M state unit :=
  emit (Log "Starting Beeper database monitoring...") ;;
  s <- get ;;
  since <- lift (strftime (last_timestamp s)) ;;
  emit (Log ("Only showing messages NEWER than: " ++ since)) ;;
  guarded_loop DataSource (PFloat "1.0") conns.

(** [N] poll cycles: one [get_recent_messages(limit=50)] per cycle, as the
    monitoring loop issues them; the result lists each cycle's batch. *)
Fixpoint poll_cycles (c : source_class) (conns : list (E Store.database)) (s : state)
  : list (list Message.t) * state :=
  match conns with
  | [] => ([], s)
  | conn :: later =>
      let r := get_recent_messages c conn 50 s in
      let '(batches, s') := poll_cycles c later (snd r) in
      (batch r :: batches, s')
  end.

End Library.

End Reader.

(* ================================================================== *)
(** ** The other methods of the two classes *)
(* ================================================================== *)

(** [BeeperDatabaseListener.__init__(db_path)]: [now] is
    [int(time.time() * 1000)] and [home_default] the expanded default path. *)
Definition init (now : Z) (home_default : string) (path : option string) : state :=
  {| db_path := Some (match path with Some p => p | None => home_default end);
     last_timestamp := now;
     running := false;
     out := [] |}.

(** The messages a trace displays, and its sleeps. *)
Fixpoint displayed (trace : list event) : list Message.t :=
  match trace with
  | [] => []
  | Display m :: r => m :: displayed r
  | _ :: r => displayed r
  end.

Fixpoint sleeps (trace : list event) : nat :=
  match trace with
  | [] => 0%nat
  | Sleep :: r => S (sleeps r)
  | _ :: r => sleeps r
  end.

(** [get_room_info] of the listener. *)
Module Rooms.

(** The threads table, with the columns the query names. *)
Record thread_record : Type := {
  threadID : string;
  thread : option string;
  timestamp : option Z
}.

(** The dict the method returns. *)
Record room_info : Type := {
  room_id : string;
  thread_data : pyval;
  last_activity : option Z
}.

(** [SELECT t.thread, t.timestamp FROM threads t WHERE t.threadID = ? LIMIT 1]
    and [fetchone()]. *)
Definition fetchone (threads : list thread_record) (room : string) : option thread_record :=
  match filter (fun t => (threadID t =? room)%string) threads with
  | [] => None
  | t :: _ => Some t
  end.

Section Library.

Variable json_loads : string -> option pyval.

(** [str(e)] of the [JSONDecodeError] that [json.loads] raises on a text. *)
Variable json_error : string -> string.

Local Open Scope method_scope.

(** Line 309, [json.loads(row[0]) if row[0] else {}]: no handler of its own
    here, a text that is not JSON raises ([JSONDecodeError] is a
    [ValueError]). *)
Definition load_thread (blob : option string) : M state pyval :=
  match if_text blob with
  | Some text =>
      match json_loads text with
      | Some thread_data => ret thread_data
      | None => raise (ValueError (json_error text))
      end
  | None => ret (PDict [])
  end.

(** [get_room_info(room_id)]; [conn] is what connecting and running the query
    give: the threads table, or the exception raised. *)
Definition get_room_info (conn : E (list thread_record)) (room : string)
  : M state (option room_info) :=
  try_except
    (threads <- lift conn ;;
     match fetchone threads room with
     | Some row =>
         thread_data <- load_thread (thread row) ;;
         ret (Some {| room_id := room;
                      thread_data := thread_data;
                      last_activity := timestamp row |})
     | None => ret None
     end)
    (fun e => emit (Log ("Error getting room info: " ++ exn_str e)) ;; ret None).

End Library.

End Rooms.

(** [_cfg] and [test_connection] of the data source. *)
Module Config.

Section World.

(** [str.upper], [os.getenv], [os.path.exists] (which raises on an object that
    is no path), and connecting to a path and fetching
    [SELECT COUNT( * ) FROM mx_room_messages]. *)
Variable upper : string -> string.
Variable getenv : string -> option string.
Variable path_exists : pyval -> E bool.
Variable count_messages : pyval -> E Z.

(** [self._session.get(key)] when there is a session that is not empty. *)
Definition session_value (session : option (list (string * pyval))) (key : string) : pyval :=
  match session with
  | Some d => if truthy (PDict d) then match assoc key d with Some v => v | None => PNone end
              else PNone
  | None => PNone
  end.

Definition is_none (v : pyval) : bool :=
  match v with
  | PNone => true
  | _ => false
  end.

(** [_cfg(key, default)]: the session, then the environment with the
    [BEEPER_] prefix, then the default. *)
Definition _cfg (session : option (list (string * pyval))) (key : string) (default : pyval) : pyval :=
  let value := session_value session key in
  if negb (is_none value) then value
  else
    match getenv ("BEEPER_" ++ upper key) with
    | Some env_value => PStr env_value
    | None => default
    end.

Local Open Scope method_scope.

(** [test_connection()] *)
Definition test_connection (session : option (list (string * pyval))) (home_default : string)
  : M state bool :=
  try_except
    (let db_path := _cfg session "database_path" (PStr home_default) in
     found <- lift (path_exists db_path) ;;
     if negb found then
       emit (Log ("Database file not found: " ++ py_str db_path)) ;; ret false
     else
       count <- lift (count_messages db_path) ;;
       emit (Log ("Database connection successful. Found " ++ PyStr.of_Z count ++ " messages.")) ;;
       ret true)
    (fun e => emit (Log ("Database connection failed: " ++ exn_str e)) ;; ret false).

End World.

End Config.

(* ================================================================== *)
(** ** What the loops compute, without the monad *)
(* ================================================================== *)

Section Loops.

Variable decode : Row.t -> E (option Message.t).

(** The messages appended before the loop ends or a row raises. *)
Fixpoint appended (rows : list Row.t) : list Message.t :=
  match rows with
  | [] => []
  | row :: rest =>
      match decode row with
      | inl _ => []
      | inr None => appended rest
      | inr (Some m) => m :: appended rest
      end
  end.

(** The exception that ends the loop, if a row raises. *)
Fixpoint failure (rows : list Row.t) : option exn :=
  match rows with
  | [] => None
  | row :: rest =>
      match decode row with
      | inl e => Some e
      | inr _ => failure rest
      end
  end.

End Loops.

(** The running maximum the loop keeps in [self.last_timestamp]. *)
Definition raise_to (stamps : list Z) (watermark : Z) : Z := fold_left Z.max stamps watermark.

(* ================================================================== *)
(** ** The specification's wording, as definitions *)
(* ================================================================== *)

Module Spec.

(** The fixed enumeration of networks. *)
Definition networks : list string := ["whatsapp"; "telegram"; "linkedin"; "matrix"; "unknown"].

(** One classifier rule: a sender id containing [needle] (both lowered when
    [fold_case]) is of network [verdict]. *)
Record rule : Type := { needle : string; fold_case : bool; verdict : string }.

Definition rule_matches (sid : string) (r : rule) : bool :=
  PyStr.contains (needle r) (if fold_case r then PyStr.lower sid else sid).

(** Section 4.2 as worded: every test is case-insensitive. *)
Definition rules_claimed : list rule :=
  [ {| needle := "whatsapp"; fold_case := true; verdict := "whatsapp" |};
    {| needle := "telegram"; fold_case := true; verdict := "telegram" |};
    {| needle := "linkedin"; fold_case := true; verdict := "linkedin" |};
    {| needle := "beeper.com"; fold_case := true; verdict := "matrix" |};
    {| needle := "local-whatsapp"; fold_case := true; verdict := "whatsapp" |} ].

(** The same table with the case handling the code has: the last two tests
    read the sender id as stored. *)
Definition rules_amended : list rule :=
  [ {| needle := "whatsapp"; fold_case := true; verdict := "whatsapp" |};
    {| needle := "telegram"; fold_case := true; verdict := "telegram" |};
    {| needle := "linkedin"; fold_case := true; verdict := "linkedin" |};
    {| needle := "beeper.com"; fold_case := false; verdict := "matrix" |};
    {| needle := "local-whatsapp"; fold_case := false; verdict := "whatsapp" |} ].

(** Step 1: the platform-name hint if present, else unknown. *)
Definition default_network (hint : option string) : string :=
  match hint with
  | Some h => if (h =? "")%string then "unknown" else h
  | None => "unknown"
  end.

(** First match wins; the default is kept when no rule matches. *)
Definition classify (rules : list rule) (sender_id hint : option string) : string :=
  match sender_id with
  | Some sid =>
      match find (rule_matches sid) rules with
      | Some r => verdict r
      | None => default_network hint
      end
  | None => default_network hint
  end.

(** The first of the candidates that is non-empty (truthy), if any. *)
Fixpoint first_non_empty (candidates : list pyval) : option pyval :=
  match candidates with
  | [] => None
  | v :: r => if truthy v then Some v else first_non_empty r
  end.

Definition lookup (d : list (string * pyval)) (key : string) : pyval :=
  match assoc key d with
  | Some v => v
  | None => PNone
  end.

(** Section 4.1 step 2 as worded: the two pre-extracted fields, the payload's
    text, body and filename keys, the stringified payload when it is
    non-empty, and the empty string. *)
Definition text_priority (text_content formatted_content : option string)
  (payload : list (string * pyval)) : pyval :=
  match first_non_empty
          [ of_column text_content; of_column formatted_content;
            lookup payload "text"; lookup payload "body"; lookup payload "filename";
            if is_nil payload then PStr "" else PStr (py_str (PDict payload)) ] with
  | Some v => v
  | None => PStr ""
  end.

(** Section 4.1 step 4 as worded: displayName, name, username, then the raw
    sender id. *)
Definition sender_name (sender_id : option string) (metadata : list (string * pyval)) : pyval :=
  match first_non_empty
          [ lookup metadata "displayName"; lookup metadata "name"; lookup metadata "username" ] with
  | Some v => v
  | None => of_column sender_id
  end.

(** The first [n] characters of a text, all of it when it is shorter. *)
Definition first_chars (n : nat) (s : string) : string := substring 0 n s.

(** [{name}] in a name: a text stands as it is, another value as Python
    writes it. *)
Definition written (name : pyval) : string :=
  match name with
  | PStr text => text
  | PNone => "None"
  | PBool true => "True"
  | PBool false => "False"
  | other => py_repr other
  end.

(** Section 4.3 as worded. *)
Definition thread_name (room_id network : string) (metadata : list (string * pyval)) : string :=
  if (network =? "whatsapp")%string then
    match first_non_empty [ lookup metadata "displayName"; lookup metadata "name" ] with
    | Some name => "WhatsApp: " ++ written name
    | None => "WhatsApp Chat"
    end
  else if (network =? "telegram")%string then
    if PyStr.contains "telegram_" room_id then "Telegram Bot/Channel" else "Telegram Chat"
  else if (network =? "linkedin")%string then "LinkedIn Chat"
  else if (network =? "matrix")%string then "Matrix/Beeper Chat"
  else "Chat (" ++ first_chars 8 room_id ++ "...)".

(** The watermark as section 3 words it: the maximum over every row a call
    returned. *)
Definition watermark_over_rows (rows : list Row.t) (watermark : Z) : Z :=
  raise_to (map Row.timestamp rows) watermark.

End Spec.

(* ================================================================== *)
(** ** Stores used in the closed examples *)
(* ================================================================== *)

Module Examples.

(** [s] between double quotes, and a one-member JSON object. *)
Definition quoted (s : string) : string := String PyStr.dquote (s ++ String PyStr.dquote "").
Definition object1 (key value : string) : string := "{" ++ quoted key ++ ": " ++ quoted value ++ "}".

(** A TEXT message that is not deleted, with no reply-to and no formatted
    content. *)
Definition text_message (room : string) (sender payload : option string) (stamp : Z)
  (plain : option string) : Store.mx_room_message :=
  {| Store.roomID := room;
     Store.senderContactID := sender;
     Store.message := payload;
     Store.timestamp := stamp;
     Store.eventID := "$event";
     Store.type := "TEXT";
     Store.isSentByMe := 0;
     Store.isEncrypted := 0;
     Store.inReplyToID := None;
     Store.text_content := plain;
     Store.text_formattedContent := None;
     Store.isDeleted := 0 |}.

Definition only_messages (l : list Store.mx_room_message) : Store.database :=
  {| Store.mx_room_messages := l; Store.users := []; Store.accounts := [] |}.

(** A fresh object whose watermark is 1000. *)
Definition fresh : state :=
  {| db_path := None; last_timestamp := 1000; running := false; out := [] |}.

(** A payload that is not JSON next to a pre-extracted text. *)
Definition malformed_payload : Store.database :=
  only_messages [ text_message "!room:beeper.local" (Some "@bob:example.org") (Some "not json") 2000 (Some "hello") ].

Definition malformed_row : Row.t :=
  Row.select (text_message "!room:beeper.local" (Some "@bob:example.org") (Some "not json") 2000 (Some "hello"),
              None, None).

(** A newer row whose only text is blank, and an older one that says hello. *)
Definition blank_then_hello : Store.database :=
  only_messages
    [ text_message "!room:beeper.local" (Some "@bob:example.org") (Some (object1 "body" "hello")) 3000 None;
      text_message "!room:beeper.local" (Some "@bob:example.org") (Some (object1 "body" "   ")) 5000 None ].

Definition blank_row : Row.t :=
  Row.select (text_message "!room:beeper.local" (Some "@bob:example.org")
                (Some (object1 "body" "   ")) 5000 None, None, None).

(** A sender no rule matches, on an account whose platform is signal. *)
Definition signal_account : Store.database :=
  {| Store.mx_room_messages :=
       [ text_message "!room:beeper.local" (Some "@bob:example.org") (Some (object1 "body" "hi")) 2000 None ];
     Store.users :=
       [ {| Store.userID := "@bob:example.org";
            Store.user := Some (object1 "displayName" "Bob");
            Store.accountID := Some "signal-1" |} ];
     Store.accounts :=
       [ {| Store.account_accountID := "signal-1"; Store.platformName := Some "signal" |} ] |}.

(** A user record whose metadata is a JSON array. *)
Definition array_metadata : Store.database :=
  {| Store.mx_room_messages :=
       [ text_message "!room:beeper.local" (Some "@bob:example.org") (Some (object1 "body" "hi")) 2000 None ];
     Store.users :=
       [ {| Store.userID := "@bob:example.org"; Store.user := Some "[]"; Store.accountID := None |} ];
     Store.accounts := [] |}.

(** The end-to-end row of section 8: a WhatsApp sender saying hello. *)
Definition whatsapp_hello : Store.database :=
  only_messages
    [ text_message "!room:beeper.local" (Some "local-whatsapp-5") (Some (object1 "body" "hello")) 2000 None ].

(** A reply: the reply-to column holds the parent's event id. *)
Definition reply_store : Store.database :=
  only_messages
    [ {| Store.roomID := "telegram_news_42";
         Store.senderContactID := Some "@telegram_77:beeper.local";
         Store.message := Some (object1 "text" "agreed");
         Store.timestamp := 4000;
         Store.eventID := "$child";
         Store.type := "TEXT";
         Store.isSentByMe := 1;
         Store.isEncrypted := 0;
         Store.inReplyToID := Some "$parent";
         Store.text_content := None;
         Store.text_formattedContent := None;
         Store.isDeleted := 0 |} ].

(** The messages the reference decoder and clock produce for three of the
    stores above. *)
Definition signal_message : Message.t :=
  {| Message.room_id := "!room:beeper.local";
     Message.thread_id := "!room:beeper.local";
     Message.thread_name := "Chat (!room:be...)";
     Message.sender_id := Some "@bob:example.org";
     Message.sender_name := PStr "Bob";
     Message.network := "signal";
     Message.text := "hi";
     Message.timestamp := 2000;
     Message.event_id := "$event";
     Message.message_type := "TEXT";
     Message.is_sent_by_me := false;
     Message.is_encrypted := false;
     Message.is_reply := false;
     Message.reply_to_id := None;
     Message.human_time := "1970-01-01 00:00:02";
     Message.raw_message_data := PDict [("body", PStr "hi")];
     Message.raw_sender_data := PDict [("displayName", PStr "Bob")] |}.

Definition hello_message : Message.t :=
  {| Message.room_id := "!room:beeper.local";
     Message.thread_id := "!room:beeper.local";
     Message.thread_name := "WhatsApp Chat";
     Message.sender_id := Some "local-whatsapp-5";
     Message.sender_name := PStr "local-whatsapp-5";
     Message.network := "whatsapp";
     Message.text := "hello";
     Message.timestamp := 2000;
     Message.event_id := "$event";
     Message.message_type := "TEXT";
     Message.is_sent_by_me := false;
     Message.is_encrypted := false;
     Message.is_reply := false;
     Message.reply_to_id := None;
     Message.human_time := "1970-01-01 00:00:02";
     Message.raw_message_data := PDict [("body", PStr "hello")];
     Message.raw_sender_data := PDict [] |}.

Definition reply_message : Message.t :=
  {| Message.room_id := "telegram_news_42";
     Message.thread_id := "telegram_news_42";
     Message.thread_name := "Telegram Bot/Channel";
     Message.sender_id := Some "@telegram_77:beeper.local";
     Message.sender_name := PStr "@telegram_77:beeper.local";
     Message.network := "telegram";
     Message.text := "agreed";
     Message.timestamp := 4000;
     Message.event_id := "$child";
     Message.message_type := "TEXT";
     Message.is_sent_by_me := true;
     Message.is_encrypted := false;
     Message.is_reply := true;
     Message.reply_to_id := Some "$parent";
     Message.human_time := "1970-01-01 00:00:04";
     Message.raw_message_data := PDict [("text", PStr "agreed")];
     Message.raw_sender_data := PDict [] |}.

(** A WhatsApp hello stamped 3000 above a row stamped 2000 whose sender
    metadata is a JSON array. *)
Definition hello_above_array : Store.database :=
  {| Store.mx_room_messages :=
       [ text_message "!room:beeper.local" (Some "@bob:example.org") (Some (object1 "body" "hi")) 2000 None;
         text_message "!room:beeper.local" (Some "local-whatsapp-5") (Some (object1 "body" "hello")) 3000 None ];
     Store.users :=
       [ {| Store.userID := "@bob:example.org"; Store.user := Some "[]"; Store.accountID := None |} ];
     Store.accounts := [] |}.

Definition late_hello_message : Message.t :=
  {| Message.room_id := "!room:beeper.local";
     Message.thread_id := "!room:beeper.local";
     Message.thread_name := "WhatsApp Chat";
     Message.sender_id := Some "local-whatsapp-5";
     Message.sender_name := PStr "local-whatsapp-5";
     Message.network := "whatsapp";
     Message.text := "hello";
     Message.timestamp := 3000;
     Message.event_id := "$event";
     Message.message_type := "TEXT";
     Message.is_sent_by_me := false;
     Message.is_encrypted := false;
     Message.is_reply := false;
     Message.reply_to_id := None;
     Message.human_time := "1970-01-01 00:00:03";
     Message.raw_message_data := PDict [("body", PStr "hello")];
     Message.raw_sender_data := PDict [] |}.

(** Two user records under one user id. *)
Definition twin_users : Store.database :=
  {| Store.mx_room_messages :=
       [ text_message "!room:beeper.local" (Some "@bob:example.org") (Some (object1 "body" "hi")) 2000 None ];
     Store.users :=
       [ {| Store.userID := "@bob:example.org"; Store.user := None; Store.accountID := None |};
         {| Store.userID := "@bob:example.org"; Store.user := None; Store.accountID := None |} ];
     Store.accounts := [] |}.

(** A threads table: one thread with a JSON blob, one with none, one whose
    blob is not JSON. *)
Definition some_threads : list Rooms.thread_record :=
  [ {| Rooms.threadID := "!room:beeper.local";
       Rooms.thread := Some (object1 "title" "Family");
       Rooms.timestamp := Some 4000 |};
    {| Rooms.threadID := "!empty:beeper.local"; Rooms.thread := None; Rooms.timestamp := None |};
    {| Rooms.threadID := "!broken:beeper.local";
       Rooms.thread := Some "not json";
       Rooms.timestamp := Some 5000 |} ].

(** The text of the decoder's error, as the reference decoder words it. *)
Definition json_error (text : string) : string := "Expecting value: line 1 column 1 (char 0)".

(** [str.upper] on ASCII text. *)
Definition upper_char (c : ascii) : ascii :=
  let n := PyStr.ord c in
  if (97 <=? n) && (n <=? 122) then PyStr.chr (n - 32) else c.

Fixpoint upper (s : string) : string :=
  match s with
  | EmptyString => EmptyString
  | String c r => String (upper_char c) (upper r)
  end.

(** An environment that sets one variable, a file system with one file, and
    a store of 42 messages behind it. *)
Definition environment (name : string) : option string :=
  if (name =? "BEEPER_DATABASE_PATH")%string then Some "/data/index.db" else None.

Definition one_file (path : pyval) : E bool :=
  match path with
  | PStr p => inr (p =? "/data/index.db")%string
  | _ => inl (TypeError "stat: path should be string, bytes, os.PathLike or integer")
  end.

Definition count_42 (path : pyval) : E Z := inr 42.

(** Two cycles: the hello store, then the store with the reply. *)
Definition two_stores : list (E Store.database) := [inr whatsapp_hello; inr reply_store].

End Examples.

(* ================================================================== *)
(** ** Properties *)
(* ================================================================== *)

(** *** Strings *)

Lemma strip_empty : PyStr.strip "" = "".
Proof. reflexivity. Qed.

Lemma eqb_empty_false (s : string) : (s =? "")%string = false -> s <> "".
Proof. intros H E. subst s. discriminate H. Qed.

Lemma if_text_nonempty (text : string) : text <> "" -> if_text (Some text) = Some text.
Proof.
  intros H. simpl.
  destruct (text =? "")%string eqn:E; [apply String.eqb_eq in E; contradiction | reflexivity].
Qed.

Lemma starts_with_iff (p s : string) : PyStr.starts_with p s = true <-> exists r, s = p ++ r.
Proof.
  revert s. induction p as [|a p IH]; intros s; simpl.
  - split; [intros _; now exists s | reflexivity].
  - destruct s as [|b s]; simpl.
    + split; [discriminate | intros [r H]; discriminate].
    + rewrite andb_true_iff, Ascii.eqb_eq, IH. split.
      * intros [-> [r ->]]. now exists r.
      * intros [r H]. injection H as -> ->. split; [reflexivity | now exists r].
Qed.

(** [needle in hay] holds exactly when [hay] is some text, [needle], some
    text. *)
Lemma contains_iff (needle hay : string) :
  PyStr.contains needle hay = true <-> exists a b, hay = a ++ needle ++ b.
Proof.
  induction hay as [|c hay IH]; simpl; rewrite orb_true_iff, starts_with_iff.
  - split.
    + intros [[r H]|H]; [|discriminate]. exists "", r. exact H.
    + intros [a [b H]]. left. destruct a; [now exists b | discriminate].
  - rewrite IH. split.
    + intros [[r H]|[a [b H]]]; [exists "", r; exact H|].
      exists (String c a), b. simpl. now rewrite H.
    + intros [a [b H]]. destruct a as [|c' a]; simpl in H.
      * left. now exists b.
      * right. injection H as -> ->. now exists a, b.
Qed.

Lemma lower_app (a b : string) : PyStr.lower (a ++ b) = PyStr.lower a ++ PyStr.lower b.
Proof. induction a as [|c a IH]; simpl; [reflexivity | now rewrite IH]. Qed.

Lemma append_assoc (a b c : string) : (a ++ b) ++ c = a ++ (b ++ c).
Proof. induction a as [|x a IH]; simpl; [reflexivity | now rewrite IH]. Qed.

(** A sender id that holds local-whatsapp holds whatsapp once lowered. *)
Lemma local_whatsapp_is_whatsapp (sid : string) :
  PyStr.contains "local-whatsapp" sid = true ->
  PyStr.contains "whatsapp" (PyStr.lower sid) = true.
Proof.
  intros H. apply contains_iff in H. destruct H as [a [b ->]].
  apply contains_iff. exists (PyStr.lower a ++ "local-"), (PyStr.lower b).
  rewrite !lower_app, append_assoc. reflexivity.
Qed.

(** *** The monad *)

Lemma take_first_chars (n : nat) (s : string) : PyStr.take n s = Spec.first_chars n s.
Proof.
  unfold Spec.first_chars. revert s.
  induction n as [|n IH]; intros [|c r]; simpl; try reflexivity. now rewrite IH.
Qed.

Lemma take_prefix (prefix rest : string) :
  PyStr.take (String.length prefix) (prefix ++ rest) = prefix.
Proof.
  induction prefix as [|c r IH]; simpl; [destruct rest; reflexivity | now rewrite IH].
Qed.

Lemma take_short (n : nat) (s : string) : (String.length s <= n)%nat -> PyStr.take n s = s.
Proof.
  revert n. induction s as [|c r IH]; intros [|n] H; simpl in *; try reflexivity; try lia.
  rewrite IH; [reflexivity | lia].
Qed.

Lemma written_str (v : pyval) : Spec.written v = py_str v.
Proof. destruct v as [| [|] | | | | |]; reflexivity. Qed.

Lemma bind_lift_ok {S A B} (a : A) (k : A -> M S B) (s : S) :
  bind (lift (inr a)) k s = k a s.
Proof. reflexivity. Qed.

Lemma bind_lift_error {S A B} (e : exn) (k : A -> M S B) (s : S) :
  bind (lift (inl e : E A)) k s = (inl e, s).
Proof. reflexivity. Qed.

Lemma bind_get {S B} (k : S -> M S B) (s : S) : bind get k s = k s s.
Proof. reflexivity. Qed.

Lemma bind_emit {B} (e : event) (k : unit -> M state B) (s : state) :
  bind (emit e) k s = k tt (record_event e s).
Proof. reflexivity. Qed.

Lemma bind_run {S A B} (c : M S A) (k : A -> M S B) (s s' : S) (a : A) :
  c s = (inr a, s') -> bind c k s = k a s'.
Proof. intros H. unfold bind. now rewrite H. Qed.

Lemma set_last_timestamp_same (s : state) : set_last_timestamp (last_timestamp s) s = s.
Proof. destruct s; reflexivity. Qed.

Lemma set_last_timestamp_twice (a b : Z) (s : state) :
  set_last_timestamp a (set_last_timestamp b s) = set_last_timestamp a s.
Proof. reflexivity. Qed.

Lemma raise_to_ge (stamps : list Z) : forall w, w <= raise_to stamps w.
Proof.
  induction stamps as [|t r IH]; intros w; unfold raise_to in *; simpl.
  - lia.
  - specialize (IH (Z.max w t)). lia.
Qed.

Lemma raise_to_app (a b : list Z) (w : Z) : raise_to (a ++ b) w = raise_to b (raise_to a w).
Proof. unfold raise_to. apply fold_left_app. Qed.

Lemma raise_to_bound (stamps : list Z) : forall w t, In t stamps -> t <= raise_to stamps w.
Proof.
  induction stamps as [|x r IH]; intros w t Hin; [contradiction|].
  unfold raise_to; simpl. destruct Hin as [->|Hin].
  - pose proof (raise_to_ge r (Z.max w t)). unfold raise_to in *. lia.
  - apply (IH (Z.max w x) t Hin).
Qed.

(** *** The queries *)

Section OrderBy.

Context {A : Type}.
Variable le : A -> A -> bool.
Hypothesis le_trans : forall a b c, le a b = true -> le b c = true -> le a c = true.
Hypothesis le_total : forall a b, le a b = true \/ le b a = true.

Let ordered : list A -> Prop := StronglySorted (fun a b => le a b = true).

Lemma In_insert_by (x y : A) (l : list A) : In x (Store.insert_by le y l) <-> x = y \/ In x l.
Proof.
  induction l as [|z r IH]; simpl.
  - intuition auto.
  - destruct (le y z); simpl; rewrite ?IH; intuition auto.
Qed.

Lemma In_order_by (x : A) (l : list A) : In x (Store.order_by le l) <-> In x l.
Proof.
  induction l as [|y r IH]; simpl; [reflexivity|].
  rewrite In_insert_by, IH. intuition auto.
Qed.

Lemma insert_by_ordered (x : A) (l : list A) : ordered l -> ordered (Store.insert_by le x l).
Proof.
  unfold ordered. induction l as [|y r IH]; intros Hs; simpl.
  - constructor; constructor.
  - apply StronglySorted_inv in Hs. destruct Hs as [Hr Hy].
    destruct (le x y) eqn:Hxy.
    + constructor; [constructor; assumption|].
      constructor; [assumption|].
      rewrite Forall_forall in *. intros z Hz. eapply le_trans; eauto.
    + constructor; [auto|].
      rewrite Forall_forall in *. intros z Hz. apply In_insert_by in Hz.
      destruct Hz as [->|Hz]; [|auto].
      destruct (le_total x y) as [H|H]; [congruence | exact H].
Qed.

Lemma order_by_ordered (l : list A) : ordered (Store.order_by le l).
Proof.
  induction l as [|x r IH]; simpl; [constructor | now apply insert_by_ordered].
Qed.

Lemma insert_by_first (x : A) (l : list A) :
  (forall z, In z l -> le x z = true) -> Store.insert_by le x l = x :: l.
Proof.
  destruct l as [|y r]; intros H; simpl; [reflexivity|].
  now rewrite (H y (or_introl eq_refl)).
Qed.

(** A WHERE clause may be applied before or after ORDER BY: the order among
    the lines kept is the same. *)
Lemma filter_insert_by (p : A -> bool) (x : A) (l : list A) :
  ordered l ->
  filter p (Store.insert_by le x l)
    = if p x then Store.insert_by le x (filter p l) else filter p l.
Proof.
  unfold ordered. induction l as [|y r IH]; intros Hs; simpl.
  - destruct (p x); reflexivity.
  - apply StronglySorted_inv in Hs. destruct Hs as [Hr Hy]. rewrite Forall_forall in Hy.
    destruct (le x y) eqn:Hxy; simpl.
    + destruct (p x) eqn:Hpx; [|reflexivity].
      symmetry. apply insert_by_first. intros z Hz.
      assert (Hz' : In z (y :: r)).
      { destruct (p y); [destruct Hz as [->|Hz]; [now left | right] | right];
          now apply filter_In in Hz. }
      destruct Hz' as [->|Hz']; [exact Hxy | eapply le_trans; eauto].
    + rewrite (IH Hr). destruct (p y) eqn:Hpy; destruct (p x); simpl; rewrite ?Hxy; reflexivity.
Qed.

Lemma filter_order_by (p : A -> bool) (l : list A) :
  filter p (Store.order_by le l) = Store.order_by le (filter p l).
Proof.
  induction l as [|x r IH]; simpl; [reflexivity|].
  rewrite filter_insert_by by apply order_by_ordered.
  rewrite IH. destruct (p x); reflexivity.
Qed.

(** In an ordered list, the lines that may stand before a bound [b] (and not
    after it) form a prefix. *)
Lemma filter_ordered_prefix (above : A -> bool) (l : list A) :
  (forall a b, le a b = true -> above b = true -> above a = true) ->
  ordered l -> exists k, filter above l = firstn k l.
Proof.
  intros Hmono. unfold ordered. induction l as [|x r IH]; intros Hs; simpl.
  - exists 0%nat. reflexivity.
  - apply StronglySorted_inv in Hs. destruct Hs as [Hr Hx]. rewrite Forall_forall in Hx.
    destruct (above x) eqn:Hax.
    + destruct (IH Hr) as [k Hk]. exists (S k). simpl. now rewrite Hk.
    + exists 0%nat. simpl.
      assert (Hnone : forall z, In z r -> above z = false).
      { intros z Hz. destruct (above z) eqn:Haz; [|reflexivity].
        rewrite (Hmono x z (Hx z Hz) Haz) in Hax. discriminate. }
      clear - Hnone. induction r as [|z r IHr]; simpl; [reflexivity|].
      rewrite (Hnone z (or_introl eq_refl)). apply IHr. intros w Hw. apply Hnone. now right.
Qed.

End OrderBy.

Lemma In_firstn {A} (k : nat) (x : A) : forall l, In x (firstn k l) -> In x l.
Proof.
  induction k as [|k IH]; intros [|y r]; simpl; try contradiction.
  intros [->|H]; [now left | right; now apply IH].
Qed.

Lemma In_limit_clause {A} (n : Z) (x : A) (l : list A) : In x (Store.limit_clause n l) -> In x l.
Proof.
  unfold Store.limit_clause. destruct (n <? 0); [auto|]. apply In_firstn.
Qed.

(** A LIMIT over a prefix is a prefix of the LIMIT. *)
Lemma limit_clause_prefix {A} (n : Z) (k : nat) (l : list A) :
  exists k', Store.limit_clause n (firstn k l) = firstn k' (Store.limit_clause n l).
Proof.
  unfold Store.limit_clause. destruct (n <? 0).
  - now exists k.
  - exists (Nat.min (Z.to_nat n) k). rewrite !firstn_firstn.
    f_equal. lia.
Qed.

Lemma filter_filter_and {A} (f g : A -> bool) (l : list A) :
  filter f (filter g l) = filter (fun x => f x && g x) l.
Proof.
  induction l as [|x r IH]; simpl; [reflexivity|].
  destruct (g x); simpl; rewrite ?IH, ?andb_false_r; [destruct (f x)|]; reflexivity.
Qed.

Lemma ts_desc_trans (a b c : Store.joined) :
  Store.ts_desc a b = true -> Store.ts_desc b c = true -> Store.ts_desc a c = true.
Proof. unfold Store.ts_desc. rewrite !Z.leb_le. lia. Qed.

Lemma ts_desc_total (a b : Store.joined) : Store.ts_desc a b = true \/ Store.ts_desc b a = true.
Proof. unfold Store.ts_desc. rewrite !Z.leb_le. lia. Qed.

Lemma type_allowed_In (t : string) : Store.type_allowed t = true -> In t Store.allowed_types.
Proof.
  unfold Store.type_allowed. rewrite existsb_exists. intros [x [Hin Heq]].
  apply String.eqb_eq in Heq. now subst.
Qed.

(** An account on a joined line is the account of the sender: the line's
    message names a sender, a record of the users table has that id, and the
    account is the one that record points to. *)
Lemma from_clause_sender_account (db : Store.database) (j : Store.joined) (a : Store.account_record) :
  In j (Store.from_clause db) ->
  snd j = Some a ->
  In (Store.msg_of j) (Store.mx_room_messages db) /\
  exists u,
    Store.senderContactID (Store.msg_of j) = Some (Store.userID u) /\
    In u (Store.users db) /\
    Store.accountID u = Some (Store.account_accountID a) /\
    In a (Store.accounts db).
Proof.
  unfold Store.from_clause. rewrite in_flat_map. intros [x [Hx Hj]].
  rewrite in_flat_map in Hj. destruct Hj as [u [Hu Hj]].
  rewrite in_map_iff in Hj. destruct Hj as [a' [<- Ha]]. simpl. intros ->.
  split; [exact Hx|].
  unfold Store.join_accounts in Ha.
  destruct u as [u|]; [|destruct Ha as [Ha|[]]; discriminate].
  destruct (Store.accountID u) as [aid|] eqn:Haid; [|destruct Ha as [Ha|[]]; discriminate].
  destruct (filter _ (Store.accounts db)) as [|a0 l] eqn:Hf; [destruct Ha as [Ha|[]]; discriminate|].
  rewrite in_map_iff in Ha. destruct Ha as [a' [Heq Hin]]. injection Heq as ->.
  rewrite <- Hf in Hin. apply filter_In in Hin. destruct Hin as [Hina Hkey].
  apply String.eqb_eq in Hkey. subst aid.
  unfold Store.join_users in Hu.
  destruct (Store.senderContactID x) as [sid|] eqn:Hsid; [|destruct Hu as [Hu|[]]; discriminate].
  destruct (filter _ (Store.users db)) as [|u0 us] eqn:Hfu; [destruct Hu as [Hu|[]]; discriminate|].
  rewrite in_map_iff in Hu. destruct Hu as [u' [Heq Hin]]. injection Heq as ->.
  rewrite <- Hfu in Hin. apply filter_In in Hin. destruct Hin as [Hinu Hkey].
  apply String.eqb_eq in Hkey. subst sid.
  exists u. unfold Store.msg_of. simpl. auto.
Qed.

(** What the recent-since query returns: lines of the join, newer than the
    watermark, of a surfaced type and not deleted. *)
Lemma recent_rows_sound (db : Store.database) (watermark limit : Z) (row : Row.t) :
  In row (recent_rows db watermark limit) ->
  exists j, In j (Store.from_clause db) /\ row = Row.select j /\
            watermark < Store.timestamp (Store.msg_of j) /\ Store.surfaced j = true.
Proof.
  unfold recent_rows. rewrite in_map_iff. intros [j [<- Hin]].
  apply In_limit_clause in Hin. apply In_order_by in Hin. apply filter_In in Hin.
  destruct Hin as [Hin Hp]. apply andb_true_iff in Hp. destruct Hp as [Hw Hs].
  exists j. repeat split; auto. now apply Z.ltb_lt.
Qed.

Lemma thread_rows_sound (db : Store.database) (thread_id : string) (limit : Z) (row : Row.t) :
  In row (thread_rows db thread_id limit) ->
  exists j, In j (Store.from_clause db) /\ row = Row.select j /\
            Store.roomID (Store.msg_of j) = thread_id /\ Store.surfaced j = true.
Proof.
  unfold thread_rows. rewrite in_map_iff. intros [j [<- Hin]].
  apply In_limit_clause in Hin. apply In_order_by in Hin. apply filter_In in Hin.
  destruct Hin as [Hin Hp]. apply andb_true_iff in Hp. destruct Hp as [Hw Hs].
  exists j. repeat split; auto. now apply String.eqb_eq.
Qed.

(** A network outside the enumeration is the platform name, kept because no
    rule of the table matched the sender id. *)
Lemma classify_network_default (sender_id hint : option string) :
  In (classify_network sender_id hint) Spec.networks \/
  (hint = Some (classify_network sender_id hint) /\
   forall sid, sender_id = Some sid -> find (Spec.rule_matches sid) Spec.rules_amended = None).
Proof.
  unfold classify_network.
  set (default := match hint with
                  | Some h => if (h =? "")%string then "unknown" else h
                  | None => "unknown"
                  end).
  assert (Hd : In default Spec.networks \/ hint = Some default).
  { subst default. destruct hint as [h|]; [destruct (h =? "")%string|]; simpl; auto 8. }
  clearbody default.
  destruct sender_id as [sid|].
  - destruct (String.eqb_spec sid "") as [->|Hne]; cbn [negb].
    + destruct Hd as [Hd|Hd]; [now left | right].
      split; [exact Hd|]. intros sid' H. injection H as <-. reflexivity.
    + destruct (PyStr.contains "whatsapp" (PyStr.lower sid)) eqn:H1; [simpl; auto 8|].
      destruct (PyStr.contains "telegram" (PyStr.lower sid)) eqn:H2; [simpl; auto 8|].
      destruct (PyStr.contains "linkedin" (PyStr.lower sid)) eqn:H3; [simpl; auto 8|].
      destruct (PyStr.contains "beeper.com" sid) eqn:H4; [simpl; auto 8|].
      destruct (PyStr.contains "local-whatsapp" sid) eqn:H5; [simpl; auto 8|].
      destruct Hd as [Hd|Hd]; [now left | right].
      split; [exact Hd|]. intros sid' H. injection H as <-.
      unfold Spec.rules_amended. cbn [find]. unfold Spec.rule_matches.
      cbn [Spec.needle Spec.fold_case].
      now rewrite H1, H2, H3, H4, H5.
  - destruct Hd as [Hd|Hd]; [now left | right].
    split; [exact Hd|]. intros sid H. discriminate.
Qed.

Lemma meaningful_text (text : string) :
  Reader.meaningful (PStr text) = inr (Some text) -> text <> "" /\ PyStr.strip text <> "".
Proof.
  unfold Reader.meaningful. simpl.
  destruct (String.eqb_spec text "") as [->|Hne]; simpl; [discriminate|].
  destruct (String.eqb_spec (PyStr.strip text) ""); [discriminate|]. auto.
Qed.

(** Raising the watermark cuts the answer of the recent-since query down to
    a prefix of what it was. *)
Lemma recent_rows_later (db : Store.database) (w w' limit : Z) :
  w <= w' -> exists k, recent_rows db w' limit = firstn k (recent_rows db w limit).
Proof.
  intros Hle. unfold recent_rows.
  set (F := Store.from_clause db).
  set (above := fun j : Store.joined => w' <? Store.timestamp (Store.msg_of j)).
  assert (Hf : filter (fun j => (w' <? Store.timestamp (Store.msg_of j)) && Store.surfaced j) F
               = filter above (filter (fun j => (w <? Store.timestamp (Store.msg_of j)) && Store.surfaced j) F)).
  { rewrite filter_filter_and. apply filter_ext. intros j. unfold above.
    destruct (Z.ltb_spec w' (Store.timestamp (Store.msg_of j))); simpl; [|reflexivity].
    destruct (Z.ltb_spec w (Store.timestamp (Store.msg_of j))); [reflexivity | lia]. }
  rewrite Hf.
  rewrite <- (filter_order_by Store.ts_desc ts_desc_trans ts_desc_total).
  destruct (filter_ordered_prefix Store.ts_desc above
              (Store.order_by Store.ts_desc
                 (filter (fun j => (w <? Store.timestamp (Store.msg_of j)) && Store.surfaced j) F)))
    as [k Hk].
  - intros a b Hab Hb. unfold above, Store.ts_desc in *.
    apply Z.leb_le in Hab. apply Z.ltb_lt in Hb. apply Z.ltb_lt. lia.
  - apply (order_by_ordered Store.ts_desc ts_desc_trans ts_desc_total).
  - rewrite Hk.
    destruct (limit_clause_prefix limit k
                (Store.order_by Store.ts_desc
                   (filter (fun j => (w <? Store.timestamp (Store.msg_of j)) && Store.surfaced j) F)))
      as [k' Hk'].
    rewrite Hk'. exists k'. symmetry. apply firstn_map.
Qed.

Lemma recent_rows_above (db : Store.database) (w limit : Z) (row : Row.t) :
  In row (recent_rows db w limit) -> w < Row.timestamp row.
Proof.
  intros H. destruct (recent_rows_sound _ _ _ _ H) as [j [_ [-> [Hw _]]]].
  destruct j as [[m u] a]. exact Hw.
Qed.

Lemma firstn_strongly_sorted {A} (R : A -> A -> Prop) (k : nat) :
  forall l, StronglySorted R l -> StronglySorted R (firstn k l).
Proof.
  induction k as [|k IH]; intros [|x r] Hs; simpl; try constructor.
  - apply IH. now apply StronglySorted_inv in Hs.
  - apply StronglySorted_inv in Hs. destruct Hs as [_ Hx].
    rewrite Forall_forall in *. intros y Hy. apply Hx. now apply In_firstn in Hy.
Qed.

Lemma map_strongly_sorted {A B} (f : A -> B) (R : A -> A -> Prop) (Q : B -> B -> Prop) :
  (forall a b, R a b -> Q (f a) (f b)) ->
  forall l, StronglySorted R l -> StronglySorted Q (map f l).
Proof.
  intros Hf. induction l as [|x r IH]; intros Hs; simpl; [constructor|].
  apply StronglySorted_inv in Hs. destruct Hs as [Hr Hx].
  constructor; [auto|]. rewrite Forall_forall in *. intros y Hy.
  apply in_map_iff in Hy. destruct Hy as [z [<- Hz]]. auto.
Qed.

(** The recent-since query answers newest first. *)
Lemma recent_rows_newest_first (db : Store.database) (w limit : Z) :
  StronglySorted (fun a b => Row.timestamp b <= Row.timestamp a) (recent_rows db w limit).
Proof.
  unfold recent_rows.
  apply (map_strongly_sorted Row.select (fun a b => Store.ts_desc a b = true)).
  - intros [[x u] a] [[y v] b] H. unfold Store.ts_desc in H. simpl in *. now apply Z.leb_le.
  - unfold Store.limit_clause. destruct (limit <? 0).
    + apply (order_by_ordered Store.ts_desc ts_desc_trans ts_desc_total).
    + apply firstn_strongly_sorted.
      apply (order_by_ordered Store.ts_desc ts_desc_trans ts_desc_total).
Qed.

Lemma ts_asc_trans (a b c : Store.joined) :
  Store.ts_asc a b = true -> Store.ts_asc b c = true -> Store.ts_asc a c = true.
Proof. unfold Store.ts_asc. rewrite !Z.leb_le. lia. Qed.

Lemma ts_asc_total (a b : Store.joined) : Store.ts_asc a b = true \/ Store.ts_asc b a = true.
Proof. unfold Store.ts_asc. rewrite !Z.leb_le. lia. Qed.

(** The by-thread query answers oldest first. *)
Lemma thread_rows_oldest_first (db : Store.database) (thread_id : string) (limit : Z) :
  StronglySorted (fun a b => Row.timestamp a <= Row.timestamp b) (thread_rows db thread_id limit).
Proof.
  unfold thread_rows.
  apply (map_strongly_sorted Row.select (fun a b => Store.ts_asc a b = true)).
  - intros [[x u] a] [[y v] b] H. unfold Store.ts_asc in H. simpl in *. now apply Z.leb_le.
  - unfold Store.limit_clause. destruct (limit <? 0).
    + apply (order_by_ordered Store.ts_asc ts_asc_trans ts_asc_total).
    + apply firstn_strongly_sorted.
      apply (order_by_ordered Store.ts_asc ts_asc_trans ts_asc_total).
Qed.

(** Without LIMIT, every line of the join that is of the thread and surfaced
    is among the rows of the by-thread query. *)
Lemma thread_rows_complete (db : Store.database) (thread_id : string) (limit : Z) (j : Store.joined) :
  limit < 0 ->
  In j (Store.from_clause db) ->
  Store.roomID (Store.msg_of j) = thread_id ->
  Store.surfaced j = true ->
  In (Row.select j) (thread_rows db thread_id limit).
Proof.
  intros Hl Hj Hroom Hs. unfold thread_rows. apply in_map.
  unfold Store.limit_clause. apply Z.ltb_lt in Hl. rewrite Hl.
  apply In_order_by. apply filter_In. split; [exact Hj|].
  rewrite Hs, andb_true_r. now apply String.eqb_eq.
Qed.

Lemma raise_to_stays (stamps : list Z) (w : Z) :
  (forall t, In t stamps -> t <= w) -> raise_to stamps w = w.
Proof.
  revert w. induction stamps as [|t r IH]; intros w H; [reflexivity|].
  unfold raise_to; simpl. fold (raise_to r (Z.max w t)).
  rewrite Z.max_l by (apply H; now left). apply IH. intros x Hx. apply H. now right.
Qed.

Section Properties.

Variable json_loads : string -> option pyval.
Variable strftime : Z -> E string.
Variable time_sleep : pyval -> E unit.

Abbreviation decode_row := (Reader.decode_row json_loads strftime).
Abbreviation decode_recent := (Reader.decode_recent json_loads strftime).
Abbreviation sender_info := (Reader.sender_info json_loads).
Abbreviation parse_message_json := (Reader.parse_message_json json_loads).
Abbreviation recent_loop := (Reader.recent_loop json_loads strftime).
Abbreviation thread_loop := (Reader.thread_loop json_loads strftime).
Abbreviation get_recent_messages := (Reader.get_recent_messages json_loads strftime).
Abbreviation get_thread_messages := (Reader.get_thread_messages json_loads strftime).
Abbreviation monitoring_loop := (Reader.monitoring_loop json_loads strftime time_sleep).
Abbreviation start_monitoring := (Reader.start_monitoring json_loads strftime time_sleep).
Abbreviation poll_cycles := (Reader.poll_cycles json_loads strftime).

(** *** One row *)

(** What a decoded message carries, column by column. *)
Lemma decode_row_fields (thread_id : string) (row : Row.t) (m : Message.t) :
  decode_row thread_id row = inr (Some m) ->
  Message.timestamp m = Row.timestamp row /\
  Message.message_type m = Row.msg_type row /\
  Message.network m = classify_network (Row.sender_id row) (Row.network_type row) /\
  Message.is_reply m = bool_of_text (Row.in_reply_to row) /\
  Message.reply_to_id m = Row.in_reply_to row /\
  Message.room_id m = Row.room_id row /\
  Message.thread_id m = thread_id /\
  Reader.meaningful (PStr (Message.text m)) = inr (Some (Message.text m)).
Proof.
  unfold Reader.decode_row.
  destruct (Reader.extract_text _ _ _) as [e|text]; simpl; [discriminate|].
  destruct (Reader.meaningful text) as [e|[kept|]] eqn:Hm; simpl; try discriminate.
  destruct (Reader.sender_info _ _ _) as [e|sender]; simpl; [discriminate|].
  destruct (strftime _) as [e|human]; simpl; [discriminate|].
  intros H. injection H as <-. simpl.
  repeat split; try reflexivity.
  unfold Reader.meaningful in Hm |- *.
  destruct (truthy text) eqn:Ht; simpl in Hm; [|discriminate].
  destruct text; try discriminate.
  destruct (PyStr.strip s =? "")%string eqn:Hs; [discriminate|].
  injection Hm as <-. simpl in Ht. simpl. rewrite Ht. simpl. rewrite Hs. reflexivity.
Qed.

Lemma decode_row_sender (thread_id : string) (row : Row.t) (m : Message.t) :
  decode_row thread_id row = inr (Some m) -> Message.sender_id m = Row.sender_id row.
Proof.
  unfold Reader.decode_row.
  destruct (Reader.extract_text _ _ _) as [e|text]; simpl; [discriminate|].
  destruct (Reader.meaningful text) as [e|[kept|]]; simpl; try discriminate.
  destruct (Reader.sender_info _ _ _) as [e|sender]; simpl; [discriminate|].
  destruct (strftime _) as [e|human]; simpl; [discriminate|].
  intros H. injection H as <-. reflexivity.
Qed.

(** *** The loop of [get_recent_messages] *)

(** The whole loop in one equation: the value is the messages appended unless
    a row raised, and the watermark is raised over the appended messages
    either way. *)
Lemma recent_loop_run (rows : list Row.t) :
  forall (messages : list Message.t) (s : state),
  recent_loop rows messages s =
  (match failure decode_recent rows with
   | Some e => inl e
   | None => inr (messages ++ appended decode_recent rows)%list
   end,
   set_last_timestamp
     (raise_to (map Message.timestamp (appended decode_recent rows)) (last_timestamp s)) s).
Proof.
  induction rows as [|row rest IH]; intros messages s; simpl.
  - rewrite app_nil_r. unfold raise_to; simpl. now rewrite set_last_timestamp_same.
  - change (Reader.decode_row json_loads strftime (Row.room_id row) row) with (decode_recent row).
    destruct (decode_recent row) as [e|[m|]] eqn:Hd.
    + rewrite bind_lift_error. unfold raise_to; simpl. now rewrite set_last_timestamp_same.
    + rewrite bind_lift_ok.
      destruct (decode_row_fields _ _ _ Hd) as [Hts _].
      assert (Hstep : forall k : unit -> M state (list Message.t),
                 bind (if last_timestamp s <? Row.timestamp row
                       then modify (set_last_timestamp (Row.timestamp row)) else ret tt) k s
                 = k tt (set_last_timestamp (Z.max (last_timestamp s) (Row.timestamp row)) s)).
      { intros k. unfold bind, modify, ret.
        destruct (Z.ltb_spec (last_timestamp s) (Row.timestamp row)).
        - now rewrite Z.max_r by lia.
        - rewrite Z.max_l by lia. now rewrite set_last_timestamp_same. }
      rewrite bind_get, Hstep, IH. simpl. rewrite <- app_assoc. simpl.
      rewrite Hts. reflexivity.
    + rewrite bind_lift_ok. apply IH.
Qed.

(** [get_recent_messages] in one equation. *)
Lemma get_recent_messages_run (c : source_class) (conn : E Store.database) (limit : Z) (s : state) :
  get_recent_messages c conn limit s =
  match conn with
  | inl e => (inr [], record_event (Log (Reader.error_line c e)) s)
  | inr db =>
      let rows := recent_rows db (last_timestamp s) limit in
      let s' := set_last_timestamp
                  (raise_to (map Message.timestamp (appended decode_recent rows)) (last_timestamp s)) s in
      match failure decode_recent rows with
      | Some e => (inr [], record_event (Log (Reader.error_line c e)) s')
      | None => (inr (appended decode_recent rows), s')
      end
  end.
Proof.
  unfold Reader.get_recent_messages, try_except.
  destruct conn as [e|db].
  - reflexivity.
  - rewrite bind_lift_ok, bind_get, recent_loop_run. cbv zeta.
    destruct (failure decode_recent _); reflexivity.
Qed.

(** *** The loop of [get_thread_messages] *)

Lemma thread_loop_run (thread_id : string) (rows : list Row.t) :
  forall (messages : list Message.t) (s : state),
  thread_loop thread_id rows messages s =
  (match failure (decode_row thread_id) rows with
   | Some e => inl e
   | None => inr (messages ++ appended (decode_row thread_id) rows)%list
   end, s).
Proof.
  induction rows as [|row rest IH]; intros messages s; simpl.
  - now rewrite app_nil_r.
  - destruct (decode_row thread_id row) as [e|[m|]] eqn:Hd.
    + now rewrite bind_lift_error.
    + rewrite bind_lift_ok, IH. rewrite <- app_assoc. reflexivity.
    + rewrite bind_lift_ok. apply IH.
Qed.

Lemma get_thread_messages_run (conn : E Store.database) (thread_id : string) (limit : Z) (s : state) :
  get_thread_messages conn thread_id limit s =
  match conn with
  | inl e => (inr [], record_event (Log ("Error reading thread: " ++ exn_str e)) s)
  | inr db =>
      let rows := thread_rows db thread_id limit in
      match failure (decode_row thread_id) rows with
      | Some e => (inr [], record_event (Log ("Error reading thread: " ++ exn_str e)) s)
      | None => (inr (appended (decode_row thread_id) rows), s)
      end
  end.
Proof.
  unfold Reader.get_thread_messages, try_except.
  destruct conn as [e|db].
  - reflexivity.
  - rewrite bind_lift_ok, thread_loop_run. cbv zeta.
    destruct (failure _ _); reflexivity.
Qed.

Lemma appended_from (decode : Row.t -> E (option Message.t)) (rows : list Row.t) :
  forall m, In m (appended decode rows) ->
  exists row, In row rows /\ decode row = inr (Some m).
Proof.
  induction rows as [|row rest IH]; simpl; intros m Hin; [contradiction|].
  destruct (decode row) as [e|[m'|]] eqn:Hd; simpl in Hin.
  - contradiction.
  - destruct Hin as [<-|Hin].
    + exists row. split; [now left | exact Hd].
    + destruct (IH m Hin) as [r [Hr Hdr]]. exists r. split; [now right | exact Hdr].
  - destruct (IH m Hin) as [r [Hr Hdr]]. exists r. split; [now right | exact Hdr].
Qed.

(** Every message of a batch comes from a fetched row. *)
Lemma recent_batch_from (c : source_class) (db : Store.database) (limit : Z) (s : state) (m : Message.t) :
  In m (batch (get_recent_messages c (inr db) limit s)) ->
  exists row, In row (recent_rows db (last_timestamp s) limit) /\
              decode_row (Row.room_id row) row = inr (Some m).
Proof.
  rewrite get_recent_messages_run. cbv zeta.
  destruct (failure decode_recent _); unfold batch; simpl; [contradiction|].
  apply appended_from.
Qed.

Lemma thread_batch_from (db : Store.database) (thread_id : string) (limit : Z) (s : state) (m : Message.t) :
  In m (batch (get_thread_messages (inr db) thread_id limit s)) ->
  exists row, In row (thread_rows db thread_id limit) /\ decode_row thread_id row = inr (Some m).
Proof.
  rewrite get_thread_messages_run. cbv zeta.
  destruct (failure _ _); unfold batch; simpl; [contradiction|].
  apply appended_from.
Qed.

Lemma failed_batch_empty_recent (c : source_class) (e : exn) (limit : Z) (s : state) :
  batch (get_recent_messages c (inl e) limit s) = [].
Proof. reflexivity. Qed.

(** *** Text extraction *)

(** With a payload that is a non-empty mapping, the chain of [or] is the
    priority list of the specification. *)
Lemma extract_text_on_mapping (text_content formatted_content : option string)
  (kv : string * pyval) (d : list (string * pyval)) :
  Reader.extract_text text_content formatted_content (PDict (kv :: d)) =
  inr (Spec.text_priority text_content formatted_content (kv :: d)).
Proof.
  assert (Hstr : forall p, truthy (PStr (py_str (PDict p))) = true) by reflexivity.
  unfold Reader.extract_text. change (truthy (PDict (kv :: d))) with true. cbv iota.
  set (p := kv :: d). assert (Hp : is_nil p = false) by reflexivity. clearbody p.
  unfold Spec.text_priority, Spec.lookup, py_or, py_get, Ebind, Eret.
  cbn [Spec.first_non_empty]. rewrite Hp, Hstr.
  destruct (truthy (of_column text_content)); [reflexivity|].
  destruct (truthy (of_column formatted_content)); [reflexivity|].
  destruct (assoc "text" p) as [v|];
    [destruct (truthy v); [reflexivity|] | change (truthy (PStr "")) with false; change (truthy PNone) with false ];
    cbv iota;
    (destruct (assoc "body" p) as [w|];
      [destruct (truthy w); [reflexivity|] | change (truthy (PStr "")) with false; change (truthy PNone) with false ];
      cbv iota;
      (destruct (assoc "filename" p) as [x|];
        [destruct (truthy x); [reflexivity|] | change (truthy (PStr "")) with false; change (truthy PNone) with false ];
        reflexivity)).
Qed.

(** With an empty payload the conditional expression takes its second branch:
    the pre-extracted fields are not looked at. *)
Lemma extract_text_without_payload (text_content formatted_content : option string) :
  Reader.extract_text text_content formatted_content (PDict []) = inr (PStr "").
Proof. reflexivity. Qed.

Lemma parse_message_json_unparsed (payload : string) :
  json_loads payload = None -> parse_message_json (Some payload) = PDict [].
Proof.
  intros H. unfold Reader.parse_message_json.
  destruct (if_text (Some payload)) as [text|] eqn:Hc; [|reflexivity].
  simpl in Hc. destruct (payload =? "")%string; [discriminate|].
  injection Hc as <-. now rewrite H.
Qed.

(** C1 (the code departs from the claim): a row whose payload does not parse
    is dropped by [continue] whatever its pre-extracted text fields hold, so
    no message with that text is produced. *)
Theorem C1_unparsed_payload_drops_row (thread_id : string) (row : Row.t) (payload : string) :
  Row.message_json row = Some payload ->
  json_loads payload = None ->
  decode_row thread_id row = inr None.
Proof.
  intros Hcol Hbad. unfold Reader.decode_row.
  rewrite Hcol, (parse_message_json_unparsed _ Hbad), extract_text_without_payload.
  reflexivity.
Qed.

(** *** The poller of the data source *)

(** C2 (the code departs from the claim): [_start_monitoring] stores the path,
    logs when the file is missing, and returns; with the file present it logs
    nothing, leaves [running] and the watermark as they were, and reads no
    store, whatever the stores hold. *)
Theorem C2_start_monitoring_returns_before_loop
  (configured_path : string) (path_exists : bool) (conns : list (E Store.database)) (s : state) :
  Reader._start_monitoring configured_path path_exists conns s =
    (inr tt,
     if path_exists then set_db_path (Some configured_path) s
     else record_event (Log ("Database not found: " ++ configured_path))
            (set_db_path (Some configured_path) s)) /\
  running (snd (Reader._start_monitoring configured_path path_exists conns s)) = running s /\
  last_timestamp (snd (Reader._start_monitoring configured_path path_exists conns s)) = last_timestamp s /\
  out (snd (Reader._start_monitoring configured_path true conns s)) = out s.
Proof.
  destruct path_exists; repeat split; reflexivity.
Qed.

(** *** Store failures *)

(** C6: a failure to connect or to run the query gives an empty list and one
    error line, in both readers, and leaves the object as it was: the
    listener prints [Error reading database:], the data source logs
    [Database error:], the by-thread reader prints [Error reading thread:],
    each followed by the message of the exception.  An exception raised while
    the rows are decoded ends the same way.  Whatever the store gives, neither
    reader raises, and a call that meets no exception logs nothing. *)
Theorem C6_store_failure_is_caught
  (c : source_class) (e : exn) (thread_id : string) (limit : Z) (s : state) :
  get_recent_messages c (inl e) limit s
    = (inr [], record_event (Log (Reader.error_line c e)) s) /\
  get_thread_messages (inl e) thread_id limit s
    = (inr [], record_event (Log ("Error reading thread: " ++ exn_str e)) s) /\
  (forall conn, exists l s', get_recent_messages c conn limit s = (inr l, s')) /\
  (forall conn, exists l s', get_thread_messages conn thread_id limit s = (inr l, s')) /\
  (out (snd (get_recent_messages c (inl e) limit s))
     = (out s ++ [Log (match c with
                       | Listener => "Error reading database: "
                       | DataSource => "Database error: "
                       end
                       ++ match e with
                          | TypeError said | AttributeError said | ValueError said
                          | OverflowError said | DatabaseError said => said
                          end)])%list /\
   last_timestamp (snd (get_recent_messages c (inl e) limit s)) = last_timestamp s /\
   running (snd (get_recent_messages c (inl e) limit s)) = running s /\
   db_path (snd (get_recent_messages c (inl e) limit s)) = db_path s) /\
  (out (snd (get_thread_messages (inl e) thread_id limit s))
     = (out s ++ [Log ("Error reading thread: "
                       ++ match e with
                          | TypeError said | AttributeError said | ValueError said
                          | OverflowError said | DatabaseError said => said
                          end)])%list /\
   last_timestamp (snd (get_thread_messages (inl e) thread_id limit s)) = last_timestamp s /\
   running (snd (get_thread_messages (inl e) thread_id limit s)) = running s /\
   db_path (snd (get_thread_messages (inl e) thread_id limit s)) = db_path s) /\
  (forall db,
     failure decode_recent (recent_rows db (last_timestamp s) limit) = Some e ->
     fst (get_recent_messages c (inr db) limit s) = inr [] /\
     out (snd (get_recent_messages c (inr db) limit s))
       = (out s ++ [Log (match c with
                         | Listener => "Error reading database: "
                         | DataSource => "Database error: "
                         end
                         ++ match e with
                            | TypeError said | AttributeError said | ValueError said
                            | OverflowError said | DatabaseError said => said
                            end)])%list) /\
  (forall db,
     failure (decode_row thread_id) (thread_rows db thread_id limit) = Some e ->
     get_thread_messages (inr db) thread_id limit s
       = (inr [], {| db_path := db_path s; last_timestamp := last_timestamp s;
                     running := running s;
                     out := (out s ++ [Log ("Error reading thread: "
                                            ++ match e with
                                               | TypeError said | AttributeError said
                                               | ValueError said | OverflowError said
                                               | DatabaseError said => said
                                               end)])%list |})) /\
  (forall db,
     failure decode_recent (recent_rows db (last_timestamp s) limit) = None ->
     out (snd (get_recent_messages c (inr db) limit s)) = out s) /\
  (forall db,
     failure (decode_row thread_id) (thread_rows db thread_id limit) = None ->
     snd (get_thread_messages (inr db) thread_id limit s) = s).
Proof.
  split; [reflexivity|]. split; [reflexivity|].
  split.
  { intros conn. rewrite get_recent_messages_run.
    destruct conn as [e'|db]; cbv zeta; [eauto|].
    destruct (failure _ _); eauto. }
  split.
  { intros conn. rewrite get_thread_messages_run.
    destruct conn as [e'|db]; cbv zeta; [eauto|].
    destruct (failure _ _); eauto. }
  split; [destruct c, e; repeat split; reflexivity|].
  split; [destruct e; repeat split; reflexivity|].
  split.
  { intros db Hf. rewrite get_recent_messages_run. cbv zeta. rewrite Hf.
    destruct c, e; split; reflexivity. }
  split.
  { intros db Hf. rewrite get_thread_messages_run. cbv zeta. rewrite Hf.
    destruct e; reflexivity. }
  split.
  { intros db Hf. rewrite get_recent_messages_run. cbv zeta. rewrite Hf. reflexivity. }
  intros db Hf. rewrite get_thread_messages_run. cbv zeta. rewrite Hf. reflexivity.
Qed.

(** *** Sender metadata *)

(** Without metadata, or with metadata that is not JSON, the name is the raw
    sender id and the mapping is empty. *)
Lemma sender_info_fallback (sender_id blob : option string) :
  match blob with
  | None => True
  | Some text => text = "" \/ json_loads text = None
  end ->
  sender_info sender_id blob = inr (of_column sender_id, PDict []).
Proof.
  unfold Reader.sender_info. destruct blob as [text|]; [|reflexivity].
  intros [->|H]; [reflexivity|].
  destruct (if_text (Some text)) as [text'|] eqn:Hc; [|reflexivity].
  simpl in Hc. destruct (text =? "")%string; [discriminate|].
  injection Hc as <-. now rewrite H.
Qed.

(** With metadata that is a JSON object, the name is the first non-empty of
    displayName, name and username, else the raw sender id. *)
Lemma sender_info_on_mapping (sender_id : option string) (text : string) (d : list (string * pyval)) :
  text <> "" -> json_loads text = Some (PDict d) ->
  sender_info sender_id (Some text) = inr (Spec.sender_name sender_id d, PDict d).
Proof.
  intros Hne H. unfold Reader.sender_info.
  rewrite (if_text_nonempty _ Hne), H.
  unfold Spec.sender_name, Spec.first_non_empty, Spec.lookup, py_or, py_get, Ebind, Eret.
  destruct (assoc "displayName" d) as [v|]; cbn [truthy];
    [destruct (truthy v); [reflexivity|] | ];
    (destruct (assoc "name" d) as [w|]; cbn [truthy];
      [destruct (truthy w); [reflexivity|] | ];
      (destruct (assoc "username" d) as [x|]; cbn [truthy];
        [destruct (truthy x); [reflexivity|] | ];
        destruct (truthy (of_column sender_id)); reflexivity)).
Qed.

(** C9 (the code departs from the claim): metadata that is JSON but not an
    object makes the first [get] raise [AttributeError], which the handler of
    lines 91-92 does not take. *)
Theorem C9_non_mapping_metadata_raises (sender_id : option string) (text : string) (v : pyval) :
  text <> "" ->
  json_loads text = Some v ->
  (forall d, v <> PDict d) ->
  sender_info sender_id (Some text)
    = inl (AttributeError ("'" ++ type_name v ++ "' object has no attribute 'get'")).
Proof.
  intros Hne H Hnot. unfold Reader.sender_info.
  rewrite (if_text_nonempty _ Hne), H.
  destruct v; try reflexivity. exfalso. now apply (Hnot d).
Qed.

(** *** The network classifier *)

(** C5 (amended): the network block is the rule table read first match
    first, with the platform hint (else unknown) as the default; the first
    three tests fold case, the tests for beeper.com and local-whatsapp read
    the sender id as stored.  A sender id local-whatsapp-123 is whatsapp. *)
Theorem C5_classifier_is_first_match :
  (forall sender_id hint : option string,
     classify_network sender_id hint = Spec.classify Spec.rules_amended sender_id hint) /\
  (forall hint : option string, classify_network (Some "local-whatsapp-123") hint = "whatsapp").
Proof.
  split; [|reflexivity].
  intros sender_id hint.
  unfold classify_network, Spec.classify, Spec.rules_amended.
  cbn [find]. unfold Spec.rule_matches. cbn [Spec.needle Spec.fold_case Spec.verdict].
  change (match hint with
          | Some h => if (h =? "")%string then "unknown" else h
          | None => "unknown"
          end) with (Spec.default_network hint).
  destruct sender_id as [sid|]; [|reflexivity].
  destruct (String.eqb_spec sid "") as [->|Hne]; [reflexivity|].
  cbn [negb].
  repeat match goal with
         | |- context [PyStr.contains ?a ?b] => destruct (PyStr.contains a b)
         end; reflexivity.
Qed.

(** *** The thread namer *)

(** The metadata a row is decoded with is always a mapping: anything else
    has raised before the thread is named. *)
Lemma sender_info_gives_mapping (sender_id blob : option string) (name data : pyval) :
  sender_info sender_id blob = inr (name, data) -> exists metadata, data = PDict metadata.
Proof.
  unfold Reader.sender_info.
  destruct (if_text blob) as [text|]; [|intros H; injection H as _ <-; now exists []].
  destruct (json_loads text) as [v|]; [|intros H; injection H as _ <-; now exists []].
  destruct v; try discriminate.
  unfold Ebind. destruct (_ |or| _); [discriminate|].
  intros H. injection H as _ <-. now exists d.
Qed.

Lemma decode_row_naming (thread_id : string) (row : Row.t) (m : Message.t) :
  decode_row thread_id row = inr (Some m) ->
  exists sender,
    sender_info (Row.sender_id row) (Row.sender_user_json row) = inr sender /\
    Message.raw_sender_data m = snd sender /\
    Message.sender_name m = fst sender /\
    Message.thread_name m
      = _generate_thread_name (Message.room_id m) (Message.network m) (snd sender).
Proof.
  unfold Reader.decode_row.
  destruct (Reader.extract_text _ _ _) as [e|text]; simpl; [discriminate|].
  destruct (Reader.meaningful text) as [e|[kept|]]; simpl; try discriminate.
  destruct (Reader.sender_info _ _ _) as [e|sender]; simpl; [discriminate|].
  destruct (strftime _) as [e|human]; simpl; [discriminate|].
  intros H. injection H as <-. exists sender. repeat split; reflexivity.
Qed.

(** The name of a chat that is neither WhatsApp, Telegram, LinkedIn nor
    Matrix, whatever the sender metadata. *)
Lemma other_network_name (room_id network : string) (sender_data : pyval) :
  network <> "whatsapp" -> network <> "telegram" -> network <> "linkedin" ->
  network <> "matrix" ->
  _generate_thread_name room_id network sender_data = "Chat (" ++ PyStr.take 8 room_id ++ "...)".
Proof.
  intros H1 H2 H3 H4. unfold _generate_thread_name, thread_name_body, short_room.
  apply String.eqb_neq in H1, H2, H3, H4. now rewrite H1, H2, H3, H4.
Qed.

(** The WhatsApp name on a mapping, by the value found. *)
Lemma whatsapp_name_on_mapping (room_id : string) (metadata : list (string * pyval)) :
  _generate_thread_name room_id "whatsapp" (PDict metadata)
    = match Spec.first_non_empty [ Spec.lookup metadata "displayName"; Spec.lookup metadata "name" ] with
      | Some name => "WhatsApp: " ++ py_str name
      | None => "WhatsApp Chat"
      end.
Proof.
  unfold _generate_thread_name, thread_name_body.
  change ("whatsapp" =? "whatsapp")%string with true. cbv iota.
  destruct metadata as [|kv d]; [reflexivity|].
  change (truthy (PDict (kv :: d))) with true. cbv iota.
  set (p := kv :: d). clearbody p.
  unfold Spec.lookup, py_or, py_get, Ebind, Eret. cbn [Spec.first_non_empty].
  destruct (assoc "displayName" p) as [v|];
    [destruct (truthy v) eqn:Hv; [rewrite Hv; reflexivity|] | change (truthy PNone) with false ];
    cbv iota;
    (destruct (assoc "name" p) as [w|]; [|reflexivity];
     destruct (truthy w) eqn:Hw; try rewrite Hw; reflexivity).
Qed.

(** C8: on sender metadata that is a mapping, [_generate_thread_name] is the
    rule list of section 4.3, and every message the decoder builds is named
    by that list from its own room, network and metadata.  Rule by rule: a
    WhatsApp chat whose metadata has a non-empty text under [displayName], or
    failing that under [name], is [WhatsApp: ] followed by that text, and
    [WhatsApp Chat] when neither key holds a non-empty value; a Telegram chat
    is [Telegram Bot/Channel] when its room id contains [telegram_] and
    [Telegram Chat] otherwise; LinkedIn and Matrix chats have their fixed
    names; any other network gives [Chat (] with the first eight characters
    of the room id (all of it when it is shorter) and [...)]. *)
Theorem C8_thread_name_rules :
  (forall (room_id network : string) (metadata : list (string * pyval)),
     _generate_thread_name room_id network (PDict metadata)
       = Spec.thread_name room_id network metadata) /\
  (forall (thread_id : string) (row : Row.t) (m : Message.t),
     decode_row thread_id row = inr (Some m) ->
     exists metadata,
       Message.raw_sender_data m = PDict metadata /\
       Message.thread_name m
         = Spec.thread_name (Message.room_id m) (Message.network m) metadata) /\
  (forall sender_data, _generate_thread_name "telegram_news_42" "telegram" sender_data
                         = "Telegram Bot/Channel") /\
  (forall sender_data, _generate_thread_name "abc123" "telegram" sender_data = "Telegram Chat") /\
  (forall room_id name metadata,
     name <> "" ->
     assoc "displayName" metadata = Some (PStr name) ->
     _generate_thread_name room_id "whatsapp" (PDict metadata) = "WhatsApp: " ++ name) /\
  (forall room_id name metadata,
     name <> "" ->
     (forall v, assoc "displayName" metadata = Some v -> truthy v = false) ->
     assoc "name" metadata = Some (PStr name) ->
     _generate_thread_name room_id "whatsapp" (PDict metadata) = "WhatsApp: " ++ name) /\
  (forall room_id metadata,
     (forall v, assoc "displayName" metadata = Some v -> truthy v = false) ->
     (forall v, assoc "name" metadata = Some v -> truthy v = false) ->
     _generate_thread_name room_id "whatsapp" (PDict metadata) = "WhatsApp Chat") /\
  (forall room_id sender_data,
     _generate_thread_name room_id "telegram" sender_data
       = if PyStr.contains "telegram_" room_id then "Telegram Bot/Channel" else "Telegram Chat") /\
  (forall room_id sender_data,
     _generate_thread_name room_id "linkedin" sender_data = "LinkedIn Chat" /\
     _generate_thread_name room_id "matrix" sender_data = "Matrix/Beeper Chat") /\
  (forall first_eight rest network sender_data,
     String.length first_eight = 8%nat ->
     network <> "whatsapp" -> network <> "telegram" -> network <> "linkedin" ->
     network <> "matrix" ->
     _generate_thread_name (first_eight ++ rest) network sender_data
       = "Chat (" ++ first_eight ++ "...)") /\
  (forall room_id network sender_data,
     (String.length room_id <= 8)%nat ->
     network <> "whatsapp" -> network <> "telegram" -> network <> "linkedin" ->
     network <> "matrix" ->
     _generate_thread_name room_id network sender_data = "Chat (" ++ room_id ++ "...)") /\
  _generate_thread_name "!room:beeper.local" "whatsapp" (PDict [("displayName", PInt 42)])
    = "WhatsApp: 42" /\
  _generate_thread_name "!room:beeper.local" "whatsapp"
    (PDict [("displayName", PStr ""); ("name", PBool true)]) = "WhatsApp: True" /\
  _generate_thread_name "!room:beeper.local" "signal" PNone = "Chat (!room:be...)".
Proof.
  assert (Hrules : forall room_id network metadata,
             _generate_thread_name room_id network (PDict metadata)
               = Spec.thread_name room_id network metadata).
  { intros room_id network metadata.
    destruct (String.eqb_spec network "whatsapp") as [->|Hw].
    - rewrite whatsapp_name_on_mapping. unfold Spec.thread_name.
      change ("whatsapp" =? "whatsapp")%string with true. cbv iota.
      destruct (Spec.first_non_empty _) as [name|]; [|reflexivity].
      now rewrite written_str.
    - unfold _generate_thread_name, thread_name_body, Spec.thread_name, short_room.
      apply String.eqb_neq in Hw. rewrite Hw.
      destruct (network =? "telegram")%string.
      + destruct (PyStr.contains "telegram_" room_id); reflexivity.
      + destruct (network =? "linkedin")%string; [reflexivity|].
        destruct (network =? "matrix")%string; [reflexivity|].
        now rewrite take_first_chars. }
  split; [exact Hrules|]. split.
  { intros thread_id row m Hd.
    destruct (decode_row_naming _ _ _ Hd) as [[name data] [Hs [Hraw [_ Hname]]]].
    destruct (sender_info_gives_mapping _ _ _ _ Hs) as [metadata Hmap].
    simpl in Hraw, Hname. rewrite Hmap in Hraw, Hname.
    exists metadata. split; [exact Hraw|]. now rewrite Hname, Hrules. }
  split; [reflexivity|]. split; [reflexivity|].
  split.
  { intros room_id name metadata Hne Hd. rewrite whatsapp_name_on_mapping.
    unfold Spec.lookup. cbn [Spec.first_non_empty]. rewrite Hd.
    cbn [truthy]. apply String.eqb_neq in Hne. rewrite Hne. reflexivity. }
  split.
  { intros room_id name metadata Hne Hd Hn. rewrite whatsapp_name_on_mapping.
    unfold Spec.lookup. cbn [Spec.first_non_empty]. rewrite Hn.
    destruct (assoc "displayName" metadata) as [v|].
    - rewrite (Hd v eq_refl). cbn [truthy]. apply String.eqb_neq in Hne. rewrite Hne. reflexivity.
    - cbn [truthy]. apply String.eqb_neq in Hne. rewrite Hne. reflexivity. }
  split.
  { intros room_id metadata Hd Hn. rewrite whatsapp_name_on_mapping.
    unfold Spec.lookup. cbn [Spec.first_non_empty].
    destruct (assoc "displayName" metadata) as [v|];
      [rewrite (Hd v eq_refl) | cbn [truthy]];
      (destruct (assoc "name" metadata) as [w|]; [rewrite (Hn w eq_refl)|]; reflexivity). }
  split.
  { intros room_id sender_data. unfold _generate_thread_name, thread_name_body.
    change ("telegram" =? "whatsapp")%string with false.
    change ("telegram" =? "telegram")%string with true. cbv iota.
    destruct (PyStr.contains "telegram_" room_id); reflexivity. }
  split; [intros room_id sender_data; split; reflexivity|].
  split.
  { intros first_eight rest network sender_data Hlen H1 H2 H3 H4.
    rewrite other_network_name by assumption.
    rewrite <- Hlen, take_prefix. reflexivity. }
  split.
  { intros room_id network sender_data Hlen H1 H2 H3 H4.
    rewrite other_network_name by assumption.
    now rewrite take_short. }
  repeat split; reflexivity.
Qed.

(** *** The reply flag *)

Lemma bool_of_text_true (c : option string) :
  bool_of_text c = true <-> exists v, c = Some v /\ v <> "".
Proof.
  unfold bool_of_text. destruct c as [v|]; simpl.
  - destruct (String.eqb_spec v ""); simpl; split.
    + discriminate.
    + intros [w [Hw Hne]]. injection Hw as <-. contradiction.
    + intros _. now exists v.
    + reflexivity.
  - split; [discriminate|]. intros [v [H _]]. discriminate.
Qed.

(** C10: every message either reader returns comes from a fetched row whose
    reply-to column it carries unchanged in [reply_to_id], and its [is_reply]
    is true exactly when that column holds a non-empty text; a NULL or empty
    column gives [is_reply = false]. *)
Theorem C10_reply_flag_follows_column
  (c : source_class) (db : Store.database) (thread_id : string) (limit : Z) (s : state)
  (m : Message.t) :
  In m (batch (get_recent_messages c (inr db) limit s)) \/
  In m (batch (get_thread_messages (inr db) thread_id limit s)) ->
  exists row,
    (In row (recent_rows db (last_timestamp s) limit) \/ In row (thread_rows db thread_id limit)) /\
    Message.event_id m = Row.event_id row /\
    Message.reply_to_id m = Row.in_reply_to row /\
    (Message.is_reply m = true <-> exists v, Row.in_reply_to row = Some v /\ v <> "") /\
    (Row.in_reply_to row = None \/ Row.in_reply_to row = Some "" -> Message.is_reply m = false).
Proof.
  intros H.
  assert (Hrow : exists row tid,
             (In row (recent_rows db (last_timestamp s) limit) \/ In row (thread_rows db thread_id limit))
             /\ decode_row tid row = inr (Some m)).
  { destruct H as [H|H].
    - destruct (recent_batch_from _ _ _ _ _ H) as [row [Hin Hd]]. exists row, (Row.room_id row). auto.
    - destruct (thread_batch_from _ _ _ _ _ H) as [row [Hin Hd]]. exists row, thread_id. auto. }
  destruct Hrow as [row [tid [Hin Hd]]]. exists row.
  pose proof (decode_row_fields _ _ _ Hd) as [_ [_ [_ [Hflag [Hid _]]]]].
  assert (Hev : Message.event_id m = Row.event_id row).
  { revert Hd. unfold Reader.decode_row.
    destruct (Reader.extract_text _ _ _) as [e|text]; simpl; [discriminate|].
    destruct (Reader.meaningful text) as [e|[kept|]]; simpl; try discriminate.
    destruct (Reader.sender_info _ _ _) as [e|sender]; simpl; [discriminate|].
    destruct (strftime _) as [e|human]; simpl; [discriminate|].
    intros Hm. injection Hm as <-. reflexivity. }
  repeat split; auto.
  - rewrite Hflag. apply bool_of_text_true.
  - rewrite Hflag. apply bool_of_text_true.
  - intros [Hn|Hn]; rewrite Hflag, Hn; reflexivity.
Qed.

(** *** What every returned message satisfies *)

(** C4 (amended): every message either reader returns has a text that is
    not empty and not all white space and a type of the fixed set; its
    network is one of the fixed enumeration or else, no rule of the table
    matching its sender id, the platform name of the sender's account: the
    message names a sender, a record of the users table has that id, that
    record points to a record of the accounts table, and the network is the
    platform name stored there, whatever text that is. *)
Theorem C4_returned_message_invariant
  (c : source_class) (db : Store.database) (thread_id : string) (limit : Z) (s : state)
  (m : Message.t) :
  In m (batch (get_recent_messages c (inr db) limit s)) \/
  In m (batch (get_thread_messages (inr db) thread_id limit s)) ->
  Message.text m <> "" /\
  PyStr.strip (Message.text m) <> "" /\
  In (Message.message_type m) Store.allowed_types /\
  (In (Message.network m) Spec.networks \/
   exists sid u a,
     Message.sender_id m = Some sid /\
     find (Spec.rule_matches sid) Spec.rules_amended = None /\
     In u (Store.users db) /\ Store.userID u = sid /\
     In a (Store.accounts db) /\ Store.accountID u = Some (Store.account_accountID a) /\
     Store.platformName a = Some (Message.network m)).
Proof.
  intros H.
  assert (Hrow : exists j tid, In j (Store.from_clause db) /\ Store.surfaced j = true /\
                               decode_row tid (Row.select j) = inr (Some m)).
  { destruct H as [H|H].
    - destruct (recent_batch_from _ _ _ _ _ H) as [row [Hin Hd]].
      destruct (recent_rows_sound _ _ _ _ Hin) as [j [Hj [-> [_ Hs]]]]. eauto.
    - destruct (thread_batch_from _ _ _ _ _ H) as [row [Hin Hd]].
      destruct (thread_rows_sound _ _ _ _ Hin) as [j [Hj [-> [_ Hs]]]]. eauto. }
  destruct Hrow as [j [tid [Hj [Hs Hd]]]].
  destruct (decode_row_fields _ _ _ Hd) as [_ [Hty [Hnet [_ [_ [_ [_ Htext]]]]]]].
  pose proof (decode_row_sender _ _ _ Hd) as Hsender.
  destruct (meaningful_text _ Htext) as [Hne Hstrip].
  repeat split; auto.
  - rewrite Hty. apply type_allowed_In.
    unfold Store.surfaced in Hs. apply andb_true_iff in Hs. destruct Hs as [Hs _].
    destruct j as [[x u] a]. exact Hs.
  - rewrite Hnet, Hsender.
    destruct (classify_network_default (Row.sender_id (Row.select j))
                (Row.network_type (Row.select j)))
      as [Hin|[Hhint Hrules]]; [now left | right].
    destruct j as [[x u] a].
    cbn [Row.select Row.sender_id Row.network_type] in Hhint, Hrules |- *.
    destruct a as [a|]; [|discriminate].
    destruct (from_clause_sender_account db (x, u, Some a) a Hj eq_refl)
      as [_ [u' [Hsid [Hu [Hacc Ha]]]]].
    unfold Store.msg_of in Hsid. cbn [fst] in Hsid.
    exists (Store.userID u'), u', a. rewrite Hsid in Hrules, Hhint |- *.
    split; [reflexivity|]. split; [apply Hrules; reflexivity|].
    split; [exact Hu|]. split; [reflexivity|]. split; [exact Ha|]. split; [exact Hacc|].
    exact Hhint.
Qed.

(** *** Polling twice *)

(** Rows newer than every message a loop appended cannot have been appended
    by it: over a prefix made of such rows the loop appends nothing. *)
Lemma appended_above_watermark (rows : list Row.t) :
  forall (k : nat) (w : Z),
  (forall m, In m (appended decode_recent rows) -> Message.timestamp m <= w) ->
  (forall row, In row (firstn k rows) -> w < Row.timestamp row) ->
  appended decode_recent (firstn k rows) = [].
Proof.
  induction rows as [|row rest IH]; intros k w Hold Hnew.
  - now rewrite firstn_nil.
  - destruct k as [|k]; [reflexivity|].
    simpl in *. destruct (decode_recent row) as [e|[m|]] eqn:Hd.
    + reflexivity.
    + exfalso.
      destruct (decode_row_fields _ _ _ Hd) as [Hts _].
      specialize (Hold m (or_introl eq_refl)).
      specialize (Hnew row (or_introl eq_refl)). lia.
    + apply (IH k w); auto.
Qed.

(** C7: a second [get_recent_messages] over the same store, with the same
    limit and the watermark the first call left, returns the empty list. *)
Theorem C7_second_poll_returns_nothing
  (c : source_class) (conn : E Store.database) (limit : Z) (s : state) :
  fst (get_recent_messages c conn limit (snd (get_recent_messages c conn limit s))) = inr [].
Proof.
  destruct conn as [e|db]; [reflexivity|].
  set (rows := recent_rows db (last_timestamp s) limit).
  set (w' := raise_to (map Message.timestamp (appended decode_recent rows)) (last_timestamp s)).
  assert (Hs1 : last_timestamp (snd (get_recent_messages c (inr db) limit s)) = w').
  { rewrite get_recent_messages_run. cbv zeta. fold rows. fold w'.
    destruct (failure decode_recent rows); reflexivity. }
  rewrite (get_recent_messages_run c (inr db) limit (snd _)). cbv zeta. rewrite Hs1.
  destruct (recent_rows_later db (last_timestamp s) w' limit) as [k Hk].
  { apply raise_to_ge. }
  fold rows in Hk.
  assert (Hnone : appended decode_recent (recent_rows db w' limit) = []).
  { rewrite Hk. apply (appended_above_watermark rows k w').
    - intros m Hm. apply raise_to_bound. now apply in_map.
    - intros row Hrow. rewrite <- Hk in Hrow. now apply recent_rows_above in Hrow. }
  destruct (failure decode_recent (recent_rows db w' limit)); [reflexivity|].
  simpl. now rewrite Hnone.
Qed.

(** *** The watermark *)

Lemma out_extension_nil (l extra : list event) : (l ++ extra)%list = l -> extra = [].
Proof.
  intros H. apply (app_inv_head l). now rewrite app_nil_r.
Qed.

(** One call: the watermark does not go down, the log only grows, and when
    the call logged nothing the watermark is the maximum of its old value and
    the timestamps of the messages returned. *)
Lemma recent_watermark_step (c : source_class) (conn : E Store.database) (limit : Z) (s : state) :
  let r := get_recent_messages c conn limit s in
  last_timestamp s <= last_timestamp (snd r) /\
  (exists extra, out (snd r) = (out s ++ extra)%list) /\
  (out (snd r) = out s ->
   last_timestamp (snd r) = raise_to (map Message.timestamp (batch r)) (last_timestamp s)).
Proof.
  cbv zeta. rewrite get_recent_messages_run. destruct conn as [e|db]; cbv zeta.
  - simpl. split; [lia|]. split; [eauto|]. reflexivity.
  - destruct (failure decode_recent _); simpl.
    + split; [apply raise_to_ge|]. split; [eauto|].
      intros H. apply out_extension_nil in H. discriminate.
    + split; [apply raise_to_ge|]. split; [exists []; now rewrite app_nil_r|]. reflexivity.
Qed.

Lemma poll_cycles_cons (c : source_class) (conn : E Store.database) (later : list (E Store.database))
  (s : state) :
  poll_cycles c (conn :: later) s =
  (batch (get_recent_messages c conn 50 s)
     :: fst (poll_cycles c later (snd (get_recent_messages c conn 50 s))),
   snd (poll_cycles c later (snd (get_recent_messages c conn 50 s)))).
Proof.
  simpl. destruct (Reader.poll_cycles _ _ c later _); reflexivity.
Qed.

(** C3 (amended): over any number of poll cycles the watermark does not go
    down, and when no cycle logged an error it ends at the maximum of its
    first value and the timestamps of the messages the cycles returned; a row
    skipped for empty or blank text returns no message and so does not raise
    it. *)
Theorem C3_watermark_is_max_of_returned
  (c : source_class) (conns : list (E Store.database)) (s : state) :
  let r := poll_cycles c conns s in
  last_timestamp s <= last_timestamp (snd r) /\
  (out (snd r) = out s ->
   last_timestamp (snd r)
     = raise_to (map Message.timestamp (List.concat (fst r))) (last_timestamp s)).
Proof.
  cbv zeta.
  assert (H : forall conns s,
             last_timestamp s <= last_timestamp (snd (poll_cycles c conns s)) /\
             (exists extra, out (snd (poll_cycles c conns s)) = (out s ++ extra)%list) /\
             (out (snd (poll_cycles c conns s)) = out s ->
              last_timestamp (snd (poll_cycles c conns s))
                = raise_to (map Message.timestamp (List.concat (fst (poll_cycles c conns s))))
                    (last_timestamp s))).
  { clear conns s. induction conns as [|conn later IH]; intros s.
    - simpl. split; [lia|]. split; [exists []; now rewrite app_nil_r | reflexivity].
    - rewrite poll_cycles_cons. simpl fst. simpl snd.
      pose proof (recent_watermark_step c conn 50 s) as Hstep. cbv zeta in Hstep.
      set (r1 := get_recent_messages c conn 50 s) in *.
      destruct Hstep as [Hmono [[e1 He1] Heq1]].
      destruct (IH (snd r1)) as [Hmono2 [[e2 He2] Heq2]].
      split; [lia|]. split.
      + exists (e1 ++ e2)%list. now rewrite He2, He1, app_assoc.
      + intros Hout.
        assert (Hnil : (e1 ++ e2)%list = []).
        { apply (out_extension_nil (out s)). now rewrite app_assoc, <- He1, <- He2. }
        apply app_eq_nil in Hnil. destruct Hnil as [-> ->].
        rewrite app_nil_r in He1, He2.
        simpl List.concat. rewrite map_app, raise_to_app, <- (Heq1 He1). apply Heq2. exact He2. }
  destruct (H conns s) as [H1 [_ H2]]. auto.
Qed.

(** *** Further properties of the reader *)

(** The fifth rule never decides: dropping it from the table changes no
    classification (section 4.2, note). *)
Theorem local_whatsapp_rule_is_redundant (sender_id hint : option string) :
  classify_network sender_id hint = Spec.classify (firstn 4 Spec.rules_amended) sender_id hint.
Proof.
  unfold classify_network, Spec.classify, Spec.rules_amended.
  cbn [firstn find]. unfold Spec.rule_matches. cbn [Spec.needle Spec.fold_case Spec.verdict].
  change (match hint with
          | Some h => if (h =? "")%string then "unknown" else h
          | None => "unknown"
          end) with (Spec.default_network hint).
  destruct sender_id as [sid|]; [|reflexivity].
  destruct (String.eqb_spec sid "") as [->|Hne]; [reflexivity|].
  cbn [negb].
  destruct (PyStr.contains "whatsapp" (PyStr.lower sid)) eqn:Hw; [reflexivity|].
  destruct (PyStr.contains "telegram" (PyStr.lower sid)); [reflexivity|].
  destruct (PyStr.contains "linkedin" (PyStr.lower sid)); [reflexivity|].
  destruct (PyStr.contains "beeper.com" sid); [reflexivity|].
  destruct (PyStr.contains "local-whatsapp" sid) eqn:Hl; [|reflexivity].
  apply local_whatsapp_is_whatsapp in Hl. congruence.
Qed.

(** A row whose extracted text is empty or all white space yields no
    message (section 8, first property). *)
Theorem blank_text_yields_no_message (thread_id : string) (row : Row.t) (text : string) :
  Reader.extract_text (Row.text_content row) (Row.formatted_content row)
    (parse_message_json (Row.message_json row)) = inr (PStr text) ->
  PyStr.strip text = "" ->
  decode_row thread_id row = inr None.
Proof.
  intros Ht Hs. unfold Reader.decode_row. rewrite Ht. simpl.
  unfold Reader.meaningful. simpl.
  destruct (text =? "")%string; simpl; [reflexivity|]. now rewrite Hs.
Qed.

(** [get_thread_messages] leaves the object as it was unless it logs an
    error, and never touches the watermark or the running flag. *)
Theorem thread_read_keeps_watermark
  (conn : E Store.database) (thread_id : string) (limit : Z) (s : state) :
  last_timestamp (snd (get_thread_messages conn thread_id limit s)) = last_timestamp s /\
  running (snd (get_thread_messages conn thread_id limit s)) = running s.
Proof.
  rewrite get_thread_messages_run. destruct conn as [e|db]; cbv zeta; [split; reflexivity|].
  destruct (failure _ _); split; reflexivity.
Qed.

(** Every message of [get_thread_messages] is of the room asked for, and its
    thread id is that room. *)
Theorem thread_messages_are_of_the_thread
  (db : Store.database) (thread_id : string) (limit : Z) (s : state) (m : Message.t) :
  In m (batch (get_thread_messages (inr db) thread_id limit s)) ->
  Message.room_id m = thread_id /\ Message.thread_id m = thread_id.
Proof.
  intros H. destruct (thread_batch_from _ _ _ _ _ H) as [row [Hin Hd]].
  destruct (decode_row_fields _ _ _ Hd) as [_ [_ [_ [_ [_ [Hroom [Htid _]]]]]]].
  destruct (thread_rows_sound _ _ _ _ Hin) as [j [_ [-> [Hr _]]]].
  split; [|exact Htid]. rewrite Hroom. destruct j as [[x u] a]. exact Hr.
Qed.

(** Every message of [get_recent_messages] is newer than the watermark the
    call started from, and its thread id is its room id. *)
Theorem recent_messages_are_newer
  (c : source_class) (db : Store.database) (limit : Z) (s : state) (m : Message.t) :
  In m (batch (get_recent_messages c (inr db) limit s)) ->
  last_timestamp s < Message.timestamp m /\ Message.thread_id m = Message.room_id m.
Proof.
  intros H. destruct (recent_batch_from _ _ _ _ _ H) as [row [Hin Hd]].
  destruct (decode_row_fields _ _ _ Hd) as [Hts [_ [_ [_ [_ [Hroom [Htid _]]]]]]].
  rewrite Hts, Htid, Hroom. split; [|reflexivity]. now apply recent_rows_above in Hin.
Qed.

Lemma appended_newest_first (rows : list Row.t) :
  StronglySorted (fun a b => Row.timestamp b <= Row.timestamp a) rows ->
  StronglySorted (fun a b => Message.timestamp b <= Message.timestamp a)
    (appended decode_recent rows).
Proof.
  induction rows as [|row rest IH]; intros Hs; simpl; [constructor|].
  apply StronglySorted_inv in Hs. destruct Hs as [Hrest Hrow].
  destruct (decode_recent row) as [e|[m|]] eqn:Hd; [constructor| |auto].
  constructor; [auto|].
  destruct (decode_row_fields _ _ _ Hd) as [Hts _].
  rewrite Forall_forall in *. intros m' Hm'.
  destruct (appended_from _ _ _ Hm') as [row' [Hin' Hd']].
  destruct (decode_row_fields _ _ _ Hd') as [Hts' _].
  rewrite Hts, Hts'. auto.
Qed.

(** The messages of one [get_recent_messages] call stand newest first. *)
Theorem recent_batch_newest_first
  (c : source_class) (conn : E Store.database) (limit : Z) (s : state) :
  StronglySorted (fun a b => Message.timestamp b <= Message.timestamp a)
    (batch (get_recent_messages c conn limit s)).
Proof.
  rewrite get_recent_messages_run. destruct conn as [e|db]; cbv zeta; [constructor|].
  destruct (failure _ _); [constructor|]. unfold batch; simpl.
  apply appended_newest_first. apply recent_rows_newest_first.
Qed.

(** *** Bounds, provenance and order of a batch *)

Lemma appended_length (decode : Row.t -> E (option Message.t)) (rows : list Row.t) :
  (List.length (appended decode rows) <= List.length rows)%nat.
Proof.
  induction rows as [|row rest IH]; simpl; [lia|].
  destruct (decode row) as [e|[m|]]; simpl; lia.
Qed.

Lemma limit_clause_length {A} (n : Z) (l : list A) :
  0 <= n -> Z.of_nat (List.length (Store.limit_clause n l)) <= n.
Proof.
  intros Hn. unfold Store.limit_clause.
  destruct (Z.ltb_spec n 0); [lia|].
  pose proof (firstn_le_length (Z.to_nat n) l). lia.
Qed.

(** Neither reader returns more messages than the limit it is given. *)
Theorem batch_within_limit
  (c : source_class) (conn : E Store.database) (thread_id : string) (limit : Z) (s : state) :
  0 <= limit ->
  Z.of_nat (List.length (batch (get_recent_messages c conn limit s))) <= limit /\
  Z.of_nat (List.length (batch (get_thread_messages conn thread_id limit s))) <= limit.
Proof.
  intros Hn. rewrite get_recent_messages_run, get_thread_messages_run.
  destruct conn as [e|db]; cbv zeta; [simpl; lia|].
  split.
  - destruct (failure decode_recent _); unfold batch; simpl; [lia|].
    pose proof (appended_length decode_recent (recent_rows db (last_timestamp s) limit)) as Ha.
    unfold recent_rows in *. rewrite length_map in Ha.
    pose proof (limit_clause_length limit
                  (Store.order_by Store.ts_desc
                     (filter (fun j => (last_timestamp s <? Store.timestamp (Store.msg_of j))
                                       && Store.surfaced j) (Store.from_clause db))) Hn).
    lia.
  - destruct (failure (decode_row thread_id) _); unfold batch; simpl; [lia|].
    pose proof (appended_length (decode_row thread_id) (thread_rows db thread_id limit)) as Ha.
    unfold thread_rows in *. rewrite length_map in Ha.
    pose proof (limit_clause_length limit
                  (Store.order_by Store.ts_asc
                     (filter (fun j => (Store.roomID (Store.msg_of j) =? thread_id)%string
                                       && Store.surfaced j) (Store.from_clause db))) Hn).
    lia.
Qed.

Lemma from_clause_message (db : Store.database) (j : Store.joined) :
  In j (Store.from_clause db) -> In (Store.msg_of j) (Store.mx_room_messages db).
Proof.
  unfold Store.from_clause. rewrite in_flat_map. intros [m [Hm Hj]].
  rewrite in_flat_map in Hj. destruct Hj as [u [_ Hj]].
  rewrite in_map_iff in Hj. destruct Hj as [a [<- _]]. exact Hm.
Qed.

(** The columns a decoded message copies. *)
Lemma decode_row_copies (thread_id : string) (row : Row.t) (m : Message.t) :
  decode_row thread_id row = inr (Some m) ->
  Message.event_id m = Row.event_id row /\
  Message.sender_id m = Row.sender_id row /\
  Message.is_sent_by_me m = bool_of_int (Row.is_sent_by_me row) /\
  Message.is_encrypted m = bool_of_int (Row.is_encrypted row) /\
  strftime (Row.timestamp row) = inr (Message.human_time m) /\
  Message.raw_message_data m = parse_message_json (Row.message_json row) /\
  truthy (Message.raw_message_data m) = true.
Proof.
  unfold Reader.decode_row.
  destruct (truthy (parse_message_json (Row.message_json row))) eqn:Hp.
  - destruct (Reader.extract_text _ _ _) as [e|text]; simpl; [discriminate|].
    destruct (Reader.meaningful text) as [e|[kept|]]; simpl; try discriminate.
    destruct (Reader.sender_info _ _ _) as [e|sender]; simpl; [discriminate|].
    destruct (strftime _) as [e|human]; simpl; [discriminate|].
    intros H. injection H as <-. simpl. repeat split; try reflexivity. exact Hp.
  - unfold Reader.extract_text. rewrite Hp. simpl. discriminate.
Qed.

(** Every message either reader returns is a stored message that is not
    deleted, with its room, event id, timestamp, type, sender, reply-to and
    flags as stored. *)
Theorem returned_message_is_stored
  (c : source_class) (db : Store.database) (thread_id : string) (limit : Z) (s : state)
  (m : Message.t) :
  In m (batch (get_recent_messages c (inr db) limit s)) \/
  In m (batch (get_thread_messages (inr db) thread_id limit s)) ->
  exists x,
    In x (Store.mx_room_messages db) /\
    Store.isDeleted x = 0 /\
    Message.room_id m = Store.roomID x /\
    Message.event_id m = Store.eventID x /\
    Message.timestamp m = Store.timestamp x /\
    Message.message_type m = Store.type x /\
    Message.sender_id m = Store.senderContactID x /\
    Message.reply_to_id m = Store.inReplyToID x /\
    Message.is_sent_by_me m = negb (Store.isSentByMe x =? 0) /\
    Message.is_encrypted m = negb (Store.isEncrypted x =? 0).
Proof.
  intros H.
  assert (Hrow : exists j tid, In j (Store.from_clause db) /\ Store.surfaced j = true /\
                               decode_row tid (Row.select j) = inr (Some m)).
  { destruct H as [H|H].
    - destruct (recent_batch_from _ _ _ _ _ H) as [row [Hin Hd]].
      destruct (recent_rows_sound _ _ _ _ Hin) as [j [Hj [-> [_ Hs]]]]. eauto.
    - destruct (thread_batch_from _ _ _ _ _ H) as [row [Hin Hd]].
      destruct (thread_rows_sound _ _ _ _ Hin) as [j [Hj [-> [_ Hs]]]]. eauto. }
  destruct Hrow as [j [tid [Hj [Hs Hd]]]].
  destruct (decode_row_fields _ _ _ Hd) as [Hts [Hty [_ [_ [Hre [Hroom _]]]]]].
  destruct (decode_row_copies _ _ _ Hd) as [Hev [Hsid [Hme [Henc _]]]].
  exists (Store.msg_of j). split; [now apply from_clause_message|].
  unfold Store.surfaced in Hs. apply andb_true_iff in Hs. destruct Hs as [_ Hdel].
  apply Z.eqb_eq in Hdel.
  destruct j as [[x u] a]. simpl in *. repeat split; assumption.
Qed.

(** Every message either reader returns carries a payload that is not empty:
    a row whose payload column is NULL, empty, not JSON, or an empty JSON
    value is never returned, whatever its text columns hold. *)
Theorem returned_message_has_payload
  (c : source_class) (db : Store.database) (thread_id : string) (limit : Z) (s : state)
  (m : Message.t) :
  In m (batch (get_recent_messages c (inr db) limit s)) \/
  In m (batch (get_thread_messages (inr db) thread_id limit s)) ->
  truthy (Message.raw_message_data m) = true /\
  exists x text,
    In x (Store.mx_room_messages db) /\ Store.message x = Some text /\ text <> "" /\
    json_loads text = Some (Message.raw_message_data m).
Proof.
  intros H.
  assert (Hrow : exists j tid, In j (Store.from_clause db) /\
                               decode_row tid (Row.select j) = inr (Some m)).
  { destruct H as [H|H].
    - destruct (recent_batch_from _ _ _ _ _ H) as [row [Hin Hd]].
      destruct (recent_rows_sound _ _ _ _ Hin) as [j [Hj [-> _]]]. eauto.
    - destruct (thread_batch_from _ _ _ _ _ H) as [row [Hin Hd]].
      destruct (thread_rows_sound _ _ _ _ Hin) as [j [Hj [-> _]]]. eauto. }
  destruct Hrow as [j [tid [Hj Hd]]].
  destruct (decode_row_copies _ _ _ Hd) as [_ [_ [_ [_ [_ [Hraw Htr]]]]]].
  split; [exact Htr|].
  exists (Store.msg_of j). apply from_clause_message in Hj.
  destruct j as [[x u] a]. simpl in *.
  rewrite Hraw in Htr. unfold Reader.parse_message_json in Hraw, Htr.
  destruct (Store.message x) as [text|] eqn:Hmsg; simpl in Hraw, Htr; [|discriminate].
  exists text. destruct (String.eqb_spec text ""); [discriminate|].
  destruct (json_loads text) as [v|]; [|discriminate].
  subst. repeat split; auto.
Qed.

Lemma appended_keeps_order (decode : Row.t -> E (option Message.t)) (R : Z -> Z -> Prop)
  (rows : list Row.t) :
  (forall row m, decode row = inr (Some m) -> Message.timestamp m = Row.timestamp row) ->
  StronglySorted (fun a b => R (Row.timestamp a) (Row.timestamp b)) rows ->
  StronglySorted (fun a b => R (Message.timestamp a) (Message.timestamp b)) (appended decode rows).
Proof.
  intros Hts. induction rows as [|row rest IH]; intros Hs; simpl; [constructor|].
  apply StronglySorted_inv in Hs. destruct Hs as [Hrest Hrow].
  destruct (decode row) as [e|[m|]] eqn:Hd; [constructor| |auto].
  constructor; [auto|].
  rewrite Forall_forall in *. intros m' Hm'.
  destruct (appended_from _ _ _ Hm') as [row' [Hin' Hd']].
  rewrite (Hts _ _ Hd), (Hts _ _ Hd'). auto.
Qed.

Lemma appended_complete (decode : Row.t -> E (option Message.t)) (rows : list Row.t)
  (row : Row.t) (m : Message.t) :
  failure decode rows = None -> In row rows -> decode row = inr (Some m) ->
  In m (appended decode rows).
Proof.
  induction rows as [|r rest IH]; simpl; intros Hf Hin Hd; [contradiction|].
  destruct Hin as [->|Hin].
  - rewrite Hd. now left.
  - destruct (decode r) as [e|[m'|]]; [discriminate | right | ]; auto.
Qed.

(** The messages of one [get_thread_messages] call stand oldest first. *)
Theorem thread_batch_oldest_first
  (conn : E Store.database) (thread_id : string) (limit : Z) (s : state) :
  StronglySorted (fun a b => Message.timestamp a <= Message.timestamp b)
    (batch (get_thread_messages conn thread_id limit s)).
Proof.
  rewrite get_thread_messages_run. destruct conn as [e|db]; cbv zeta; [constructor|].
  destruct (failure _ _); [constructor|]. unfold batch; simpl.
  apply (appended_keeps_order (decode_row thread_id) Z.le).
  - intros row m Hd. now destruct (decode_row_fields _ _ _ Hd).
  - apply thread_rows_oldest_first.
Qed.

(** A call that returns messages leaves the watermark at the timestamp of the
    first of them. *)
Theorem watermark_is_first_returned
  (c : source_class) (conn : E Store.database) (limit : Z) (s : state)
  (m : Message.t) (rest : list Message.t) :
  batch (get_recent_messages c conn limit s) = m :: rest ->
  last_timestamp (snd (get_recent_messages c conn limit s)) = Message.timestamp m.
Proof.
  rewrite get_recent_messages_run. destruct conn as [e|db]; cbv zeta; [discriminate|].
  set (rows := recent_rows db (last_timestamp s) limit).
  destruct (failure decode_recent rows); unfold batch; simpl; [discriminate|].
  intros Hb.
  assert (Hsorted : StronglySorted (fun a b => Message.timestamp b <= Message.timestamp a)
                      (appended decode_recent rows)).
  { apply (appended_keeps_order decode_recent (fun a b => b <= a)).
    - intros row m' Hd. now destruct (decode_row_fields _ _ _ Hd).
    - apply recent_rows_newest_first. }
  assert (Hnew : last_timestamp s < Message.timestamp m).
  { destruct (appended_from decode_recent rows m) as [row [Hin Hd]]; [rewrite Hb; now left|].
    destruct (decode_row_fields _ _ _ Hd) as [Hts _]. rewrite Hts.
    now apply recent_rows_above in Hin. }
  rewrite Hb in *. apply StronglySorted_inv in Hsorted. destruct Hsorted as [_ Hall].
  rewrite Forall_forall in Hall.
  unfold raise_to; simpl. fold (raise_to (map Message.timestamp rest)
                                         (Z.max (last_timestamp s) (Message.timestamp m))).
  rewrite Z.max_r by lia. apply raise_to_stays.
  intros t Ht. apply in_map_iff in Ht. destruct Ht as [m' [<- Hm']]. auto.
Qed.

(** A message that a poll returned is found by [get_thread_messages] on its
    room, when that call has no LIMIT and logs no error. *)
Theorem polled_message_is_in_thread_history
  (c : source_class) (db : Store.database) (limit limit' : Z) (s s' : state) (m : Message.t) :
  In m (batch (get_recent_messages c (inr db) limit s)) ->
  limit' < 0 ->
  out (snd (get_thread_messages (inr db) (Message.room_id m) limit' s')) = out s' ->
  In m (batch (get_thread_messages (inr db) (Message.room_id m) limit' s')).
Proof.
  intros Hm Hl. rewrite get_thread_messages_run. cbv zeta.
  destruct (recent_batch_from _ _ _ _ _ Hm) as [row [Hin Hd]].
  destruct (decode_row_fields _ _ _ Hd) as [_ [_ [_ [_ [_ [Hroom _]]]]]].
  destruct (recent_rows_sound _ _ _ _ Hin) as [j [Hj [-> [_ Hs]]]].
  destruct (failure (decode_row (Message.room_id m)) _) eqn:Hf; simpl.
  - intros H. apply out_extension_nil in H. discriminate.
  - intros _. unfold batch; simpl.
    apply (appended_complete _ _ (Row.select j) m Hf).
    + apply thread_rows_complete; auto.
      rewrite Hroom. now destruct j as [[x u] a].
    + rewrite Hroom. exact Hd.
Qed.

(** *** Failures and repeated polls *)

(** A call that fails on a row returns nothing, yet keeps the watermark it
    raised for the messages decoded before that row: those messages are not
    returned now, and no later call over any store returns a message stamped
    like them. *)
Theorem failed_poll_drops_decoded_messages
  (c : source_class) (db : Store.database) (limit : Z) (s : state) (e : exn) (m : Message.t) :
  failure decode_recent (recent_rows db (last_timestamp s) limit) = Some e ->
  In m (appended decode_recent (recent_rows db (last_timestamp s) limit)) ->
  fst (get_recent_messages c (inr db) limit s) = inr [] /\
  out (snd (get_recent_messages c (inr db) limit s))
    = (out s ++ [Log (Reader.error_line c e)])%list /\
  Message.timestamp m <= last_timestamp (snd (get_recent_messages c (inr db) limit s)) /\
  (forall c2 db2 limit2 s2 m2,
     last_timestamp (snd (get_recent_messages c (inr db) limit s)) <= last_timestamp s2 ->
     In m2 (batch (get_recent_messages c2 (inr db2) limit2 s2)) ->
     Message.timestamp m < Message.timestamp m2).
Proof.
  intros Hf Hm.
  assert (Hrun : get_recent_messages c (inr db) limit s
                 = (inr [], record_event (Log (Reader.error_line c e))
                              (set_last_timestamp
                                 (raise_to (map Message.timestamp
                                              (appended decode_recent
                                                 (recent_rows db (last_timestamp s) limit)))
                                    (last_timestamp s)) s))).
  { rewrite get_recent_messages_run. cbv zeta. now rewrite Hf. }
  rewrite Hrun. simpl snd. simpl last_timestamp.
  assert (Hle : Message.timestamp m
                <= raise_to (map Message.timestamp
                               (appended decode_recent (recent_rows db (last_timestamp s) limit)))
                     (last_timestamp s)).
  { apply raise_to_bound. now apply in_map. }
  split; [reflexivity|]. split; [reflexivity|]. split; [exact Hle|].
  intros c2 db2 limit2 s2 m2 Hs2 Hm2.
  destruct (recent_batch_from _ _ _ _ _ Hm2) as [row [Hin Hd]].
  destruct (decode_row_fields _ _ _ Hd) as [Hts _].
  apply recent_rows_above in Hin. lia.
Qed.

(** What a poll leaves behind: with the watermark it set, the query answers
    only rows that append nothing. *)
Lemma quiet_after_poll (c : source_class) (db : Store.database) (limit : Z) (s : state) :
  appended decode_recent
    (recent_rows db (last_timestamp (snd (get_recent_messages c (inr db) limit s))) limit) = [].
Proof.
  set (rows := recent_rows db (last_timestamp s) limit).
  set (w' := raise_to (map Message.timestamp (appended decode_recent rows)) (last_timestamp s)).
  assert (Hs1 : last_timestamp (snd (get_recent_messages c (inr db) limit s)) = w').
  { rewrite get_recent_messages_run. cbv zeta. fold rows. fold w'.
    destruct (failure decode_recent rows); reflexivity. }
  rewrite Hs1.
  destruct (recent_rows_later db (last_timestamp s) w' limit) as [k Hk]; [apply raise_to_ge|].
  fold rows in Hk. rewrite Hk. apply (appended_above_watermark rows k w').
  - intros m Hm. apply raise_to_bound. now apply in_map.
  - intros row Hrow. rewrite <- Hk in Hrow. now apply recent_rows_above in Hrow.
Qed.

Lemma quiet_poll (c : source_class) (db : Store.database) (limit : Z) (s : state) :
  appended decode_recent (recent_rows db (last_timestamp s) limit) = [] ->
  batch (get_recent_messages c (inr db) limit s) = [] /\
  last_timestamp (snd (get_recent_messages c (inr db) limit s)) = last_timestamp s.
Proof.
  intros Hq. rewrite get_recent_messages_run. cbv zeta. rewrite Hq.
  destruct (failure decode_recent _); split; reflexivity.
Qed.

(** After one poll, any number of further polls over the same store return
    nothing and leave the watermark where the first poll put it. *)
Theorem repeated_polls_return_nothing
  (c : source_class) (conn : E Store.database) (s : state) (n : nat) :
  fst (poll_cycles c (repeat conn n) (snd (get_recent_messages c conn 50 s))) = repeat [] n /\
  last_timestamp (snd (poll_cycles c (repeat conn n) (snd (get_recent_messages c conn 50 s))))
    = last_timestamp (snd (get_recent_messages c conn 50 s)).
Proof.
  assert (H : forall n t,
             match conn with
             | inl _ => True
             | inr db => appended decode_recent (recent_rows db (last_timestamp t) 50) = []
             end ->
             fst (poll_cycles c (repeat conn n) t) = repeat [] n /\
             last_timestamp (snd (poll_cycles c (repeat conn n) t)) = last_timestamp t).
  { clear n. induction n as [|n IH]; intros t Hq; [split; reflexivity|].
    cbn [repeat]. rewrite poll_cycles_cons. cbn [fst snd].
    assert (Hstep : batch (get_recent_messages c conn 50 t) = [] /\
                    last_timestamp (snd (get_recent_messages c conn 50 t)) = last_timestamp t).
    { destruct conn as [e|db]; [split; reflexivity | now apply quiet_poll]. }
    destruct Hstep as [Hb Hw].
    destruct (IH (snd (get_recent_messages c conn 50 t))) as [IH1 IH2].
    { destruct conn as [e|db]; [exact I | now rewrite Hw]. }
    rewrite Hb, IH1, IH2, Hw. split; reflexivity. }
  apply H. destruct conn as [e|db]; [exact I | apply quiet_after_poll].
Qed.

(** *** The monitoring loop *)

Lemma displayed_app (a b : list event) : displayed (a ++ b) = (displayed a ++ displayed b)%list.
Proof.
  induction a as [|e a IH]; simpl; [reflexivity|].
  destruct e; simpl; rewrite IH; reflexivity.
Qed.

Lemma sleeps_app (a b : list event) : sleeps (a ++ b) = (sleeps a + sleeps b)%nat.
Proof.
  induction a as [|e a IH]; simpl; [reflexivity|].
  destruct e; simpl; rewrite IH; reflexivity.
Qed.

(** A call of the reader always hands back a list; it writes the watermark
    and, when it fails, one line of log, and nothing else. *)
Lemma recent_call_effect (c : source_class) (conn : E Store.database) (limit : Z) (s : state) :
  get_recent_messages c conn limit s
    = (inr (batch (get_recent_messages c conn limit s)), snd (get_recent_messages c conn limit s)) /\
  running (snd (get_recent_messages c conn limit s)) = running s /\
  db_path (snd (get_recent_messages c conn limit s)) = db_path s /\
  displayed (out (snd (get_recent_messages c conn limit s))) = displayed (out s) /\
  sleeps (out (snd (get_recent_messages c conn limit s))) = sleeps (out s).
Proof.
  rewrite get_recent_messages_run. destruct conn as [e|db]; cbv zeta.
  - simpl. rewrite displayed_app, sleeps_app. simpl. rewrite app_nil_r, Nat.add_0_r. auto.
  - destruct (failure decode_recent _); simpl.
    + rewrite displayed_app, sleeps_app. simpl. rewrite app_nil_r, Nat.add_0_r. auto.
    + auto.
Qed.

(** What a call returns and the watermark it leaves depend on the object
    through the watermark only. *)
Lemma recent_call_reads_watermark (c : source_class) (conn : E Store.database) (limit : Z)
  (s t : state) :
  last_timestamp s = last_timestamp t ->
  batch (get_recent_messages c conn limit s) = batch (get_recent_messages c conn limit t) /\
  last_timestamp (snd (get_recent_messages c conn limit s))
    = last_timestamp (snd (get_recent_messages c conn limit t)).
Proof.
  intros H. rewrite !get_recent_messages_run. destruct conn as [e|db]; cbv zeta.
  - simpl. auto.
  - rewrite H. destruct (failure decode_recent _); simpl; auto.
Qed.

Lemma poll_cycles_reads_watermark (c : source_class) (conns : list (E Store.database)) :
  forall s t, last_timestamp s = last_timestamp t ->
  fst (poll_cycles c conns s) = fst (poll_cycles c conns t) /\
  last_timestamp (snd (poll_cycles c conns s)) = last_timestamp (snd (poll_cycles c conns t)).
Proof.
  induction conns as [|conn later IH]; intros s t H; [simpl; auto|].
  rewrite !poll_cycles_cons. cbn [fst snd].
  destruct (recent_call_reads_watermark c conn 50 s t H) as [Hb Hw].
  destruct (IH _ _ Hw) as [H1 H2]. rewrite Hb, H1, H2. auto.
Qed.

Lemma for_each_display (l : list Message.t) :
  forall s, exists s',
    Reader.for_each l (fun message => emit (Display message)) s = (inr tt, s') /\
    last_timestamp s' = last_timestamp s /\ running s' = running s /\
    out s' = (out s ++ map Display l)%list.
Proof.
  induction l as [|m r IH]; intros s; simpl.
  - exists s. rewrite app_nil_r. auto.
  - destruct (IH (record_event (Display m) s)) as [s' [Hrun [Hw [Hr Ho]]]].
    exists s'. rewrite bind_emit, Hrun. simpl in *.
    rewrite Ho, <- app_assoc. auto.
Qed.

Lemma displayed_map_display (l : list Message.t) : displayed (map Display l) = l.
Proof. induction l as [|m r IH]; simpl; [reflexivity | now rewrite IH]. Qed.

Lemma sleeps_map_display (l : list Message.t) : sleeps (map Display l) = 0%nat.
Proof. induction l as [|m r IH]; simpl; [reflexivity | exact IH]. Qed.

Lemma pause_slept (interval : pyval) {B} (k : unit -> M state B) (s : state) :
  time_sleep interval = inr tt ->
  bind (Reader.pause time_sleep Listener interval) k s = k tt (record_event Sleep s).
Proof. intros H. unfold Reader.pause, bind, lift. rewrite H. reflexivity. Qed.

Lemma pause_raised (interval : pyval) (e : exn) {B} (k : unit -> M state B) (s : state) :
  time_sleep interval = inl e ->
  bind (Reader.pause time_sleep Listener interval) k s = (inl e, s).
Proof. intros H. unfold Reader.pause, bind, lift. rewrite H. reflexivity. Qed.

(** While [time.sleep(interval)] returns, the listener's loop is the poll
    cycles with each batch displayed in the order returned and one sleep per
    cycle. *)
Lemma listener_loop_run (interval : pyval) (conns : list (E Store.database)) :
  time_sleep interval = inr tt ->
  forall s, exists s',
    monitoring_loop Listener interval conns s = (inr tt, s') /\
    running s' = running s /\
    last_timestamp s' = last_timestamp (snd (poll_cycles Listener conns s)) /\
    displayed (out s') = (displayed (out s) ++ List.concat (fst (poll_cycles Listener conns s)))%list /\
    sleeps (out s') = (sleeps (out s) + List.length conns)%nat.
Proof.
  intros Hsleep.
  induction conns as [|conn later IH]; intros s.
  - exists s. simpl. rewrite app_nil_r, Nat.add_0_r. auto.
  - destruct (recent_call_effect Listener conn 50 s) as [Hcall [Hrun1 [_ [Hd1 Hs1]]]].
    set (s1 := snd (get_recent_messages Listener conn 50 s)) in *.
    set (b1 := batch (get_recent_messages Listener conn 50 s)) in *.
    destruct (for_each_display b1 s1) as [s2 [Hfe [Hw2 [Hr2 Ho2]]]].
    destruct (IH (record_event Sleep s2)) as [s' [Hloop [Hr' [Hw' [Hd' Hs']]]]].
    exists s'.
    assert (Hcycles : fst (poll_cycles Listener later (record_event Sleep s2))
                        = fst (poll_cycles Listener later s1) /\
                      last_timestamp (snd (poll_cycles Listener later (record_event Sleep s2)))
                        = last_timestamp (snd (poll_cycles Listener later s1))).
    { apply poll_cycles_reads_watermark. simpl. exact Hw2. }
    destruct Hcycles as [Hc1 Hc2].
    rewrite poll_cycles_cons. cbn [fst snd List.concat]. fold s1 b1.
    split.
    + cbn [Reader.monitoring_loop].
      rewrite (bind_run _ _ _ _ _ Hcall), (bind_run _ _ _ _ _ Hfe).
      rewrite (pause_slept interval _ _ Hsleep). exact Hloop.
    + rewrite Hr', Hw', Hd', Hs', Hc1, Hc2. simpl.
      rewrite Hr2, Hrun1, Ho2, displayed_app, sleeps_app, displayed_app, sleeps_app.
      rewrite displayed_map_display, sleeps_map_display, Hd1, Hs1. simpl.
      rewrite app_nil_r, <- !app_assoc. repeat split; try reflexivity. lia.
Qed.

(** When [time.sleep(interval)] raises, the loop is left from its first
    cycle: the batch of that cycle is displayed, then the exception unwinds. *)
Lemma listener_loop_sleep_raises (interval : pyval) (e : exn) (conn : E Store.database)
  (later : list (E Store.database)) (s : state) :
  time_sleep interval = inl e ->
  exists s',
    monitoring_loop Listener interval (conn :: later) s = (inl e, s') /\
    running s' = running s /\
    last_timestamp s' = last_timestamp (snd (get_recent_messages Listener conn 50 s)) /\
    displayed (out s') = (displayed (out s) ++ batch (get_recent_messages Listener conn 50 s))%list /\
    sleeps (out s') = sleeps (out s).
Proof.
  intros Hsleep.
  destruct (recent_call_effect Listener conn 50 s) as [Hcall [Hrun1 [_ [Hd1 Hs1]]]].
  set (s1 := snd (get_recent_messages Listener conn 50 s)) in *.
  set (b1 := batch (get_recent_messages Listener conn 50 s)) in *.
  destruct (for_each_display b1 s1) as [s2 [Hfe [Hw2 [Hr2 Ho2]]]].
  exists s2. split.
  - cbn [Reader.monitoring_loop].
    rewrite (bind_run _ _ _ _ _ Hcall), (bind_run _ _ _ _ _ Hfe).
    apply (pause_raised interval e _ _ Hsleep).
  - rewrite Hr2, Hrun1, Hw2, Ho2, displayed_app, sleeps_app.
    rewrite displayed_map_display, sleeps_map_display, Hd1, Hs1, Nat.add_0_r.
    repeat split; reflexivity.
Qed.

(** Whatever [time.sleep] does, what the listener's loop displays is what some
    poll cycles returned, batch after batch. *)
Lemma listener_loop_displays_polls (interval : pyval) (conns : list (E Store.database)) (s : state) :
  exists polled : list (E Store.database),
    displayed (out (snd (monitoring_loop Listener interval conns s)))
      = (displayed (out s) ++ List.concat (fst (poll_cycles Listener polled s)))%list.
Proof.
  destruct (time_sleep interval) as [e|[]] eqn:Hsleep.
  - destruct conns as [|conn later].
    + exists []. simpl. now rewrite app_nil_r.
    + destruct (listener_loop_sleep_raises interval e conn later s Hsleep)
        as [s' [Hloop [_ [_ [Hd _]]]]].
      exists [conn]. rewrite Hloop, poll_cycles_cons. cbn [fst snd List.concat poll_cycles].
      simpl. rewrite app_nil_r. exact Hd.
  - destruct (listener_loop_run interval conns Hsleep s) as [s' [Hloop [_ [_ [Hd _]]]]].
    exists conns. rewrite Hloop. exact Hd.
Qed.

(** The banner and the guard around the loop. *)
Lemma start_monitoring_run (interval : pyval) (conns : list (E Store.database)) (s : state)
  (since : string) :
  strftime (last_timestamp s) = inr since ->
  let s0 := set_running true
              (record_event (Log ("Only showing messages NEWER than: " ++ since))
                 (record_event (Log "Starting Beeper database monitoring...") s)) in
  start_monitoring interval conns s
    = match monitoring_loop Listener interval conns s0 with
      | (inr _, s') => (inr tt, set_running false s')
      | (inl e, s') =>
          (inr tt, set_running false
                     (record_event (Log ("Error during monitoring: " ++ exn_str e)) s'))
      end.
Proof.
  intros Hsince s0.
  unfold Reader.start_monitoring, Reader.guarded_loop.
  rewrite bind_emit, bind_get. cbn [last_timestamp record_event].
  rewrite Hsince, bind_lift_ok, bind_emit.
  unfold bind at 1, modify.
  unfold try_finally, try_except. fold s0.
  destruct (monitoring_loop Listener interval conns s0) as [[e|[]] s']; reflexivity.
Qed.

(** [start_monitoring(interval)], once its banner is printed: it does not
    raise and ends with [running] cleared.  When [time.sleep(interval)]
    returns, it has displayed exactly the messages of the poll cycles, batch
    after batch, has slept once per cycle, and leaves the watermark the cycles
    leave.  When [time.sleep(interval)] raises (a negative interval, or one
    that is no number), the first cycle is the only one: its batch is
    displayed, no pause is taken, and the last line printed is
    [Error during monitoring:] with the message of the exception. *)
Theorem start_monitoring_displays_the_batches
  (interval : pyval) (conns : list (E Store.database)) (s : state) (since : string) :
  strftime (last_timestamp s) = inr since ->
  fst (start_monitoring interval conns s) = inr tt /\
  running (snd (start_monitoring interval conns s)) = false /\
  (time_sleep interval = inr tt ->
   last_timestamp (snd (start_monitoring interval conns s))
     = last_timestamp (snd (poll_cycles Listener conns s)) /\
   displayed (out (snd (start_monitoring interval conns s)))
     = (displayed (out s) ++ List.concat (fst (poll_cycles Listener conns s)))%list /\
   sleeps (out (snd (start_monitoring interval conns s)))
     = (sleeps (out s) + List.length conns)%nat) /\
  (forall e conn later,
     time_sleep interval = inl e -> conns = conn :: later ->
     last_timestamp (snd (start_monitoring interval conns s))
       = last_timestamp (snd (get_recent_messages Listener conn 50 s)) /\
     displayed (out (snd (start_monitoring interval conns s)))
       = (displayed (out s) ++ batch (get_recent_messages Listener conn 50 s))%list /\
     sleeps (out (snd (start_monitoring interval conns s))) = sleeps (out s) /\
     exists before,
       out (snd (start_monitoring interval conns s))
         = (before ++ [Log ("Error during monitoring: " ++ exn_str e)])%list).
Proof.
  intros Hsince.
  rewrite (start_monitoring_run interval conns s since Hsince). cbv zeta.
  set (s0 := set_running true
               (record_event (Log ("Only showing messages NEWER than: " ++ since))
                  (record_event (Log "Starting Beeper database monitoring...") s))).
  assert (Hd0 : displayed (out s0) = displayed (out s) /\ sleeps (out s0) = sleeps (out s)).
  { subst s0. cbn [out set_running record_event].
    rewrite !displayed_app, !sleeps_app. simpl. rewrite !app_nil_r, !Nat.add_0_r. auto. }
  destruct Hd0 as [Hd0 Hs0].
  split; [|split; [|split]].
  - destruct (monitoring_loop Listener interval conns s0) as [[e|[]] s']; reflexivity.
  - destruct (monitoring_loop Listener interval conns s0) as [[e|[]] s']; reflexivity.
  - intros Hsleep.
    destruct (listener_loop_run interval conns Hsleep s0) as [s' [Hloop [Hr [Hw [Hd Hs]]]]].
    rewrite Hloop. cbn [fst snd set_running running last_timestamp out].
    destruct (poll_cycles_reads_watermark Listener conns s0 s) as [Hc1 Hc2]; [reflexivity|].
    rewrite Hw, Hd, Hs, Hc1, Hc2, Hd0, Hs0. repeat split; reflexivity.
  - intros e conn later Hsleep ->.
    destruct (listener_loop_sleep_raises interval e conn later s0 Hsleep)
      as [s' [Hloop [Hr [Hw [Hd Hs]]]]].
    rewrite Hloop. cbn [fst snd set_running running last_timestamp out record_event].
    destruct (recent_call_reads_watermark Listener conn 50 s0 s) as [Hb1 Hb2]; [reflexivity|].
    rewrite displayed_app, sleeps_app, Hw, Hd, Hs, Hb1, Hb2, Hd0, Hs0. simpl.
    rewrite app_nil_r, Nat.add_0_r.
    repeat split; try reflexivity.
    exists (out s'). reflexivity.
Qed.

(** *** Across poll cycles *)

Lemma recent_batch_bounds (c : source_class) (conn : E Store.database) (limit : Z) (s : state)
  (m : Message.t) :
  In m (batch (get_recent_messages c conn limit s)) ->
  last_timestamp s < Message.timestamp m <= last_timestamp (snd (get_recent_messages c conn limit s)).
Proof.
  destruct conn as [e|db]; [contradiction|].
  intros H. split.
  - destruct (recent_batch_from _ _ _ _ _ H) as [row [Hin Hd]].
    destruct (decode_row_fields _ _ _ Hd) as [Hts _]. rewrite Hts.
    now apply recent_rows_above in Hin.
  - revert H. rewrite get_recent_messages_run. cbv zeta.
    destruct (failure decode_recent _); unfold batch; simpl; [contradiction|].
    intros H. apply raise_to_bound. now apply in_map.
Qed.

Lemma poll_cycles_newer (c : source_class) (conns : list (E Store.database)) :
  forall s m, In m (List.concat (fst (poll_cycles c conns s))) -> last_timestamp s < Message.timestamp m.
Proof.
  induction conns as [|conn later IH]; intros s m H; [contradiction|].
  rewrite poll_cycles_cons in H. cbn [fst List.concat] in H. apply in_app_or in H.
  destruct H as [H|H].
  - now apply recent_batch_bounds in H.
  - apply IH in H.
    pose proof (recent_watermark_step c conn 50 s) as Hstep. cbv zeta in Hstep.
    destruct Hstep as [Hmono _]. lia.
Qed.

(** Over any run of poll cycles, whatever the store becomes from one cycle to
    the next: every message returned is newer than the watermark the run
    started from, and a message returned by a later cycle is strictly newer
    than every message returned by the first one, so no message is returned
    by two cycles. *)
Theorem poll_cycles_deliver_newer_messages
  (c : source_class) (conn : E Store.database) (later : list (E Store.database)) (s : state)
  (m1 m2 : Message.t) :
  In m1 (batch (get_recent_messages c conn 50 s)) ->
  In m2 (List.concat (fst (poll_cycles c later (snd (get_recent_messages c conn 50 s))))) ->
  last_timestamp s < Message.timestamp m1 /\ Message.timestamp m1 < Message.timestamp m2.
Proof.
  intros H1 H2. apply recent_batch_bounds in H1. apply poll_cycles_newer in H2. lia.
Qed.

(** *** The joins *)

Lemma filter_key_unique {A} (key : A -> string) (k : string) (l : list A) :
  NoDup (map key l) -> (List.length (filter (fun x => (k =? key x)%string) l) <= 1)%nat.
Proof.
  induction l as [|x r IH]; simpl; intros Hn; [lia|].
  apply NoDup_cons_iff in Hn. destruct Hn as [Hx Hr].
  destruct (String.eqb_spec k (key x)) as [->|Hne]; simpl; [|auto].
  assert (Hnone : filter (fun y => (key x =? key y)%string) r = []).
  { clear IH Hr. induction r as [|y r IHr]; simpl; [reflexivity|].
    destruct (String.eqb_spec (key x) (key y)) as [Heq|_].
    - exfalso. apply Hx. simpl. left. now symmetry.
    - apply IHr. intros Hin. apply Hx. now right. }
  rewrite Hnone. simpl. lia.
Qed.

Lemma map_flat_map_single {A B} (f : A -> list B) (g : B -> A) (l : list A) :
  (forall x, map g (f x) = [x]) -> map g (flat_map f l) = l.
Proof.
  intros H. induction l as [|x r IH]; simpl; [reflexivity|].
  now rewrite map_app, H, IH.
Qed.

(** The LEFT JOINs drop no stored message, and when user ids and account ids
    are unique in their tables they repeat none: the join has one line per
    stored message, in the order stored. *)
Theorem joins_keep_each_message_once (db : Store.database) :
  (forall x, In x (Store.mx_room_messages db) <->
             exists j, In j (Store.from_clause db) /\ Store.msg_of j = x) /\
  (NoDup (map Store.userID (Store.users db)) ->
   NoDup (map Store.account_accountID (Store.accounts db)) ->
   map Store.msg_of (Store.from_clause db) = Store.mx_room_messages db).
Proof.
  assert (Hu : forall m, Store.join_users db m <> []).
  { intros m. unfold Store.join_users. destruct (Store.senderContactID m); [|discriminate].
    destruct (filter _ _); discriminate. }
  assert (Ha : forall u, Store.join_accounts db u <> []).
  { intros u. unfold Store.join_accounts. destruct u as [u|]; [|discriminate].
    destruct (Store.accountID u); [|discriminate]. destruct (filter _ _); discriminate. }
  split.
  - intros x. split.
    + intros Hx. destruct (Store.join_users db x) as [|u us] eqn:Eu; [now destruct (Hu x)|].
      destruct (Store.join_accounts db u) as [|a l] eqn:Ea; [now destruct (Ha u)|].
      exists (x, u, a). split; [|reflexivity].
      unfold Store.from_clause. apply in_flat_map. exists x. split; [exact Hx|].
      apply in_flat_map. exists u. split; [rewrite Eu; now left|].
      apply in_map. rewrite Ea. now left.
    + intros [j [Hj <-]]. now apply from_clause_message.
  - intros Hnu Hna. unfold Store.from_clause. apply map_flat_map_single. intros m.
    assert (Hone : exists u, Store.join_users db m = [u]).
    { unfold Store.join_users. destruct (Store.senderContactID m) as [sid|]; [|eauto].
      pose proof (filter_key_unique Store.userID sid (Store.users db) Hnu) as Hlen.
      destruct (filter _ (Store.users db)) as [|u [|u' l]]; simpl in *; eauto; lia. }
    destruct Hone as [u ->]. simpl. rewrite app_nil_r.
    assert (Hacc : exists a, Store.join_accounts db u = [a]).
    { unfold Store.join_accounts. destruct u as [u|]; [|eauto].
      destruct (Store.accountID u) as [aid|]; [|eauto].
      pose proof (filter_key_unique Store.account_accountID aid (Store.accounts db) Hna) as Hlen.
      destruct (filter _ (Store.accounts db)) as [|a [|a' l]]; simpl in *; eauto; lia. }
    destruct Hacc as [a ->]. reflexivity.
Qed.

(** A listener built at time [now] and left to monitor displays only messages
    stamped after [now], whatever the stores hold cycle after cycle (the
    comment of line 17: only show new messages). *)
Theorem fresh_listener_replays_no_history
  (now : Z) (home_default : string) (path : option string) (interval : pyval)
  (conns : list (E Store.database)) (since : string) (m : Message.t) :
  strftime now = inr since ->
  In m (displayed (out (snd (start_monitoring interval conns (init now home_default path))))) ->
  now < Message.timestamp m.
Proof.
  intros Hsince Hm.
  set (s := init now home_default path) in *.
  rewrite (start_monitoring_run interval conns s since Hsince) in Hm. cbv zeta in Hm.
  set (s0 := set_running true
               (record_event (Log ("Only showing messages NEWER than: " ++ since))
                  (record_event (Log "Starting Beeper database monitoring...") s))) in *.
  destruct (listener_loop_displays_polls interval conns s0) as [polled Hd].
  assert (Hin : In m (displayed (out (snd (monitoring_loop Listener interval conns s0))))).
  { destruct (monitoring_loop Listener interval conns s0) as [[e|[]] s'];
      cbn [fst snd set_running out record_event] in Hm |- *; [|exact Hm].
    rewrite displayed_app in Hm. simpl in Hm. rewrite app_nil_r in Hm. exact Hm. }
  rewrite Hd in Hin.
  change (displayed (out s0)) with (@nil Message.t) in Hin. simpl app in Hin.
  apply poll_cycles_newer in Hin. exact Hin.
Qed.

(** *** End to end *)

Lemma filter_none {A} (f : A -> bool) (l : list A) :
  (forall a, In a l -> f a = false) -> filter f l = [].
Proof.
  induction l as [|a r IH]; intros H; [reflexivity|].
  simpl. rewrite (H a (or_introl eq_refl)). apply IH. intros b Hb. apply H. now right.
Qed.

(** A store whose only message comes from a sender the users table does not
    know: the join has one line, with NULL user and account columns. *)
Lemma from_clause_single (x : Store.mx_room_message) (users : list Store.user_record)
  (accounts : list Store.account_record) (sid : string) :
  Store.senderContactID x = Some sid ->
  (forall u, In u users -> Store.userID u <> sid) ->
  Store.from_clause {| Store.mx_room_messages := [x]; Store.users := users;
                       Store.accounts := accounts |}
    = [(x, None, None)].
Proof.
  intros Hsid Hnone. unfold Store.from_clause, Store.join_users.
  cbn [Store.mx_room_messages Store.users flat_map]. rewrite Hsid.
  rewrite filter_none; [reflexivity|].
  intros u Hu. apply String.eqb_neq. intros Heq. exact (Hnone u Hu (eq_sym Heq)).
Qed.

(** The end-to-end case of section 8, for any such row.  The store holds one
    message: a TEXT row that is not deleted, stamped after the watermark,
    whose payload decodes to a mapping with a non-blank [body] only, with no
    pre-extracted text, from a sender whose id contains whatsapp and who has
    no record in the users table.  One call of the reader (with a limit
    other than 0) returns exactly one message, with that body as text,
    network whatsapp and thread name [WhatsApp Chat], and raises the
    watermark to the row's timestamp; a second call returns nothing and
    leaves the object as it is. *)
Theorem end_to_end_whatsapp_hello
  (c : source_class) (x : Store.mx_room_message) (users : list Store.user_record)
  (accounts : list Store.account_record) (sid payload body human : string)
  (limit : Z) (s : state) :
  Store.type x = "TEXT" ->
  Store.isDeleted x = 0 ->
  last_timestamp s < Store.timestamp x ->
  Store.senderContactID x = Some sid ->
  PyStr.contains "whatsapp" (PyStr.lower sid) = true ->
  (forall u, In u users -> Store.userID u <> sid) ->
  Store.message x = Some payload ->
  payload <> "" ->
  json_loads payload = Some (PDict [("body", PStr body)]) ->
  PyStr.strip body <> "" ->
  Store.text_content x = None ->
  Store.text_formattedContent x = None ->
  strftime (Store.timestamp x) = inr human ->
  limit <> 0 ->
  exists m,
    get_recent_messages c
      (inr {| Store.mx_room_messages := [x]; Store.users := users; Store.accounts := accounts |})
      limit s
      = (inr [m], set_last_timestamp (Store.timestamp x) s) /\
    Message.text m = body /\
    Message.network m = "whatsapp" /\
    Message.thread_name m = "WhatsApp Chat" /\
    Message.sender_id m = Some sid /\
    Message.sender_name m = PStr sid /\
    Message.room_id m = Store.roomID x /\
    Message.thread_id m = Store.roomID x /\
    Message.event_id m = Store.eventID x /\
    Message.timestamp m = Store.timestamp x /\
    Message.message_type m = "TEXT" /\
    Message.human_time m = human /\
    get_recent_messages c
      (inr {| Store.mx_room_messages := [x]; Store.users := users; Store.accounts := accounts |})
      limit (set_last_timestamp (Store.timestamp x) s)
      = (inr [], set_last_timestamp (Store.timestamp x) s).
Proof.
  intros Htype Hdel Hnew Hsid Hwa Hnone Hmsg Hpay Hjson Hbody Htc Hfc Htime Hlimit.
  set (db := {| Store.mx_room_messages := [x]; Store.users := users; Store.accounts := accounts |}).
  assert (Hbne : body <> "").
  { intros ->. apply Hbody. apply strip_empty. }
  assert (Hsne : (sid =? "")%string = false).
  { apply String.eqb_neq. intros ->. discriminate Hwa. }
  assert (Hsurf : Store.surfaced (x, None, None) = true).
  { unfold Store.surfaced, Store.msg_of. cbn [fst]. rewrite Htype, Hdel. reflexivity. }
  assert (Hlim : forall j : Store.joined, Store.limit_clause limit [j] = [j]).
  { intros j. unfold Store.limit_clause. destruct (limit <? 0) eqn:Hneg; [reflexivity|].
    apply Z.ltb_ge in Hneg.
    destruct (Z.to_nat limit) as [|n] eqn:Hn; [lia | simpl; now rewrite firstn_nil]. }
  assert (Hrows : recent_rows db (last_timestamp s) limit = [Row.select (x, None, None)]).
  { unfold recent_rows, db. rewrite (from_clause_single x users accounts sid Hsid Hnone).
    cbn [filter]. rewrite Hsurf. unfold Store.msg_of at 1. cbn [fst].
    apply Z.ltb_lt in Hnew. rewrite Hnew. cbn [andb Store.order_by Store.insert_by].
    rewrite Hlim. reflexivity. }
  assert (Hrows' : recent_rows db (Store.timestamp x) limit = []).
  { unfold recent_rows, db. rewrite (from_clause_single x users accounts sid Hsid Hnone).
    cbn [filter]. unfold Store.msg_of at 1. cbn [fst]. rewrite Z.ltb_irrefl.
    cbn [andb Store.order_by]. unfold Store.limit_clause.
    destruct (limit <? 0); [reflexivity | now rewrite firstn_nil]. }
  set (m := {| Message.room_id := Store.roomID x;
               Message.thread_id := Store.roomID x;
               Message.thread_name := "WhatsApp Chat";
               Message.sender_id := Some sid;
               Message.sender_name := PStr sid;
               Message.network := "whatsapp";
               Message.text := body;
               Message.timestamp := Store.timestamp x;
               Message.event_id := Store.eventID x;
               Message.message_type := "TEXT";
               Message.is_sent_by_me := bool_of_int (Store.isSentByMe x);
               Message.is_encrypted := bool_of_int (Store.isEncrypted x);
               Message.is_reply := bool_of_text (Store.inReplyToID x);
               Message.reply_to_id := Store.inReplyToID x;
               Message.human_time := human;
               Message.raw_message_data := PDict [("body", PStr body)];
               Message.raw_sender_data := PDict [] |}).
  assert (Hdec : decode_recent (Row.select (x, None, None)) = inr (Some m)).
  { unfold Reader.decode_recent, Reader.decode_row, Reader.parse_message_json.
    cbn [Row.select Row.message_json Row.text_content Row.formatted_content Row.sender_id
         Row.sender_user_json Row.network_type Row.room_id Row.timestamp Row.event_id
         Row.msg_type Row.is_sent_by_me Row.is_encrypted Row.in_reply_to].
    rewrite Hmsg, Htc, Hfc, Hsid, Htype, Htime.
    unfold if_text. apply String.eqb_neq in Hpay. rewrite Hpay, Hjson.
    assert (Ht : Reader.extract_text None None (PDict [("body", PStr body)]) = inr (PStr body)).
    { unfold Reader.extract_text, py_or, py_get, Ebind, Eret. cbn.
      apply String.eqb_neq in Hbne. rewrite Hbne. reflexivity. }
    rewrite Ht. cbn [Ebind].
    assert (Hm : Reader.meaningful (PStr body) = inr (Some body)).
    { unfold Reader.meaningful. cbn [truthy]. apply String.eqb_neq in Hbne. rewrite Hbne.
      cbn [negb]. apply String.eqb_neq in Hbody. rewrite Hbody. reflexivity. }
    rewrite Hm. cbn [Ebind].
    assert (Hc : classify_network (Some sid) None = "whatsapp").
    { unfold classify_network. rewrite Hsne, Hwa. reflexivity. }
    unfold Reader.sender_info. cbn [if_text Ebind Eret fst snd of_column]. rewrite Hc.
    reflexivity. }
  exists m.
  split.
  { rewrite get_recent_messages_run. cbv zeta. rewrite Hrows.
    cbn [appended failure]. rewrite Hdec. cbn [map Message.timestamp m].
    unfold raise_to. cbn [fold_left]. rewrite Z.max_r by lia. reflexivity. }
  repeat (split; [reflexivity|]).
  rewrite get_recent_messages_run. cbv zeta.
  cbn [last_timestamp set_last_timestamp]. rewrite Hrows'.
  cbn [appended failure map]. unfold raise_to. cbn [fold_left].
  destruct s; reflexivity.
Qed.

End Properties.

(** *** Room information *)

Section RoomProperties.

Variable json_loads : string -> option pyval.
Variable json_error : string -> string.

Abbreviation get_room_info := (Rooms.get_room_info json_loads json_error).

Lemma fetchone_sound (threads : list Rooms.thread_record) (room : string) (row : Rooms.thread_record) :
  Rooms.fetchone threads room = Some row -> In row threads /\ Rooms.threadID row = room.
Proof.
  unfold Rooms.fetchone.
  destruct (filter _ threads) as [|t l] eqn:Hf; [discriminate|].
  intros H. injection H as <-.
  assert (Hin : In t (filter (fun t => (Rooms.threadID t =? room)%string) threads))
    by (rewrite Hf; now left).
  apply filter_In in Hin. destruct Hin as [Hin Heq]. split; [exact Hin | now apply String.eqb_eq].
Qed.

Lemma fetchone_none (threads : list Rooms.thread_record) (room : string) :
  Rooms.fetchone threads room = None <-> (forall t, In t threads -> Rooms.threadID t <> room).
Proof.
  unfold Rooms.fetchone. split.
  - destruct (filter _ threads) as [|t l] eqn:Hf; [|discriminate].
    intros _ t Hin Heq.
    assert (Hin' : In t (filter (fun t => (Rooms.threadID t =? room)%string) threads)).
    { apply filter_In. split; [exact Hin | now apply String.eqb_eq]. }
    rewrite Hf in Hin'. contradiction.
  - intros H. destruct (filter _ threads) as [|t l] eqn:Hf; [reflexivity|].
    assert (Hin : In t (filter (fun t => (Rooms.threadID t =? room)%string) threads))
      by (rewrite Hf; now left).
    apply filter_In in Hin. destruct Hin as [Hin Heq]. apply String.eqb_eq in Heq.
    now destruct (H t Hin).
Qed.

(** [get_room_info] in one equation. *)
Lemma get_room_info_run (conn : E (list Rooms.thread_record)) (room : string) (s : state) :
  get_room_info conn room s =
  match conn with
  | inl e => (inr None, record_event (Log ("Error getting room info: " ++ exn_str e)) s)
  | inr threads =>
      match Rooms.fetchone threads room with
      | None => (inr None, s)
      | Some row =>
          match if_text (Rooms.thread row) with
          | None => (inr (Some {| Rooms.room_id := room; Rooms.thread_data := PDict [];
                                  Rooms.last_activity := Rooms.timestamp row |}), s)
          | Some text =>
              match json_loads text with
              | Some v => (inr (Some {| Rooms.room_id := room; Rooms.thread_data := v;
                                        Rooms.last_activity := Rooms.timestamp row |}), s)
              | None => (inr None,
                         record_event (Log ("Error getting room info: " ++ json_error text)) s)
              end
          end
      end
  end.
Proof.
  unfold Rooms.get_room_info, try_except. destruct conn as [e|threads]; [reflexivity|].
  rewrite bind_lift_ok. destruct (Rooms.fetchone threads room) as [row|]; [|reflexivity].
  unfold Rooms.load_thread. destruct (if_text (Rooms.thread row)) as [text|]; [|reflexivity].
  destruct (json_loads text); reflexivity.
Qed.

(** When [get_room_info] returns a room, the object is untouched, the room id
    is the one asked for, and the data are those of a stored thread of that
    id: its last activity, and its blob decoded (an empty mapping for a NULL
    or empty blob). *)
Theorem room_info_is_of_a_stored_thread
  (conn : E (list Rooms.thread_record)) (room : string) (s : state) (info : Rooms.room_info) :
  fst (get_room_info conn room s) = inr (Some info) ->
  snd (get_room_info conn room s) = s /\
  Rooms.room_id info = room /\
  exists threads row,
    conn = inr threads /\ In row threads /\ Rooms.threadID row = room /\
    Rooms.last_activity info = Rooms.timestamp row /\
    match if_text (Rooms.thread row) with
    | Some text => json_loads text = Some (Rooms.thread_data info)
    | None => Rooms.thread_data info = PDict []
    end.
Proof.
  rewrite get_room_info_run. destruct conn as [e|threads]; [discriminate|].
  destruct (Rooms.fetchone threads room) as [row|] eqn:Hf; [|discriminate].
  destruct (fetchone_sound _ _ _ Hf) as [Hin Hid].
  destruct (if_text (Rooms.thread row)) as [text|] eqn:Hb.
  - destruct (json_loads text) as [v|] eqn:Hv; [|discriminate].
    simpl. intros H. injection H as <-. simpl. repeat split.
    exists threads, row. rewrite Hb. auto 8.
  - simpl. intros H. injection H as <-. simpl. repeat split.
    exists threads, row. rewrite Hb. auto 8.
Qed.

(** [get_room_info] never raises and never touches the watermark or the
    running flag.  It returns [None] silently when the store holds no thread
    of that id; a failure to reach the store, and a thread blob that is not
    JSON (which here has no handler of its own), give [None] with one error
    line. *)
Theorem room_info_failures (conn : E (list Rooms.thread_record)) (room : string) (s : state) :
  exists r s',
    get_room_info conn room s = (inr r, s') /\
    last_timestamp s' = last_timestamp s /\ running s' = running s /\
    (forall threads, conn = inr threads ->
       (forall t, In t threads -> Rooms.threadID t <> room) -> r = None /\ s' = s) /\
    (forall e, conn = inl e ->
       r = None /\ out s' = (out s ++ [Log ("Error getting room info: " ++ exn_str e)])%list) /\
    (forall threads row text,
       conn = inr threads -> Rooms.fetchone threads room = Some row ->
       if_text (Rooms.thread row) = Some text -> json_loads text = None ->
       r = None /\ out s' = (out s ++ [Log ("Error getting room info: " ++ json_error text)])%list).
Proof.
  rewrite get_room_info_run. destruct conn as [e|threads].
  - eexists; eexists. split; [reflexivity|]. split; [reflexivity|]. split; [reflexivity|].
    split; [|split].
    + intros threads' Hc. discriminate Hc.
    + intros e' Hc. injection Hc as <-. split; reflexivity.
    + intros threads' row' text' Hc. discriminate Hc.
  - destruct (Rooms.fetchone threads room) as [row|] eqn:Hf.
    + destruct (if_text (Rooms.thread row)) as [text|] eqn:Hb;
        [destruct (json_loads text) as [v|] eqn:Hv|];
        (eexists; eexists; split; [reflexivity|]; split; [reflexivity|]; split; [reflexivity|];
         split; [|split];
         [ intros threads' Hc Hnone; injection Hc as <-;
           apply fetchone_none in Hnone; rewrite Hnone in Hf; discriminate Hf
         | intros e' Hc; discriminate Hc
         | intros threads' row' text' Hc Hf' Hb' Hv'; injection Hc as <-;
           rewrite Hf in Hf'; injection Hf' as <-; rewrite Hb in Hb';
           try discriminate Hb'; injection Hb' as <-; rewrite Hv in Hv';
           try discriminate Hv'; split; reflexivity ]).
    + eexists; eexists. split; [reflexivity|]. split; [reflexivity|]. split; [reflexivity|].
      split; [|split].
      * intros threads' Hc Hnone. split; reflexivity.
      * intros e' Hc. discriminate Hc.
      * intros threads' row' text' Hc Hf'. injection Hc as <-. rewrite Hf in Hf'. discriminate Hf'.
Qed.

End RoomProperties.

(** *** Configuration and the connection test *)

Section ConfigProperties.

Variable upper : string -> string.
Variable getenv : string -> option string.
Variable path_exists : pyval -> E bool.
Variable count_messages : pyval -> E Z.

Abbreviation _cfg := (Config._cfg upper getenv).
Abbreviation test_connection := (Config.test_connection upper getenv path_exists count_messages).

(** [_cfg] hands back [None] only when the default is [None]: a session value
    of [None] is passed over, and the environment gives a text. *)
Theorem cfg_none_only_by_default
  (session : option (list (string * pyval))) (key : string) (default : pyval) :
  Config.is_none default = false -> Config.is_none (_cfg session key default) = false.
Proof.
  intros Hd. unfold Config._cfg.
  destruct (Config.is_none (Config.session_value session key)) eqn:Hs; simpl; [|exact Hs].
  destruct (getenv _); [reflexivity | exact Hd].
Qed.

(** A session value that is not [None] wins over the environment and the
    default even when it is falsy (an empty text, zero); an empty session is
    passed over. *)
Theorem cfg_session_wins
  (d : list (string * pyval)) (key : string) (v default : pyval) :
  assoc key d = Some v -> Config.is_none v = false ->
  _cfg (Some d) key default = v /\
  _cfg (Some []) key default = _cfg None key default.
Proof.
  intros Ha Hv. split; [|reflexivity].
  unfold Config._cfg, Config.session_value.
  destruct d as [|kv d']; [discriminate|].
  change (truthy (PDict (kv :: d'))) with true. cbv iota. rewrite Ha, Hv. reflexivity.
Qed.

(** [test_connection] never raises, writes exactly one line of log and
    nothing else, and answers [True] exactly when the configured path exists
    and the count query on it succeeds. *)
Theorem test_connection_verdict
  (session : option (list (string * pyval))) (home_default : string) (s : state) :
  exists b line,
    test_connection session home_default s = (inr b, record_event (Log line) s) /\
    (b = true <->
     path_exists (_cfg session "database_path" (PStr home_default)) = inr true /\
     exists n, count_messages (_cfg session "database_path" (PStr home_default)) = inr n).
Proof.
  unfold Config.test_connection, try_except. cbv zeta.
  set (p := _cfg session "database_path" (PStr home_default)).
  destruct (path_exists p) as [e|[|]] eqn:Hp.
  - rewrite bind_lift_error. eexists; eexists. split; [reflexivity|].
    split; [discriminate | intros [H _]; discriminate].
  - rewrite bind_lift_ok. cbn [negb].
    destruct (count_messages p) as [e|n] eqn:Hc.
    + rewrite bind_lift_error. eexists; eexists. split; [reflexivity|].
      split; [discriminate | intros [_ [n H]]; discriminate].
    + rewrite bind_lift_ok. eexists; eexists. split; [reflexivity|].
      split; [eauto | reflexivity].
  - rewrite bind_lift_ok. cbn [negb]. eexists; eexists. split; [reflexivity|].
    split; [discriminate | intros [H _]; discriminate].
Qed.

End ConfigProperties.


(* ================================================================== *)
(** ** The theorems at work: closed runs with the reference decoder *)
(* ================================================================== *)

Import Examples.

(** The reference decoder on the texts the examples use. *)
Example loads_examples :
  Json.loads "not json" = None /\
  Json.loads (object1 "body" "hello") = Some (PDict [("body", PStr "hello")]) /\
  Json.loads "[]" = Some (PList []).
Proof. repeat split; reflexivity. Qed.

(** C1 at a row with payload text [not json] and pre-extracted text [hello]:
    the claim's chain picks hello, the row is dropped, and a poll over the
    store that holds it returns nothing. *)
Lemma C1_malformed_payload_row_is_dropped :
  Reader.decode_row Json.loads Clock.strftime "!room:beeper.local" malformed_row = inr None /\
  Row.text_content malformed_row = Some "hello" /\
  Spec.text_priority (Row.text_content malformed_row) None [] = PStr "hello" /\
  batch (Reader.get_recent_messages Json.loads Clock.strftime Listener (inr malformed_payload) 50 fresh) = [].
Proof.
  split; [|repeat split; reflexivity].
  apply (C1_unparsed_payload_drops_row Json.loads Clock.strftime "!room:beeper.local"
           malformed_row "not json"); reflexivity.
Defined.

(** What the loop after the [return] would have done on a store with one
    message: hand it to [send_notification]. *)
Example unreached_loop_would_notify :
  out (snd (Reader._start_monitoring_unreached Json.loads Clock.strftime Clock.sleep [inr whatsapp_hello] fresh))
  = [ Log "Starting Beeper database monitoring...";
      Log "Only showing messages NEWER than: 1970-01-01 00:00:01";
      Notify hello_message; Display hello_message; Sleep ] /\
  out (snd (Reader._start_monitoring "index.db" true [inr whatsapp_hello] fresh)) = [].
Proof. split; reflexivity. Qed.

(** The listener's own loop does poll: one cycle over the same store. *)
Example listener_loop_polls :
  out (snd (Reader.start_monitoring Json.loads Clock.strftime Clock.sleep (PFloat "1.0") [inr whatsapp_hello] fresh))
  = [ Log "Starting Beeper database monitoring...";
      Log "Only showing messages NEWER than: 1970-01-01 00:00:01";
      Display hello_message; Sleep ].
Proof. reflexivity. Qed.

(** C3 as stated fails: the query returns a row stamped 5000 whose text is
    blank and a row stamped 3000 that says hello; the maximum over the rows
    returned is 5000, the watermark after the call is 3000. *)
Lemma C3_blank_row_does_not_raise_watermark :
  map Row.timestamp (recent_rows blank_then_hello 1000 50) = [5000; 3000] /\
  Spec.watermark_over_rows (recent_rows blank_then_hello 1000 50) 1000 = 5000 /\
  last_timestamp
    (snd (Reader.get_recent_messages Json.loads Clock.strftime Listener (inr blank_then_hello) 50 fresh))
  = 3000.
Proof. repeat split; reflexivity. Qed.

(** C3 (amended) on two cycles over that store: no error is logged and the
    watermark ends at 3000, the stamp of the one message returned. *)
Lemma C3_two_cycles_end_at_returned_stamp :
  fst (Reader.poll_cycles Json.loads Clock.strftime Listener
         [inr blank_then_hello; inr blank_then_hello] fresh)
    = [ batch (Reader.get_recent_messages Json.loads Clock.strftime Listener (inr blank_then_hello) 50 fresh); [] ] /\
  last_timestamp
    (snd (Reader.poll_cycles Json.loads Clock.strftime Listener
            [inr blank_then_hello; inr blank_then_hello] fresh)) = 3000.
Proof.
  split; [reflexivity|].
  destruct (C3_watermark_is_max_of_returned Json.loads Clock.strftime Listener
              [inr blank_then_hello; inr blank_then_hello] fresh) as [_ H].
  rewrite H; reflexivity.
Defined.

(** C6 on a store that cannot be opened, in the three readers, and on a
    store whose sender metadata makes the decoding raise: the list is empty
    and the line says what failed. *)
Lemma C6_unreadable_store_logs_one_line :
  Reader.get_recent_messages Json.loads Clock.strftime Listener
    (inl (DatabaseError "unable to open database file")) 50 fresh
    = (inr [], {| db_path := None; last_timestamp := 1000; running := false;
                  out := [Log "Error reading database: unable to open database file"] |}) /\
  out (snd (Reader.get_recent_messages Json.loads Clock.strftime DataSource
              (inl (DatabaseError "unable to open database file")) 50 fresh))
    = [Log "Database error: unable to open database file"] /\
  Reader.get_thread_messages Json.loads Clock.strftime
    (inl (DatabaseError "unable to open database file")) "!room:beeper.local" 50 fresh
    = (inr [], {| db_path := None; last_timestamp := 1000; running := false;
                  out := [Log "Error reading thread: unable to open database file"] |}) /\
  (fst (Reader.get_recent_messages Json.loads Clock.strftime Listener (inr array_metadata) 50 fresh)
     = inr [] /\
   out (snd (Reader.get_recent_messages Json.loads Clock.strftime Listener
               (inr array_metadata) 50 fresh))
     = [Log "Error reading database: 'list' object has no attribute 'get'"]) /\
  Reader.get_thread_messages Json.loads Clock.strftime (inr array_metadata)
    "!room:beeper.local" 50 fresh
    = (inr [], {| db_path := None; last_timestamp := 1000; running := false;
                  out := [Log "Error reading thread: 'list' object has no attribute 'get'"] |}).
Proof.
  destruct (C6_store_failure_is_caught Json.loads Clock.strftime Listener
              (DatabaseError "unable to open database file") "!room:beeper.local" 50 fresh)
    as [H1 [H2 _]].
  destruct (C6_store_failure_is_caught Json.loads Clock.strftime DataSource
              (DatabaseError "unable to open database file") "!room:beeper.local" 50 fresh)
    as [_ [_ [_ [_ [[H3 _] _]]]]].
  destruct (C6_store_failure_is_caught Json.loads Clock.strftime Listener
              (AttributeError "'list' object has no attribute 'get'") "!room:beeper.local" 50 fresh)
    as [_ [_ [_ [_ [_ [_ [H4 [H5 _]]]]]]]].
  split; [exact H1|]. split; [exact H3|]. split; [exact H2|].
  split; [exact (H4 array_metadata eq_refl) | exact (H5 array_metadata eq_refl)].
Defined.

(** C4 as stated fails: a sender no rule matches, on an account whose platform
    name is signal, gives a message whose network is signal, which is not in
    the enumeration. *)
Lemma C4_network_outside_enumeration :
  batch (Reader.get_recent_messages Json.loads Clock.strftime Listener (inr signal_account) 50 fresh)
    = [signal_message] /\
  Message.network signal_message = "signal" /\
  existsb (String.eqb "signal") Spec.networks = false.
Proof. repeat split; reflexivity. Qed.

(** C4 (amended) at that message: its sender is a user of the store whose
    account has the platform name signal. *)
Lemma C4_invariant_at_signal_message :
  Message.text signal_message <> "" /\
  PyStr.strip (Message.text signal_message) <> "" /\
  In (Message.message_type signal_message) Store.allowed_types /\
  (In (Message.network signal_message) Spec.networks \/
   exists sid u a,
     Message.sender_id signal_message = Some sid /\
     find (Spec.rule_matches sid) Spec.rules_amended = None /\
     In u (Store.users signal_account) /\ Store.userID u = sid /\
     In a (Store.accounts signal_account) /\
     Store.accountID u = Some (Store.account_accountID a) /\
     Store.platformName a = Some (Message.network signal_message)).
Proof.
  apply (C4_returned_message_invariant Json.loads Clock.strftime Listener signal_account
           "!room:beeper.local" 50 fresh signal_message).
  left. left. reflexivity.
Defined.

(** C8 on examples: a WhatsApp chat named by [displayName], by [name] when
    [displayName] is null, by neither; the fallback on a long and on a short
    room id; and the message decoded from the greeting of local-whatsapp-5. *)
Lemma C8_thread_names_on_examples :
  _generate_thread_name "!room:beeper.local" "whatsapp" (PDict [("displayName", PStr "Alice")])
    = "WhatsApp: Alice" /\
  _generate_thread_name "!room:beeper.local" "whatsapp"
    (PDict [("displayName", PNone); ("name", PStr "Family")]) = "WhatsApp: Family" /\
  _generate_thread_name "!room:beeper.local" "whatsapp" (PDict [("username", PStr "alice")])
    = "WhatsApp Chat" /\
  _generate_thread_name "!abcdefghijklmnop:beeper.local" "discord" (PDict [])
    = "Chat (!abcdefg...)" /\
  _generate_thread_name "abc" "unknown" (PList []) = "Chat (abc...)" /\
  _generate_thread_name "!room:beeper.local" "linkedin" PNone = "LinkedIn Chat" /\
  _generate_thread_name "!room:beeper.local" "matrix" PNone = "Matrix/Beeper Chat" /\
  exists metadata,
    Message.raw_sender_data hello_message = PDict metadata /\
    Message.thread_name hello_message
      = Spec.thread_name (Message.room_id hello_message) (Message.network hello_message) metadata.
Proof.
  destruct (C8_thread_name_rules Json.loads Clock.strftime)
    as [_ [Hdecoded [_ [_ [Hdisplay [Hname [Hnone [_ [Hfixed [Hlong [Hshort _]]]]]]]]]]].
  split.
  { apply (Hdisplay "!room:beeper.local" "Alice"); [discriminate | reflexivity]. }
  split.
  { apply (Hname "!room:beeper.local" "Family");
      [discriminate | intros v H; injection H as <-; reflexivity | reflexivity]. }
  split.
  { apply (Hnone "!room:beeper.local"); intros v H; discriminate H. }
  split.
  { apply (Hlong "!abcdefg" "hijklmnop:beeper.local" "discord" (PDict []));
      [reflexivity | discriminate | discriminate | discriminate | discriminate]. }
  split.
  { apply (Hshort "abc" "unknown" (PList [])); [simpl; lia | discriminate..]. }
  split; [apply (Hfixed "!room:beeper.local" PNone)|].
  split; [apply (Hfixed "!room:beeper.local" PNone)|].
  apply (Hdecoded "!room:beeper.local"
           (Row.select (text_message "!room:beeper.local" (Some "local-whatsapp-5")
                          (Some (object1 "body" "hello")) 2000 None, None, None))).
  reflexivity.
Defined.

(** C5 as stated fails: with every test case-insensitive, an upper-case
    BEEPER.COM would be matrix; the code keeps the default. *)
Lemma C5_upper_case_beeper_domain :
  Spec.classify Spec.rules_claimed (Some "@bob:BEEPER.COM") None = "matrix" /\
  classify_network (Some "@bob:BEEPER.COM") None = "unknown".
Proof. split; reflexivity. Qed.

(** C9 at metadata [[]]: the sender block raises, and the poll that meets the
    row returns nothing and logs the error. *)
Lemma C9_array_metadata_aborts_poll :
  Reader.sender_info Json.loads (Some "@bob:example.org") (Some "[]")
    = inl (AttributeError "'list' object has no attribute 'get'") /\
  Reader.get_recent_messages Json.loads Clock.strftime Listener (inr array_metadata) 50 fresh
    = (inr [], record_event (Log "Error reading database: 'list' object has no attribute 'get'") fresh).
Proof.
  split; [|reflexivity].
  apply (C9_non_mapping_metadata_raises Json.loads (Some "@bob:example.org") "[]" (PList [])).
  - discriminate.
  - reflexivity.
  - intros d. discriminate.
Defined.

(** C10 at a reply and at a message that is none. *)
Lemma C10_reply_flag_on_examples :
  (exists row,
     (In row (recent_rows reply_store (last_timestamp fresh) 50) \/
      In row (thread_rows reply_store "telegram_news_42" 50)) /\
     Message.event_id reply_message = Row.event_id row /\
     Message.reply_to_id reply_message = Row.in_reply_to row /\
     (Message.is_reply reply_message = true <-> exists v, Row.in_reply_to row = Some v /\ v <> "") /\
     (Row.in_reply_to row = None \/ Row.in_reply_to row = Some "" ->
      Message.is_reply reply_message = false)) /\
  Message.is_reply reply_message = true /\
  batch (Reader.get_recent_messages Json.loads Clock.strftime Listener (inr whatsapp_hello) 50 fresh)
    = [hello_message] /\
  Message.is_reply hello_message = false.
Proof.
  split; [|repeat split; reflexivity].
  apply (C10_reply_flag_follows_column Json.loads Clock.strftime Listener reply_store
           "telegram_news_42" 50 fresh reply_message).
  right. left. reflexivity.
Defined.

(** Section 8, end to end, on the row that says hello from local-whatsapp-5. *)
Lemma end_to_end_on_the_hello_store :
  exists m,
    Reader.get_recent_messages Json.loads Clock.strftime DataSource (inr whatsapp_hello) 50 fresh
      = (inr [m], set_last_timestamp 2000 fresh) /\
    Message.text m = "hello" /\
    Message.network m = "whatsapp" /\
    Message.thread_name m = "WhatsApp Chat" /\
    Message.sender_id m = Some "local-whatsapp-5" /\
    Message.sender_name m = PStr "local-whatsapp-5" /\
    Message.room_id m = "!room:beeper.local" /\
    Message.thread_id m = "!room:beeper.local" /\
    Message.event_id m = "$event" /\
    Message.timestamp m = 2000 /\
    Message.message_type m = "TEXT" /\
    Message.human_time m = "1970-01-01 00:00:02" /\
    Reader.get_recent_messages Json.loads Clock.strftime DataSource (inr whatsapp_hello) 50
      (set_last_timestamp 2000 fresh)
      = (inr [], set_last_timestamp 2000 fresh).
Proof.
  apply (end_to_end_whatsapp_hello Json.loads Clock.strftime DataSource
           (text_message "!room:beeper.local" (Some "local-whatsapp-5")
              (Some (object1 "body" "hello")) 2000 None)
           [] [] "local-whatsapp-5" (object1 "body" "hello") "hello" "1970-01-01 00:00:02"
           50 fresh);
    try reflexivity.
  - intros u [].
  - discriminate.
  - discriminate.
  - discriminate.
Defined.

Example end_to_end_hello_run :
  Reader.get_recent_messages Json.loads Clock.strftime DataSource (inr whatsapp_hello) 50 fresh
    = (inr [hello_message], set_last_timestamp 2000 fresh) /\
  Reader.get_recent_messages Json.loads Clock.strftime DataSource (inr whatsapp_hello) 50
    (set_last_timestamp 2000 fresh) = (inr [], set_last_timestamp 2000 fresh).
Proof. split; reflexivity. Qed.

(** A row whose only text is three spaces. *)
Lemma blank_row_is_skipped :
  Reader.decode_row Json.loads Clock.strftime "!room:beeper.local" blank_row = inr None.
Proof.
  apply (blank_text_yields_no_message Json.loads Clock.strftime "!room:beeper.local" blank_row "   ");
    reflexivity.
Defined.

Lemma reply_message_is_of_its_thread :
  Message.room_id reply_message = "telegram_news_42" /\
  Message.thread_id reply_message = "telegram_news_42".
Proof.
  apply (thread_messages_are_of_the_thread Json.loads Clock.strftime reply_store
           "telegram_news_42" 50 fresh reply_message).
  left. reflexivity.
Defined.

Lemma hello_message_is_newer :
  last_timestamp fresh < Message.timestamp hello_message /\
  Message.thread_id hello_message = Message.room_id hello_message.
Proof.
  apply (recent_messages_are_newer Json.loads Clock.strftime Listener whatsapp_hello 50 fresh
           hello_message).
  left. reflexivity.
Defined.

Lemma display_name_is_the_sender_name :
  Reader.sender_info Json.loads (Some "@bob:example.org") (Some (object1 "displayName" "Bob"))
    = inr (PStr "Bob", PDict [("displayName", PStr "Bob")]).
Proof.
  apply (sender_info_on_mapping Json.loads (Some "@bob:example.org")
           (object1 "displayName" "Bob") [("displayName", PStr "Bob")]).
  - discriminate.
  - reflexivity.
Defined.

(** *** Closed runs for the further properties *)

Lemma hello_batch_within_limit :
  Z.of_nat (List.length
              (batch (Reader.get_recent_messages Json.loads Clock.strftime Listener
                        (inr whatsapp_hello) 50 fresh))) <= 50 /\
  Z.of_nat (List.length
              (batch (Reader.get_thread_messages Json.loads Clock.strftime
                        (inr whatsapp_hello) "!room:beeper.local" 50 fresh))) <= 50.
Proof.
  apply (batch_within_limit Json.loads Clock.strftime Listener (inr whatsapp_hello)
           "!room:beeper.local" 50 fresh).
  lia.
Defined.

Lemma signal_message_is_stored :
  exists x,
    In x (Store.mx_room_messages signal_account) /\
    Store.isDeleted x = 0 /\
    Message.room_id signal_message = Store.roomID x /\
    Message.event_id signal_message = Store.eventID x /\
    Message.timestamp signal_message = Store.timestamp x /\
    Message.message_type signal_message = Store.type x /\
    Message.sender_id signal_message = Store.senderContactID x /\
    Message.reply_to_id signal_message = Store.inReplyToID x /\
    Message.is_sent_by_me signal_message = negb (Store.isSentByMe x =? 0) /\
    Message.is_encrypted signal_message = negb (Store.isEncrypted x =? 0).
Proof.
  apply (returned_message_is_stored Json.loads Clock.strftime Listener signal_account
           "!room:beeper.local" 50 fresh signal_message).
  left. left. reflexivity.
Defined.

Lemma hello_message_has_payload :
  truthy (Message.raw_message_data hello_message) = true /\
  exists x text,
    In x (Store.mx_room_messages whatsapp_hello) /\ Store.message x = Some text /\ text <> "" /\
    Json.loads text = Some (Message.raw_message_data hello_message).
Proof.
  apply (returned_message_has_payload Json.loads Clock.strftime Listener whatsapp_hello
           "!room:beeper.local" 50 fresh hello_message).
  left. left. reflexivity.
Defined.

Lemma hello_sets_the_watermark :
  last_timestamp
    (snd (Reader.get_recent_messages Json.loads Clock.strftime Listener (inr whatsapp_hello) 50 fresh))
  = Message.timestamp hello_message.
Proof.
  apply (watermark_is_first_returned Json.loads Clock.strftime Listener (inr whatsapp_hello) 50
           fresh hello_message []).
  reflexivity.
Defined.

Lemma hello_is_in_its_thread :
  In hello_message
    (batch (Reader.get_thread_messages Json.loads Clock.strftime (inr whatsapp_hello)
              (Message.room_id hello_message) (-1) fresh)).
Proof.
  apply (polled_message_is_in_thread_history Json.loads Clock.strftime Listener whatsapp_hello
           50 (-1) fresh fresh hello_message).
  - left. reflexivity.
  - lia.
  - reflexivity.
Defined.

(** The hello stamped 3000 is decoded, then the row below it raises: the call
    returns nothing, the watermark is 3000, and the hello is gone. *)
Lemma hello_lost_to_a_later_failure :
  fst (Reader.get_recent_messages Json.loads Clock.strftime Listener (inr hello_above_array) 50 fresh)
    = inr [] /\
  out (snd (Reader.get_recent_messages Json.loads Clock.strftime Listener (inr hello_above_array) 50 fresh))
    = (out fresh ++ [Log (Reader.error_line Listener
                            (AttributeError "'list' object has no attribute 'get'"))])%list /\
  Message.timestamp late_hello_message
    <= last_timestamp
         (snd (Reader.get_recent_messages Json.loads Clock.strftime Listener
                 (inr hello_above_array) 50 fresh)) /\
  (forall c2 db2 limit2 s2 m2,
     last_timestamp
       (snd (Reader.get_recent_messages Json.loads Clock.strftime Listener
               (inr hello_above_array) 50 fresh)) <= last_timestamp s2 ->
     In m2 (batch (Reader.get_recent_messages Json.loads Clock.strftime c2 (inr db2) limit2 s2)) ->
     Message.timestamp late_hello_message < Message.timestamp m2).
Proof.
  apply (failed_poll_drops_decoded_messages Json.loads Clock.strftime Listener hello_above_array
           50 fresh (AttributeError "'list' object has no attribute 'get'") late_hello_message).
  - reflexivity.
  - left. reflexivity.
Defined.

Lemma monitoring_two_cycles :
  (fst (Reader.start_monitoring Json.loads Clock.strftime Clock.sleep (PFloat "1.0") two_stores fresh)
     = inr tt /\
   running (snd (Reader.start_monitoring Json.loads Clock.strftime Clock.sleep
                   (PFloat "1.0") two_stores fresh)) = false /\
   last_timestamp (snd (Reader.start_monitoring Json.loads Clock.strftime Clock.sleep
                          (PFloat "1.0") two_stores fresh))
     = last_timestamp (snd (Reader.poll_cycles Json.loads Clock.strftime Listener
                              two_stores fresh)) /\
   displayed (out (snd (Reader.start_monitoring Json.loads Clock.strftime Clock.sleep
                          (PFloat "1.0") two_stores fresh)))
     = (displayed (out fresh)
        ++ List.concat (fst (Reader.poll_cycles Json.loads Clock.strftime Listener
                               two_stores fresh)))%list /\
   sleeps (out (snd (Reader.start_monitoring Json.loads Clock.strftime Clock.sleep
                       (PFloat "1.0") two_stores fresh)))
     = (sleeps (out fresh) + List.length two_stores)%nat) /\
  (fst (Reader.start_monitoring Json.loads Clock.strftime Clock.sleep (PInt (-1)) two_stores fresh)
     = inr tt /\
   running (snd (Reader.start_monitoring Json.loads Clock.strftime Clock.sleep
                   (PInt (-1)) two_stores fresh)) = false /\
   last_timestamp (snd (Reader.start_monitoring Json.loads Clock.strftime Clock.sleep
                          (PInt (-1)) two_stores fresh))
     = last_timestamp (snd (Reader.get_recent_messages Json.loads Clock.strftime Listener
                              (inr whatsapp_hello) 50 fresh)) /\
   displayed (out (snd (Reader.start_monitoring Json.loads Clock.strftime Clock.sleep
                          (PInt (-1)) two_stores fresh)))
     = (displayed (out fresh)
        ++ batch (Reader.get_recent_messages Json.loads Clock.strftime Listener
                    (inr whatsapp_hello) 50 fresh))%list /\
   sleeps (out (snd (Reader.start_monitoring Json.loads Clock.strftime Clock.sleep
                       (PInt (-1)) two_stores fresh)))
     = sleeps (out fresh) /\
   exists before,
     out (snd (Reader.start_monitoring Json.loads Clock.strftime Clock.sleep
                 (PInt (-1)) two_stores fresh))
       = (before ++ [Log "Error during monitoring: sleep length must be non-negative"])%list).
Proof.
  split.
  - destruct (start_monitoring_displays_the_batches Json.loads Clock.strftime Clock.sleep
                (PFloat "1.0") two_stores fresh "1970-01-01 00:00:01" eq_refl)
      as [H1 [H2 [H3 _]]].
    split; [exact H1|]. split; [exact H2|]. exact (H3 eq_refl).
  - destruct (start_monitoring_displays_the_batches Json.loads Clock.strftime Clock.sleep
                (PInt (-1)) two_stores fresh "1970-01-01 00:00:01" eq_refl)
      as [H1 [H2 [_ H4]]].
    split; [exact H1|]. split; [exact H2|].
    exact (H4 (ValueError "sleep length must be non-negative") (inr whatsapp_hello)
              [inr reply_store] eq_refl eq_refl).
Defined.

Example monitoring_two_cycles_trace :
  displayed (out (snd (Reader.start_monitoring Json.loads Clock.strftime Clock.sleep
                         (PFloat "1.0") two_stores fresh)))
    = [hello_message; reply_message].
Proof. reflexivity. Qed.

(** A negative interval: the first batch is displayed, [time.sleep] raises,
    and the second store is never read.  A string is refused the same way. *)
Example monitoring_with_a_negative_interval :
  Reader.start_monitoring Json.loads Clock.strftime Clock.sleep (PInt (-1)) two_stores fresh
    = (inr tt,
       {| db_path := db_path fresh;
          last_timestamp := Message.timestamp hello_message;
          running := false;
          out := [ Log "Starting Beeper database monitoring...";
                   Log "Only showing messages NEWER than: 1970-01-01 00:00:01";
                   Display hello_message;
                   Log "Error during monitoring: sleep length must be non-negative" ] |}) /\
  out (snd (Reader.start_monitoring Json.loads Clock.strftime Clock.sleep (PStr "1")
              two_stores fresh))
    = [ Log "Starting Beeper database monitoring...";
        Log "Only showing messages NEWER than: 1970-01-01 00:00:01";
        Display hello_message;
        Log "Error during monitoring: 'str' object cannot be interpreted as an integer" ].
Proof. split; reflexivity. Qed.

Lemma reply_after_hello :
  last_timestamp fresh < Message.timestamp hello_message /\
  Message.timestamp hello_message < Message.timestamp reply_message.
Proof.
  apply (poll_cycles_deliver_newer_messages Json.loads Clock.strftime Listener
           (inr whatsapp_hello) [inr reply_store] fresh hello_message reply_message).
  - left. reflexivity.
  - left. reflexivity.
Defined.

(** Two user records under one user id make the join repeat the message:
    the poll returns it twice. *)
Example twin_users_repeat_the_message :
  map Message.event_id
    (batch (Reader.get_recent_messages Json.loads Clock.strftime Listener (inr twin_users) 50 fresh))
  = ["$event"; "$event"].
Proof. reflexivity. Qed.

Lemma family_room_info :
  snd (Rooms.get_room_info Json.loads json_error (inr some_threads) "!room:beeper.local" fresh)
    = fresh /\
  Rooms.room_id {| Rooms.room_id := "!room:beeper.local";
                   Rooms.thread_data := PDict [("title", PStr "Family")];
                   Rooms.last_activity := Some 4000 |} = "!room:beeper.local" /\
  exists threads row,
    (inr some_threads : E (list Rooms.thread_record)) = inr threads /\ In row threads /\
    Rooms.threadID row = "!room:beeper.local" /\
    Rooms.last_activity {| Rooms.room_id := "!room:beeper.local";
                           Rooms.thread_data := PDict [("title", PStr "Family")];
                           Rooms.last_activity := Some 4000 |} = Rooms.timestamp row /\
    match if_text (Rooms.thread row) with
    | Some text => Json.loads text
                   = Some (Rooms.thread_data
                             {| Rooms.room_id := "!room:beeper.local";
                                Rooms.thread_data := PDict [("title", PStr "Family")];
                                Rooms.last_activity := Some 4000 |})
    | None => Rooms.thread_data
                {| Rooms.room_id := "!room:beeper.local";
                   Rooms.thread_data := PDict [("title", PStr "Family")];
                   Rooms.last_activity := Some 4000 |} = PDict []
    end.
Proof.
  apply (room_info_is_of_a_stored_thread Json.loads json_error (inr some_threads)
           "!room:beeper.local" fresh).
  reflexivity.
Defined.

(** The thread whose blob is not JSON, and a room the table does not hold. *)
Example broken_and_unknown_rooms :
  Rooms.get_room_info Json.loads json_error (inr some_threads) "!broken:beeper.local" fresh
    = (inr None,
       record_event (Log "Error getting room info: Expecting value: line 1 column 1 (char 0)") fresh) /\
  Rooms.get_room_info Json.loads json_error (inr some_threads) "!nowhere:beeper.local" fresh
    = (inr None, fresh) /\
  fst (Rooms.get_room_info Json.loads json_error (inr some_threads) "!empty:beeper.local" fresh)
    = inr (Some {| Rooms.room_id := "!empty:beeper.local"; Rooms.thread_data := PDict [];
                   Rooms.last_activity := None |}).
Proof. repeat split; reflexivity. Qed.

Lemma configured_path_is_not_none :
  Config.is_none (Config._cfg upper environment None "database_path" (PStr "/home/u/index.db")) = false.
Proof.
  apply (cfg_none_only_by_default upper environment None "database_path" (PStr "/home/u/index.db")).
  reflexivity.
Defined.

Lemma empty_session_path_wins :
  Config._cfg upper environment (Some [("database_path", PStr "")]) "database_path"
    (PStr "/home/u/index.db") = PStr "" /\
  Config._cfg upper environment (Some []) "database_path" (PStr "/home/u/index.db")
    = Config._cfg upper environment None "database_path" (PStr "/home/u/index.db").
Proof.
  apply (cfg_session_wins upper environment [("database_path", PStr "")] "database_path"
           (PStr "") (PStr "/home/u/index.db")); reflexivity.
Defined.

(** The connection test with the path from the environment, and with an
    empty path from the session. *)
Example connection_tests :
  Config.test_connection upper environment one_file count_42 None "/home/u/index.db" fresh
    = (inr true, record_event (Log "Database connection successful. Found 42 messages.") fresh) /\
  Config.test_connection upper environment one_file count_42
    (Some [("database_path", PStr "")]) "/home/u/index.db" fresh
    = (inr false, record_event (Log "Database file not found: ") fresh).
Proof. split; reflexivity. Qed.

Lemma fresh_listener_shows_the_hello :
  1000 < Message.timestamp hello_message.
Proof.
  apply (fresh_listener_replays_no_history Json.loads Clock.strftime Clock.sleep 1000
           "/home/u/index.db" None (PFloat "1.0") [inr whatsapp_hello] "1970-01-01 00:00:01"
           hello_message).
  - reflexivity.
  - left. reflexivity.
Defined.
